(** * Multi-provider AI response orchestration (auroro-ai backend)

    A shallow embedding of the response aggregate (ai.model.js), the provider
    caller (ai.service.js), the two revisions of the AI controller that the
    repository carries (src/api/v1/ai/ai.controller.js and the revised copy
    with conversation history and "undo selection") and the single-model
    controller (ai-model.controller.js), followed by the properties of the
    orchestration state machine.

    Conventions of the embedding
    - a MongoDB collection is a finite map from ObjectIds to documents;
    - [new Date()] / [Date.now()] is an explicit argument [now : Z]
      (milliseconds), one reading per handler invocation;
    - everything the process cannot decide by itself (the gateway's answer,
      a failing database read, the draws of [Math.random]) is read from a
      [World] record;
    - a JavaScript [throw] is the [Throw] constructor of [Outcome];
    - a string is held as the bytes of its UTF-8 encoding, and measured and
      cut in UTF-16 code units; a number that holds an integer is that
      integer, and the token total, the one sum of the code that can grow
      large, is rounded as doubles are;
    - a handler runs in one step: the document it saves is the one it has
      read from the collection it saves to;
    - the dynamic field [`${model}_response`] is addressed by the model name:
      the suffix is the same on both sides of every comparison the code makes. *)

From Stdlib Require Import ZArith QArith Lia Ascii String.
From stdpp Require Import gmap strings list.

Local Open Scope Z_scope.
Local Open Scope string_scope.
Local Open Scope list_scope.

(** ** JavaScript values used by the code *)

Abbreviation ObjectId := N.

(** Result of a call that may throw. *)
Inductive Outcome (E A : Type) : Type :=
| Return (a : A)
| Throw (e : E).
Arguments Return {E A} a.
Arguments Throw {E A} e.

#[global] Instance Outcome_fmap {E : Type} : FMap (Outcome E) :=
  fun A B f o => match o with Return a => Return (f a) | Throw e => Throw e end.

(** An [Error] object as the catch blocks read it: [error.message] and, for an
    HTTP error reported by axios, [error.response.data]. *)
Record ErrData := {
  ed_error_message : option string;   (* data.error?.message *)
  ed_message : option string;         (* data.message *)
  ed_json : string                    (* JSON.stringify(data) *)
}.

Record JsError := {
  err_name : string;
  err_message : string;
  err_data : option ErrData           (* error.response?.data, when truthy *)
}.

Definition Error (msg : string) : JsError :=
  {| err_name := "Error"; err_message := msg; err_data := None |}.

Definition TypeError (msg : string) : JsError :=
  {| err_name := "TypeError"; err_message := msg; err_data := None |}.

Definition ValidationError (msg : string) : JsError :=
  {| err_name := "ValidationError"; err_message := msg; err_data := None |}.

(** Truthiness of a possibly undefined string: [undefined], [null] and [''] are
    falsy. *)
Definition truthy (s : option string) : bool :=
  match s with
  | Some EmptyString => false
  | Some _ => true
  | None => false
  end.

(** [a || b] on possibly undefined strings. *)
Definition or_else (a : option string) (b : string) : string :=
  match a with
  | Some s => if truthy a then s else b
  | None => b
  end.

(** *** Strings

    A JavaScript string is held as the bytes of its UTF-8 encoding, a lone
    surrogate as the three bytes of its code unit, so that the literals of the
    code read as they are written.  [length] and [substring] count UTF-16
    code units and [trim] removes the white space of the language, as the
    engine does. *)

Definition byte (c : ascii) : N := N_of_ascii c.

(** The bytes [10xxxxxx], which continue a code point. *)
Definition continuation (c : ascii) : bool := N.leb 128 (byte c) && N.ltb (byte c) 192.

(** The code units of the code point that a byte starts: two for the lead
    byte of a four-byte sequence (a code point above U+FFFF, a surrogate pair
    in UTF-16), none for a continuation byte. *)
Definition units (c : ascii) : nat :=
  if continuation c then 0%nat else if N.leb 240 (byte c) then 2%nat else 1%nat.

(** [s.length] *)
Fixpoint js_length (s : string) : nat :=
  match s with
  | EmptyString => 0%nat
  | String c s' => (units c + js_length s')%nat
  end.

(** The high surrogate of the code point whose four-byte sequence starts with
    [b0 b1 b2]: the code unit [0xD800 + (cp - 0x10000) / 0x400]. *)
Definition high_surrogate (b0 b1 b2 : ascii) : string :=
  let top := (byte b0 mod 8 * 256 + byte b1 mod 64 * 4 + byte b2 mod 64 / 16)%N in
  let hi := (top - 64)%N in
  String (ascii_of_N 237)
    (String (ascii_of_N (160 + hi / 64 mod 16))
       (String (ascii_of_N (128 + hi mod 64)) EmptyString)).

(** [s.substring(0, n)]: the first [n] code units; a cut between the two
    units of a surrogate pair keeps the high surrogate. *)
Fixpoint js_prefix (n : nat) (s : string) : string :=
  match s with
  | EmptyString => EmptyString
  | String c s' =>
      if continuation c then String c (js_prefix n s')
      else
        match n with
        | O => EmptyString
        | S n' =>
            if N.leb 240 (byte c) then
              match n' with
              | O =>
                  match s' with
                  | String b1 (String b2 _) => high_surrogate c b1 b2
                  | _ => EmptyString
                  end
              | S n'' => String c (js_prefix n'' s')
              end
            else String c (js_prefix n' s')
        end
  end.

(** The rest of the string after one white space or line terminator at its
    head: U+0009 to U+000D, U+0020, U+00A0, U+1680, U+2000 to U+200A, U+2028,
    U+2029, U+202F, U+205F, U+3000 and U+FEFF. *)
Definition after_space (s : string) : option string :=
  match s with
  | EmptyString => None
  | String a s1 =>
      let x := byte a in
      if N.leb 9 x && N.leb x 13 || N.eqb x 32 then Some s1
      else
        match s1 with
        | EmptyString => None
        | String b s2 =>
            let y := byte b in
            if N.eqb x 194 && N.eqb y 160 then Some s2
            else
              match s2 with
              | EmptyString => None
              | String c s3 =>
                  let z := byte c in
                  if N.eqb x 225 && N.eqb y 154 && N.eqb z 128
                     || N.eqb x 226 && N.eqb y 128
                        && (N.leb 128 z && N.leb z 138 || N.eqb z 168 || N.eqb z 169
                            || N.eqb z 175)
                     || N.eqb x 226 && N.eqb y 129 && N.eqb z 159
                     || N.eqb x 227 && N.eqb y 128 && N.eqb z 128
                     || N.eqb x 239 && N.eqb y 187 && N.eqb z 191
                  then Some s3
                  else None
              end
        end
  end.

Fixpoint drop_spaces (fuel : nat) (s : string) : string :=
  match fuel with
  | O => s
  | S fuel' =>
      match after_space s with
      | Some rest => drop_spaces fuel' rest
      | None => s
      end
  end.

Definition trim_start (s : string) : string := drop_spaces (String.length s) s.

(** White space only. *)
Definition blank (s : string) : bool :=
  match trim_start s with
  | EmptyString => true
  | _ => false
  end.

Fixpoint trim_end (s : string) : string :=
  match s with
  | EmptyString => EmptyString
  | String c s' => if blank s then EmptyString else String c (trim_end s')
  end.

(** [String.prototype.trim] *)
Definition trim (s : string) : string := trim_end (trim_start s).

(** ** ai.model.js: the schema *)

Inductive Status := pending | success | error.

Inductive OverallStatus := processing | completed | partial | failed.

Inductive Model := gemini | openai | deepseek | microsoft | llama.

#[global] Instance Status_eq_dec : EqDecision Status.
Proof. solve_decision. Defined.

#[global] Instance OverallStatus_eq_dec : EqDecision OverallStatus.
Proof. solve_decision. Defined.

#[global] Instance Model_eq_dec : EqDecision Model.
Proof. solve_decision. Defined.

Definition model_name (m : Model) : string :=
  match m with
  | gemini => "gemini"
  | openai => "openai"
  | deepseek => "deepseek"
  | microsoft => "microsoft"
  | llama => "llama"
  end.

#[global] Instance model_name_Inj : Inj (=) (=) model_name.
Proof. intros [] []; simpl; intros H; first [reflexivity | discriminate H]. Qed.

(** The list literal [['gemini', 'openai', 'deepseek', 'microsoft', 'llama']]
    that the schema and the controllers repeat. *)
Definition modelFields : list Model := [gemini; openai; deepseek; microsoft; llama].
Definition models : list string := model_name <$> modelFields.

(** Which of the five response paths of the schema a name addresses. *)
Definition known_model (s : string) : option Model :=
  if String.eqb s "gemini" then Some gemini
  else if String.eqb s "openai" then Some openai
  else if String.eqb s "deepseek" then Some deepseek
  else if String.eqb s "microsoft" then Some microsoft
  else if String.eqb s "llama" then Some llama
  else None.

Record Tokens := {
  tk_prompt : Z;
  tk_completion : Z;
  tk_total : Z
}.

Definition zero_tokens : Tokens :=
  {| tk_prompt := 0; tk_completion := 0; tk_total := 0 |}.

(** A plain object as the service and the controllers build it, before it is
    stored: absent properties are [None]. *)
Record RawResponse := {
  r_model : string;
  r_response : option string;
  r_status : Status;
  r_errorMessage : option string;
  r_tokens : option Tokens;
  r_responseTime : option Z;
  r_createdAt : option Z
}.

(** [aiModelResponseSchema]. *)
Record ModelResponse := {
  model : string;
  response : option string;
  status : Status;
  errorMessage : option string;
  tokens : Tokens;
  responseTime : Z;
  isEdited : bool;
  createdAt : Z
}.

(** Casting a plain object to the sub-schema: strings are trimmed, missing
    numbers and dates take their defaults. *)
Definition cast (now : Z) (r : RawResponse) : ModelResponse :=
  {| model := r_model r;
     response := trim <$> r_response r;
     status := r_status r;
     errorMessage := trim <$> r_errorMessage r;
     tokens := default zero_tokens (r_tokens r);
     responseTime := default 0 (r_responseTime r);
     isEdited := false;
     createdAt := default now (r_createdAt r) |}.

Record Settings := {
  temperature : option Q;
  maxTokens : option Z;
  enabledModels : option (list string);
  previousResponseId : option ObjectId
}.

(** A document of the collection: the paths of [aiResponseSchema], and
    [selectedModel], which is no path of the schema: the native update of the
    revised controller writes it into the stored document, and nothing that
    goes through the model can set or unset it.  [ipAddress], [userAgent],
    [createdBy] and [totalCost] are carried along by the code and never read:
    they are left out. *)
Record AIResponse := {
  prompt : string;
  userId : ObjectId;
  projectId : option ObjectId;
  gemini_response : option ModelResponse;
  openai_response : option ModelResponse;
  deepseek_response : option ModelResponse;
  microsoft_response : option ModelResponse;
  llama_response : option ModelResponse;
  totalModels : Z;
  completedModels : Z;
  failedModels : Z;
  settings : Settings;
  overallStatus : OverallStatus;
  startTime : Z;
  endTime : option Z;
  totalDuration : Z;
  totalTokensUsed : Z;
  selectedModel : option string;
  updatedBy : option ObjectId;
  updatedAt : Z
}.

#[global] Instance Q_eq_dec : EqDecision Q.
Proof. solve_decision. Defined.

#[global] Instance Tokens_eq_dec : EqDecision Tokens.
Proof. solve_decision. Defined.

#[global] Instance ModelResponse_eq_dec : EqDecision ModelResponse.
Proof. solve_decision. Defined.

#[global] Instance Settings_eq_dec : EqDecision Settings.
Proof. solve_decision. Defined.

#[global] Instance AIResponse_eq_dec : EqDecision AIResponse.
Proof. solve_decision. Defined.

(** Reading [doc[`${m}_response`]]. *)
Definition field (d : AIResponse) (m : Model) : option ModelResponse :=
  match m with
  | gemini => gemini_response d
  | openai => openai_response d
  | deepseek => deepseek_response d
  | microsoft => microsoft_response d
  | llama => llama_response d
  end.

(** Writing [doc[`${m}_response`] = v] ([None] for [undefined] / [$unset]). *)
Definition set_field (m : Model) (v : option ModelResponse) (d : AIResponse) : AIResponse :=
  let 'Build_AIResponse p u pj g o dk ms l tm cm fm st os s0 e td tu sm ub ua := d in
  match m with
  | gemini => Build_AIResponse p u pj v o dk ms l tm cm fm st os s0 e td tu sm ub ua
  | openai => Build_AIResponse p u pj g v dk ms l tm cm fm st os s0 e td tu sm ub ua
  | deepseek => Build_AIResponse p u pj g o v ms l tm cm fm st os s0 e td tu sm ub ua
  | microsoft => Build_AIResponse p u pj g o dk v l tm cm fm st os s0 e td tu sm ub ua
  | llama => Build_AIResponse p u pj g o dk ms v tm cm fm st os s0 e td tu sm ub ua
  end.

(** The same through a name taken from a request: a name outside the schema
    addresses no path (strict schema), so reading gives [undefined] and
    writing is dropped. *)
Definition field_by_name (d : AIResponse) (name : string) : option ModelResponse :=
  m ← known_model name; field d m.

Definition set_field_by_name (name : string) (v : option ModelResponse) (d : AIResponse) : AIResponse :=
  match known_model name with
  | Some m => set_field m v d
  | None => d
  end.

Definition set_counters (cm fm tu : Z) (d : AIResponse) : AIResponse :=
  let 'Build_AIResponse p u pj g o dk ms l tm _ _ st os s0 e td _ sm ub ua := d in
  Build_AIResponse p u pj g o dk ms l tm cm fm st os s0 e td tu sm ub ua.

Definition set_totalModels (tm : Z) (d : AIResponse) : AIResponse :=
  let 'Build_AIResponse p u pj g o dk ms l _ cm fm st os s0 e td tu sm ub ua := d in
  Build_AIResponse p u pj g o dk ms l tm cm fm st os s0 e td tu sm ub ua.

Definition set_overallStatus (os : OverallStatus) (d : AIResponse) : AIResponse :=
  let 'Build_AIResponse p u pj g o dk ms l tm cm fm st _ s0 e td tu sm ub ua := d in
  Build_AIResponse p u pj g o dk ms l tm cm fm st os s0 e td tu sm ub ua.

(** [this.endTime = new Date(); this.totalDuration = this.endTime - this.startTime]. *)
Definition set_ended (now : Z) (d : AIResponse) : AIResponse :=
  let 'Build_AIResponse p u pj g o dk ms l tm cm fm st os s0 _ _ tu sm ub ua := d in
  Build_AIResponse p u pj g o dk ms l tm cm fm st os s0 (Some now) (now - s0) tu sm ub ua.

Definition set_enabledModels (l : list string) (d : AIResponse) : AIResponse :=
  let 'Build_AIResponse p u pj g o dk ms ll tm cm fm st os s0 e td tu sm ub ua := d in
  let st' := {| temperature := temperature st; maxTokens := maxTokens st;
                enabledModels := Some l; previousResponseId := previousResponseId st |} in
  Build_AIResponse p u pj g o dk ms ll tm cm fm st' os s0 e td tu sm ub ua.

Definition set_selectedModel (sm : option string) (d : AIResponse) : AIResponse :=
  let 'Build_AIResponse p u pj g o dk ms l tm cm fm st os s0 e td tu _ ub ua := d in
  Build_AIResponse p u pj g o dk ms l tm cm fm st os s0 e td tu sm ub ua.

Definition set_updatedBy (ub : ObjectId) (d : AIResponse) : AIResponse :=
  let 'Build_AIResponse p u pj g o dk ms l tm cm fm st os s0 e td tu sm _ ua := d in
  Build_AIResponse p u pj g o dk ms l tm cm fm st os s0 e td tu sm (Some ub) ua.

Definition set_updatedAt (ua : Z) (d : AIResponse) : AIResponse :=
  let 'Build_AIResponse p u pj g o dk ms l tm cm fm st os s0 e td tu sm ub _ := d in
  Build_AIResponse p u pj g o dk ms l tm cm fm st os s0 e td tu sm ub ua.

(** *** The pre-save middleware *)

(** A JavaScript number that holds an integer is kept as that integer.  The
    nearest double to an integer: itself below 2^53 in absolute value, and
    beyond that the nearest multiple of the spacing of the doubles there, the
    one with the even significand at a tie.  (Integers beyond the range of the
    doubles, about 1.8e308, are not represented.) *)
Definition to_double (z : Z) : Z :=
  let a := Z.abs z in
  if Z.ltb a (2 ^ 53) then z
  else
    let ulp := 2 ^ (Z.log2 a - 52) in
    let q := a / ulp in
    let r := a mod ulp in
    let up := Z.ltb ulp (2 * r) || (Z.eqb (2 * r) ulp && Z.odd q) in
    Z.sgn z * ((if up then q + 1 else q) * ulp).

(** [a + b] on two such numbers: the sum, rounded. *)
Definition js_add (a b : Z) : Z := to_double (a + b).

(** One turn of the [modelFields.forEach] loop on the three local counters
    [(completed, failed, totalTokens)]. *)
Definition tally (d : AIResponse) (acc : Z * Z * Z) (f : Model) : Z * Z * Z :=
  let '(c, fl, t) := acc in
  match field d f with
  | Some r =>
      match status r with
      | success => (c + 1, fl, js_add t (tk_total (tokens r)))
      | error => (c, fl + 1, t)
      | pending => (c, fl, t)
      end
  | None => (c, fl, t)
  end.

Definition preSave (now : Z) (d : AIResponse) : AIResponse :=
  let '(c, fl, t) := foldl (tally d) (0, 0, 0) modelFields in
  let d1 := set_counters c fl t d in
  if Z.eqb c (totalModels d) then
    set_ended now (set_overallStatus completed d1)
  else if Z.ltb 0 c || Z.ltb 0 fl then
    if Z.eqb (c + fl) (totalModels d) then
      set_ended now (set_overallStatus (if Z.ltb 0 c then partial else failed) d1)
    else d1
  else d1.

(** ** The collection *)

(** [doc.save()] by a handler that has read the document of that id from [db]
    in the same step, or has just built it.  The [timestamps] hook comes
    first and stamps [updatedAt] when the document is new or the handler has
    changed a path of it; then the pre-save middleware runs; then the paths
    that differ from the stored document are written, which leaves the stored
    document equal to the handler's.  The saved document is returned too,
    since the handlers answer with it. *)
Definition save (now : Z) (id : ObjectId) (d : AIResponse)
    (db : gmap ObjectId AIResponse) : AIResponse * gmap ObjectId AIResponse :=
  let modified :=
    match db !! id with
    | Some loaded => bool_decide (d <> loaded)
    | None => true
    end in
  let d' := preSave now (if modified then set_updatedAt now d else d) in
  (d', <[id := d']> db).

(** [AIResponse.findOne({ _id: id, userId })]. *)
Definition findOne (db : gmap ObjectId AIResponse) (id uid : ObjectId) : option AIResponse :=
  d ← db !! id; if N.eqb (userId d) uid then Some d else None.

(** The update document of the background task:
    [{ [`${model}_response`]: value, updatedAt }]. *)
Record Patch := {
  p_model : string;
  p_value : RawResponse;
  p_updatedAt : Z
}.

Definition apply_patch (p : Patch) (d : AIResponse) : AIResponse :=
  set_updatedAt (p_updatedAt p)
    (set_field_by_name (p_model p) (Some (cast (p_updatedAt p) (p_value p))) d).

(** [AIResponse.findByIdAndUpdate(id, patch)]: a query update.  It sets the
    listed paths on the stored document if there is one; document middleware
    (the pre-save hook) is not run by query updates. *)
Definition findByIdAndUpdate (id : ObjectId) (p : Patch)
    (db : gmap ObjectId AIResponse) : gmap ObjectId AIResponse :=
  match db !! id with
  | Some d => <[id := apply_patch p d]> db
  | None => db
  end.

(** ** ai.service.js: the provider registry and the provider caller *)

Record Provider := {
  name : string;
  apiModel : string;
  apiKey : option string;
  enabled : bool
}.

(** [this.providers] has exactly the five keys of [Model]; [this.providers[k]]
    for any other key is [undefined]. *)
Record AIService := {
  testMode : bool;
  provider : Model -> Provider
}.

Record ProcessEnv := {
  OPENROUTER_API_KEY : option string;
  GEMINI_API_KEY : option string;
  DEEPSEEK_API_KEY : option string;
  MICROSOFT_API_KEY : option string;
  LLAMA_API_KEY : option string;
  OPENAI_API_KEY : option string;
  AI_TEST_MODE : option string;
  NODE_ENV : option string
}.

(** [a || b] on environment variables. *)
Definition env_or (a b : option string) : option string :=
  if truthy a then a else b.

Definition newProvider (env : ProcessEnv) (test : bool) (nm api : string)
    (own : option string) : Provider :=
  let key := env_or (OPENROUTER_API_KEY env) own in
  {| name := nm; apiModel := api; apiKey := key; enabled := truthy key || test |}.

(** The constructor of [AIService]. *)
Definition newAIService (env : ProcessEnv) : AIService :=
  let test :=
    match AI_TEST_MODE env, NODE_ENV env with
    | Some a, Some n => String.eqb a "true" || String.eqb n "development"
    | Some a, None => String.eqb a "true"
    | None, Some n => String.eqb n "development"
    | None, None => false
    end in
  {| testMode := test;
     provider := fun m =>
       match m with
       | gemini => newProvider env test "Gemini" "google/gemini-2.0-flash-exp:free" (GEMINI_API_KEY env)
       | deepseek => newProvider env test "DeepSeek" "tngtech/deepseek-r1t2-chimera:free" (DEEPSEEK_API_KEY env)
       | microsoft => newProvider env test "Microsoft MAI" "microsoft/mai-ds-r1:free" (MICROSOFT_API_KEY env)
       | llama => newProvider env test "Llama" "meta-llama/llama-4-maverick:free" (LLAMA_API_KEY env)
       | openai => newProvider env test "OpenAI" "openai/gpt-oss-20b:free" (OPENAI_API_KEY env)
       end |}.

(** The keys that every object inherits from [Object.prototype]:
    [this.providers[k]] is then a function or an object, which is truthy and
    has no [enabled]. *)
Definition inherited_key (s : string) : bool :=
  existsb (String.eqb s)
    ["constructor"; "__defineGetter__"; "__defineSetter__"; "hasOwnProperty";
     "__lookupGetter__"; "__lookupSetter__"; "isPrototypeOf"; "propertyIsEnumerable";
     "toString"; "valueOf"; "__proto__"; "toLocaleString"].

(** [this.providers[model]?.enabled] *)
Definition provider_enabled (svc : AIService) (modelName : string) : bool :=
  match known_model modelName with
  | Some m => enabled (provider svc m)
  | None => false
  end.

(** [getEnabledProviders().map(p => p.key)], in the key order of the object
    literal of the constructor. *)
Definition getEnabledProviders (svc : AIService) : list string :=
  model_name <$>
    List.filter (fun m => enabled (provider svc m)) [gemini; deepseek; microsoft; llama; openai].

(** *** What the outside world answers *)

Record Message := {
  role : string;
  content : string          (* the text of the single [{type: 'text', text}] part *)
}.

Record Request := {
  req_model : string;
  req_messages : list Message;
  req_temperature : Q;
  req_max_tokens : Z;
  req_bearer : string
}.

Record Usage := {
  prompt_tokens : option Z;
  completion_tokens : option Z;
  total_tokens : option Z
}.

(** [response.data] of a fulfilled POST: [choices?.[0]?.message?.content] and
    [usage]. *)
Record Body := {
  choice_content : option string;
  usage : option Usage
}.

Inductive AxiosResult :=
| Fulfilled (data : option Body)   (* [None]: [response.data] is null *)
| Rejected (e : JsError).          (* network error, timeout, non-2xx status *)

(** The draws of [Math.random] in [generateMockResponse], with the two
    [Math.floor] of the floating products taken as drawn with them. *)
Record MockDraw := {
  mock_pick : nat;
  mock_tokens : Z;
  mock_prompt : Z;
  mock_completion : Z;
  mock_time : Z
}.

Record World := {
  axios_post : Request -> AxiosResult;
  findById : ObjectId -> Outcome JsError (option AIResponse);
                                     (* [AIResponse.findById] as the service sees it while
                                        the call is in flight: the document read, [None] if
                                        there is none, or the error of a failed read *)
  started : Z;                       (* [Date.now()] when the call is entered *)
  finished : string -> Z;            (* [Date.now()] when the call for that model answers or fails *)
  mock : string -> MockDraw;
  fresh_response_id : ObjectId;      (* the [_id] given to a new AIResponse *)
  fresh_project_id : ObjectId;       (* the [_id] given to an auto-created project *)
  project_updateOne : ObjectId -> list string -> Outcome JsError unit;
                                     (* [Project.updateOne(...)]: the project collection is external *)
  validation_errors : list string    (* [error.errors] of the ValidationError that yup throws
                                        when the body of the request is not valid: which
                                        messages it collects, and in which order, is yup's *)
}.

Inductive LogEntry :=
| LogHistoryAdded (modelName : string) (id : ObjectId)
| LogHistoryError (modelName : string) (e : JsError)
| LogCalling (modelName apiModel : string)
| LogReceived (modelName : string) (responseTime : Z)
| LogError (modelName : string) (responseTime : Z) (e : JsError).

Definition quote : string := String (ascii_of_nat 34) EmptyString.

Definition generateMockResponse (dr : MockDraw) (modelName promptText : string) : RawResponse :=
  let responses :=
    [ "This is a mock response from " +:+ modelName +:+ " for the prompt: " +:+ quote
        +:+ js_prefix 50 promptText +:+ "..." +:+ quote;
      modelName +:+ " would typically analyze this prompt and provide a detailed response based on its training data.";
      "Mock " +:+ modelName +:+ " response: The prompt discusses interesting topics that would require thoughtful analysis.";
      modelName +:+ " simulation: This is a test response generated for development purposes." ] in
  {| r_model := modelName;
     r_response := responses !! mock_pick dr;
     r_status := success;
     r_errorMessage := None;
     r_tokens := Some {| tk_prompt := mock_prompt dr; tk_completion := mock_completion dr;
                         tk_total := mock_tokens dr |};
     r_responseTime := Some (mock_time dr);
     r_createdAt := None |}.

(** The block [if (settings.previousResponseId) { try { ... } catch (err) {
    console.error(...) } }] of [callOpenRouter]: the messages it pushes and
    what it prints. *)
Definition conversationHistory (w : World) (modelName : string) (st : Settings)
    : list LogEntry * list Message :=
  match previousResponseId st with
  | None => ([], [])
  | Some pid =>
      match findById w pid with
      | Throw err => ([LogHistoryError modelName err], [])
      | Return None => ([], [])
      | Return (Some prevResponse) =>
          let first := {| role := "user"; content := prompt prevResponse |} in
          let prevModelResponse := r ← field_by_name prevResponse modelName; response r in
          ([LogHistoryAdded modelName pid],
           first :: match prevModelResponse with
                    | Some text => if truthy prevModelResponse
                                   then [{| role := "assistant"; content := text |}] else []
                    | None => []
                    end)
      end
  end.

(** [x || d] on numbers: [undefined] and [0] are falsy. *)
Definition q_or (x : option Q) (d : Q) : Q :=
  match x with
  | Some q => if Qeq_bool q 0 then d else q
  | None => d
  end.

Definition z_or (x : option Z) (d : Z) : Z :=
  match x with
  | Some z => if Z.eqb z 0 then d else z
  | None => d
  end.

(** [requestData] and the bearer header of the POST; [history] is what the
    history block pushed before the current prompt. *)
Definition requestData (apiModelId : string) (history : list Message)
    (promptText : string) (st : Settings) (key : string) : Request :=
  {| req_model := apiModelId;
     req_messages := history ++ [{| role := "user"; content := promptText |}];
     req_temperature := q_or (temperature st) (7 # 10);
     req_max_tokens := z_or (maxTokens st) 2000;
     req_bearer := key |}.

(** The [try] block of [callOpenRouter]. *)
Definition callOpenRouter_try (svc : AIService) (w : World)
    (modelName apiModelId promptText : string) (st : Settings)
    : list LogEntry * Outcome JsError RawResponse :=
  match known_model modelName with
  | None =>
      if inherited_key modelName
      then ([], Throw (Error (modelName +:+ " is not enabled")))
      else ([], Throw (TypeError "Cannot read properties of undefined (reading 'enabled')"))
  | Some m =>
      let p := provider svc m in
      if negb (enabled p) then
        ([], Throw (Error (modelName +:+ " is not enabled")))
      else if testMode svc && negb (truthy (apiKey p)) then
        ([], Return (generateMockResponse (mock w modelName) modelName promptText))
      else
        match apiKey p with
        | Some key =>
            if negb (truthy (apiKey p)) then
              ([], Throw (Error (modelName +:+
                 " API key not configured - Please set OPENROUTER_API_KEY in environment variables")))
            else
              let '(hlog, messages) := conversationHistory w modelName st in
              let log := hlog ++ [LogCalling modelName apiModelId] in
              match axios_post w (requestData apiModelId messages promptText st key) with
              | Rejected e => (log, Throw e)
              | Fulfilled None =>
                  (log, Throw (TypeError "Cannot read properties of null (reading 'choices')"))
              | Fulfilled (Some body) =>
                  let responseTime := finished w modelName - started w in
                  let u := default {| prompt_tokens := None; completion_tokens := None;
                                      total_tokens := None |} (usage body) in
                  (log ++ [LogReceived modelName responseTime],
                   Return
                     {| r_model := modelName;
                        r_response := Some (or_else (choice_content body) EmptyString);
                        r_status := success;
                        r_errorMessage := None;
                        r_tokens := Some {| tk_prompt := z_or (prompt_tokens u) 0;
                                            tk_completion := z_or (completion_tokens u) 0;
                                            tk_total := z_or (total_tokens u) 0 |};
                        r_responseTime := Some responseTime;
                        r_createdAt := Some (finished w modelName) |})
              end
        | None =>
            ([], Throw (Error (modelName +:+
               " API key not configured - Please set OPENROUTER_API_KEY in environment variables")))
        end
  end.

(** The detail the [catch] block reports: the gateway's own message when the
    error carries a response body, the transport message otherwise. *)
Definition error_detail (e : JsError) : string :=
  match err_data e with
  | Some data =>
      if truthy (ed_error_message data) then default EmptyString (ed_error_message data)
      else if truthy (ed_message data) then default EmptyString (ed_message data)
      else ed_json data
  | None => err_message e
  end.

(** [callOpenRouter]: the [try] block, and the [catch] block that turns
    whatever was thrown into an error result. *)
Definition callOpenRouter (svc : AIService) (w : World)
    (modelName apiModelId promptText : string) (st : Settings)
    : list LogEntry * Outcome JsError RawResponse :=
  match callOpenRouter_try svc w modelName apiModelId promptText st with
  | (log, Return r) => (log, Return r)
  | (log, Throw e) =>
      let responseTime := finished w modelName - started w in
      (log ++ [LogError modelName responseTime e],
       Return
         {| r_model := modelName;
            r_response := Some EmptyString;
            r_status := error;
            r_errorMessage := Some (modelName +:+ " Error: " +:+ error_detail e);
            r_tokens := Some zero_tokens;
            r_responseTime := Some responseTime;
            r_createdAt := Some (finished w modelName) |})
  end.

(** [generateSingleModelResponse] *)
Definition generateSingleModelResponse (svc : AIService) (w : World)
    (modelName promptText : string) (st : Settings)
    : list LogEntry * Outcome JsError RawResponse :=
  match known_model modelName with
  | None =>
      if inherited_key modelName
      then ([], Throw (Error ("Model " +:+ modelName +:+ " is not enabled or configured")))
      else ([], Throw (Error ("Unknown model: " +:+ modelName)))
  | Some m =>
      if negb (enabled (provider svc m)) then
        ([], Throw (Error ("Model " +:+ modelName +:+ " is not enabled or configured")))
      else callOpenRouter svc w modelName (apiModel (provider svc m)) promptText st
  end.

Definition error_literal (modelName msg : string) : RawResponse :=
  {| r_model := modelName;
     r_response := Some EmptyString;
     r_status := error;
     r_errorMessage := Some msg;
     r_tokens := Some zero_tokens;
     r_responseTime := Some 0;
     r_createdAt := None |}.

(** One element of [availableModels.map(async (model) => { try { switch ... }
    catch (error) { ... } })]: the function catches whatever its [switch]
    throws, so its promise is always fulfilled and the [rejected] branch of the
    [Promise.allSettled] loop is never taken. *)
Definition modelPromise (svc : AIService) (w : World) (promptText : string)
    (st : Settings) (modelName : string) : RawResponse :=
  match known_model modelName with
  | Some m =>
      match snd (callOpenRouter svc w (model_name m) (apiModel (provider svc m)) promptText st) with
      | Return r => r
      | Throw e => error_literal modelName (err_message e)
      end
  | None => error_literal modelName "Unknown model"
  end.

(** [obj[k] = v] on an object kept as its list of entries in insertion order. *)
Fixpoint js_set {V : Type} (k : string) (v : V) (o : list (string * V)) : list (string * V) :=
  match o with
  | [] => [(k, v)]
  | (k', v') :: o' => if String.eqb k k' then (k, v) :: o' else (k', v') :: js_set k v o'
  end.

(** [generateMultiModelResponse]: the [responses] object it returns, keyed by
    model. *)
Definition generateMultiModelResponse (svc : AIService) (w : World)
    (promptText : string) (st : Settings)
    : Outcome JsError (list (string * RawResponse)) :=
  let requested := default models (enabledModels st) in
  let availableModels := List.filter (provider_enabled svc) requested in
  match availableModels with
  | [] => Throw (Error "No AI models are configured and enabled")
  | _ =>
      Return (foldl (fun responses modelName =>
                       js_set modelName (modelPromise svc w promptText st modelName) responses)
                    [] availableModels)
  end.

(** ** ai.controller.js (src/api/v1/ai) *)

Record Reply := {
  statusCode : Z;
  message : string;
  data : option AIResponse
}.

Definition CREATED : Z := 201.
Definition OK : Z := 200.
Definition BAD_REQUEST : Z := 400.
Definition NOT_FOUND : Z := 404.
Definition INTERNAL_SERVER_ERROR : Z := 500.

Definition reply (code : Z) (msg : string) : Reply :=
  {| statusCode := code; message := msg; data := None |}.

Definition reply_with (code : Z) (msg : string) (d : AIResponse) : Reply :=
  {| statusCode := code; message := msg; data := Some d |}.

(** The reply of the shared [catch] block of the handlers. *)
Definition catch_reply (e : JsError) (msg : string) : Reply :=
  if String.eqb (err_name e) "ValidationError"
  then reply BAD_REQUEST "Validation error"
  else reply INTERNAL_SERVER_ERROR msg.

(** The reply of the [catch] block to a ValidationError of yup:
    [error.errors?.[0] || 'Validation error']. *)
Definition validation_reply (errors : list string) : Reply :=
  reply BAD_REQUEST (or_else (head errors) "Validation error").

Record GeneratePayload := {
  pl_prompt : option string;
  pl_projectId : option ObjectId;
  pl_previousResponseId : option ObjectId;
  pl_settings : Settings          (* [settings = {}]: every property [None] *)
}.

(** [generateAIResponseValidation] (ai.validator.js): whether yup accepts the
    body.  The prompt is trimmed before its length is tested. *)
Definition generateAIResponseValidation (pl : GeneratePayload) : bool :=
  let st := pl_settings pl in
  match pl_prompt pl with
  | Some p => Z.leb 1 (Z.of_nat (js_length (trim p)))
              && Z.leb (Z.of_nat (js_length (trim p))) 10000
  | None => false
  end
  && match temperature st with
     | Some t => Qle_bool 0 t && Qle_bool t 2
     | None => true
     end
  && match maxTokens st with
     | Some n => Z.leb 1 n && Z.leb n 8000
     | None => true
     end
  && match enabledModels st with
     | Some l => forallb (fun s => bool_decide (is_Some (known_model s))) l && Nat.leb 1 (length l)
     | None => true
     end.

(** What a handler does that its caller or the event loop can observe, in
    program order.  A saved project is given by its name as the Project
    schema keeps it, which trims it. *)
Inductive Event :=
| EvProjectSaved (name : string)
| EvSaved (id : ObjectId) (d : AIResponse)
| EvReplied (r : Reply)
| EvDispatched (id : ObjectId) (promptText : string) (modelsToUse : list string) (st : Settings).

(** [new AIResponse({...})] of [generateAIResponse], schema defaults applied.
    The revised controller also passes [selectedModel] ([sel]) and
    [previousResponseId]; neither is a path of the schema, and the strict
    constructor drops both. *)
Definition newAIResponse (now : Z) (uid pid : ObjectId) (promptText : string)
    (st : Settings) (modelsToUse : list string) (sel : option string) : AIResponse :=
  {| prompt := trim promptText;
     userId := uid;
     projectId := Some pid;
     gemini_response := None;
     openai_response := None;
     deepseek_response := None;
     microsoft_response := None;
     llama_response := None;
     totalModels := Z.of_nat (length modelsToUse);
     completedModels := 0;
     failedModels := 0;
     settings := {| temperature := Some (default (7 # 10)%Q (temperature st));
                    maxTokens := Some (default 2000 (maxTokens st));
                    enabledModels := Some modelsToUse;
                    previousResponseId := None |};
     overallStatus := processing;
     startTime := now;
     endTime := None;
     totalDuration := 0;
     totalTokensUsed := 0;
     selectedModel := None;
     updatedBy := None;
     updatedAt := now |}.

Definition pending_literal (now : Z) (modelName : string) : RawResponse :=
  {| r_model := modelName;
     r_response := Some EmptyString;
     r_status := pending;
     r_errorMessage := None;
     r_tokens := None;
     r_responseTime := None;
     r_createdAt := Some now |}.

(** [modelsToUse.forEach(model => { aiResponse[`${model}_response`] = {...} })] *)
Definition initPending (now : Z) (modelsToUse : list string) (d : AIResponse) : AIResponse :=
  foldl (fun d modelName =>
           set_field_by_name modelName (Some (cast now (pending_literal now modelName))) d)
        d modelsToUse.

(** [prompt.length > 50 ? prompt.substring(0, 50) + '...' : prompt] *)
Definition projectName (promptText : string) : string :=
  if Nat.ltb 50 (js_length promptText)
  then js_prefix 50 promptText +:+ "..."
  else promptText.

(** [enabledModels.filter(model => availableModelNames.includes(model))] *)
Definition modelsToUse (svc : AIService) (st : Settings) : list string :=
  let requested := default models (enabledModels st) in
  let availableModelNames := getEnabledProviders svc in
  List.filter (fun modelName => existsb (String.eqb modelName) availableModelNames) requested.

Definition generateAIResponse (svc : AIService) (w : World) (now : Z) (uid : ObjectId)
    (pl : GeneratePayload) (db : gmap ObjectId AIResponse)
    : list Event * gmap ObjectId AIResponse :=
  if negb (generateAIResponseValidation pl) then
    ([EvReplied (validation_reply (validation_errors w))], db)
  else
    let promptText := default EmptyString (pl_prompt pl) in
    let st := pl_settings pl in
    let '(created, pid) :=
      match pl_projectId pl with
      | Some pid => ([], pid)
      | None => ([EvProjectSaved (trim (projectName promptText))], fresh_project_id w)
      end in
    match modelsToUse svc st with
    | [] => (created ++ [EvReplied (reply BAD_REQUEST "No AI models are configured and available")], db)
    | use =>
        let aiResponse := initPending now use (newAIResponse now uid pid promptText st use None) in
        let '(saved, db') := save now (fresh_response_id w) aiResponse db in
        (created ++
           [EvSaved (fresh_response_id w) saved;
            EvReplied (reply_with CREATED "AI response generation initiated" saved);
            EvDispatched (fresh_response_id w) promptText use st],
         db')
    end.

(** One turn of [models.forEach(async (model) => {...})] in
    [generateIndependentResponses], from the moment the provider call of
    [modelName] settles: the update document it sends. *)
Definition completionPatch (svc : AIService) (w : World) (now : Z)
    (modelName promptText : string) (st : Settings) : Patch :=
  match snd (generateSingleModelResponse svc w modelName promptText st) with
  | Return result =>
      {| p_model := modelName;
         p_value := {| r_model := r_model result;
                       r_response := r_response result;
                       r_status := r_status result;
                       r_errorMessage := r_errorMessage result;
                       r_tokens := r_tokens result;
                       r_responseTime := r_responseTime result;
                       r_createdAt := Some (default now (r_createdAt result)) |};
         p_updatedAt := now |}
  | Throw e =>
      {| p_model := modelName;
         p_value := {| r_model := modelName;
                       r_response := Some EmptyString;
                       r_status := error;
                       r_errorMessage := Some (or_else (Some (err_message e)) "Failed to generate response");
                       r_tokens := Some zero_tokens;
                       r_responseTime := Some 0;
                       r_createdAt := Some now |};
         p_updatedAt := now |}
  end.

(** A provider call that settles: which model, what the world answered, when. *)
Record Completion := {
  c_model : string;
  c_world : World;
  c_now : Z
}.

Definition complete (svc : AIService) (responseId : ObjectId) (promptText : string)
    (st : Settings) (db : gmap ObjectId AIResponse) (c : Completion)
    : gmap ObjectId AIResponse :=
  findByIdAndUpdate responseId
    (completionPatch svc (c_world c) (c_now c) (c_model c) promptText st) db.

(** The update document of a completion that is delivered again at a later
    time: the same result under a new [updatedAt: new Date()]. *)
Definition redelivered (t : Z) (p : Patch) : Patch :=
  {| p_model := p_model p; p_value := p_value p; p_updatedAt := t |}.

(** [generateIndependentResponses]: the detached tasks land one after the
    other, in whatever order the schedule gives. *)
Definition generateIndependentResponses (svc : AIService) (responseId : ObjectId)
    (promptText : string) (st : Settings) (schedule : list Completion)
    (db : gmap ObjectId AIResponse) : gmap ObjectId AIResponse :=
  foldl (complete svc responseId promptText st) db schedule.

(** The body of [PUT /:id/model]. *)
Record UpdateData := {
  u_model : string;
  u_response : option string;
  u_status : Status;
  u_errorMessage : option string;
  u_tokens : option Tokens;
  u_responseTime : option Z
}.

(** [updateModelResponseValidation] (ai.validator.js); [status] is one of the
    three by its type. *)
Definition updateModelResponseValidation (u : UpdateData) : bool :=
  bool_decide (is_Some (known_model (u_model u)))
  && match u_tokens u with
     | Some t => Z.leb 0 (tk_prompt t) && Z.leb 0 (tk_completion t) && Z.leb 0 (tk_total t)
     | None => true
     end
  && match u_responseTime u with
     | Some t => Z.leb 0 t
     | None => true
     end.

(** [Object.assign(this[fieldName], responseData)] with the five properties
    the controller passes.  A property that the body leaves out is assigned
    [undefined], which unsets the path.  For the two texts that is [None].
    The record of a result always carries its numbers: for [tokens] and
    [responseTime] left out it holds 0, the schema default, which is what the
    path reads as once the document is loaded again; the reply of this very
    request and the stored document, where the path is missing, are
    represented only for a body that gives both. *)
Definition assign (u : UpdateData) (r : ModelResponse) : ModelResponse :=
  {| model := model r;
     response := trim <$> u_response u;
     status := u_status u;
     errorMessage := trim <$> u_errorMessage u;
     tokens := default zero_tokens (u_tokens u);
     responseTime := default 0 (u_responseTime u);
     isEdited := isEdited r;
     createdAt := createdAt r |}.

(** [aiResponseSchema.methods.updateModelResponse].  When the path is empty
    the method stores [responseData] itself, which has no [model]: the
    required-path validator rejects the save. *)
Definition updateModelResponse_method (now : Z) (id : ObjectId) (u : UpdateData)
    (d : AIResponse) (db : gmap ObjectId AIResponse)
    : Outcome JsError (AIResponse * gmap ObjectId AIResponse) :=
  match field_by_name d (u_model u) with
  | Some r => Return (save now id (set_field_by_name (u_model u) (Some (assign u r)) d) db)
  | None => Throw (ValidationError "AIResponse validation failed")
  end.

Definition updateModelResponse (now : Z) (uid id : ObjectId) (u : UpdateData)
    (db : gmap ObjectId AIResponse) : Reply * gmap ObjectId AIResponse :=
  if negb (updateModelResponseValidation u) then (reply BAD_REQUEST "Validation error", db)
  else
    match findOne db id uid with
    | None => (reply NOT_FOUND "AI response not found", db)
    | Some aiResponse =>
        match updateModelResponse_method now id u (set_updatedBy uid aiResponse) db with
        | Return (saved, db') => (reply_with OK "Model response updated successfully" saved, db')
        | Throw e => (catch_reply e "Failed to update model response", db)
        end
    end.

Definition has_status (s : Status) (r : option ModelResponse) : bool :=
  match r with
  | Some x => bool_decide (status x = s)
  | None => false
  end.

(** [models.forEach(model => { if (... .status === 'error') failedModels.push(model) })] *)
Definition failedModelsOf (d : AIResponse) : list string :=
  List.filter (fun modelName => has_status error (field_by_name d modelName)) models.

(** [Object.keys(responses).forEach(key => { if (failedModels.some(...))
    aiResponse[key] = responses[key] })] *)
Definition overwriteFailed (now : Z) (failedModels : list string)
    (responses : list (string * RawResponse)) (d : AIResponse) : AIResponse :=
  foldl (fun d kv =>
           if existsb (String.eqb (fst kv)) failedModels
           then set_field_by_name (fst kv) (Some (cast now (snd kv))) d
           else d)
        d responses.

Definition with_enabledModels (l : list string) (st : Settings) : Settings :=
  {| temperature := temperature st; maxTokens := maxTokens st;
     enabledModels := Some l; previousResponseId := previousResponseId st |}.

Definition retryFailedResponses (svc : AIService) (w : World) (now : Z) (uid id : ObjectId)
    (db : gmap ObjectId AIResponse) : Reply * gmap ObjectId AIResponse :=
  match findOne db id uid with
  | None => (reply NOT_FOUND "AI response not found", db)
  | Some aiResponse =>
      match failedModelsOf aiResponse with
      | [] => (reply BAD_REQUEST "No failed responses to retry", db)
      | failedModels =>
          match generateMultiModelResponse svc w (prompt aiResponse)
                  (with_enabledModels failedModels (settings aiResponse)) with
          | Throw e => (catch_reply e "Failed to retry responses", db)
          | Return responses =>
              let '(saved, db') :=
                save now id (set_updatedBy uid (overwriteFailed now failedModels responses aiResponse)) db in
              (reply_with OK "Failed responses retried successfully" saved, db')
          end
      end
  end.

(** [$unset] of every [`${m}_response`] with [m !== model]. *)
Definition unsetOthers (modelName : string) (d : AIResponse) : AIResponse :=
  foldl (fun d m => if String.eqb m modelName then d else set_field_by_name m None d) d models.

(** [!doc[field] || !doc[field].response] *)
Definition nothingToSelect (d : AIResponse) (modelName : string) : bool :=
  negb (truthy (r ← field_by_name d modelName; response r)).

(** [Project.updateOne({ _id: pid }, { $set: { 'settings.enabledModels': models } })]
    on the project collection, each project held by its
    [settings.enabledModels]: a query update.  It throws when the collection
    cannot be written ([failure]); otherwise it changes the project of that id
    when there is one, and nothing when there is none. *)
Definition Project_updateOne (failure : option JsError)
    (projects : gmap ObjectId (list string)) (pid : ObjectId) (enabledModels : list string)
    : Outcome JsError (gmap ObjectId (list string)) :=
  match failure with
  | Some e => Throw e
  | None =>
      Return (match projects !! pid with
              | Some _ => <[pid := enabledModels]> projects
              | None => projects
              end)
  end.

(** The world in which the project collection holds [projects]. *)
Definition with_projects (failure : option JsError) (projects : gmap ObjectId (list string))
    (w : World) : World :=
  {| axios_post := axios_post w;
     findById := findById w;
     started := started w;
     finished := finished w;
     mock := mock w;
     fresh_response_id := fresh_response_id w;
     fresh_project_id := fresh_project_id w;
     project_updateOne := fun pid l =>
       (fun _ => ()) <$> Project_updateOne failure projects pid l;
     validation_errors := validation_errors w |}.

(** The world in which the gateway answers by [post]. *)
Definition with_axios (post : Request -> AxiosResult) (w : World) : World :=
  {| axios_post := post;
     findById := findById w;
     started := started w;
     finished := finished w;
     mock := mock w;
     fresh_response_id := fresh_response_id w;
     fresh_project_id := fresh_project_id w;
     project_updateOne := project_updateOne w;
     validation_errors := validation_errors w |}.

(** The block [// 2. Update Project Settings]:
    [if (aiResponse.projectId) { await Project.updateOne(...) }]. *)
Definition updateProjectSettings (w : World) (aiResponse : AIResponse) (modelName : string)
    : Outcome JsError unit :=
  match projectId aiResponse with
  | Some pid => project_updateOne w pid [modelName]
  | None => Return ()
  end.

Section Selection.

(** [selectPreferredResponseValidation] is imported from ai.validator.js but
    the validator file at hand does not define it: it is a parameter. *)
Variable selectPreferredResponseValidation : ObjectId -> string -> bool.

Definition selectPreferredResponse (w : World) (now : Z) (uid id : ObjectId)
    (modelName : string) (db : gmap ObjectId AIResponse)
    : Reply * gmap ObjectId AIResponse :=
  if negb (selectPreferredResponseValidation id modelName) then
    (reply BAD_REQUEST "Validation error", db)
  else
    match findOne db id uid with
    | None => (reply NOT_FOUND "AI response not found", db)
    | Some checkResponse =>
        if nothingToSelect checkResponse modelName then
          (reply BAD_REQUEST "Selected model response does not exist", db)
        else
          (* findOneAndUpdate({ _id, userId }, { $unset, $set }, { new: true }) *)
          let aiResponse :=
            set_updatedAt now
              (set_updatedBy uid
                 (set_overallStatus completed
                    (set_counters 1 0 (totalTokensUsed checkResponse)
                       (set_totalModels 1
                          (set_enabledModels [modelName]
                             (unsetOthers modelName checkResponse)))))) in
          let db' := <[id := aiResponse]> db in
          match updateProjectSettings w aiResponse modelName with
          | Return _ =>
              (reply_with OK "Preferred response selected and project settings updated" aiResponse, db')
          | Throw e => (catch_reply e "Failed to select preferred response", db')
          end
    end.

End Selection.

(** ** The revised copy of ai.controller.js

    It differs from the file under src/api/v1/ai in [generateAIResponse]
    (conversation history), in [listAIResponses] (not modelled) and in
    [selectPreferredResponse] (native update, undo branch); the other
    handlers are the same text. *)
Module Revised.

Definition with_previousResponseId (prev : option ObjectId) (st : Settings) : Settings :=
  {| temperature := temperature st; maxTokens := maxTokens st;
     enabledModels := enabledModels st; previousResponseId := prev |}.

Definition generateAIResponse (svc : AIService) (w : World) (now : Z) (uid : ObjectId)
    (pl : GeneratePayload) (db : gmap ObjectId AIResponse)
    : list Event * gmap ObjectId AIResponse :=
  if negb (generateAIResponseValidation pl) then
    ([EvReplied (validation_reply (validation_errors w))], db)
  else
    let promptText := default EmptyString (pl_prompt pl) in
    let st := pl_settings pl in
    let '(created, pid) :=
      match pl_projectId pl with
      | Some pid => ([], pid)
      | None => ([EvProjectSaved (trim (projectName promptText))], fresh_project_id w)
      end in
    match modelsToUse svc st with
    | [] => (created ++ [EvReplied (reply BAD_REQUEST "No AI models are configured and available")], db)
    | use =>
        let sel :=
          match pl_previousResponseId pl, use with
          | Some _, [only] => Some only
          | _, _ => None
          end in
        let aiResponse := initPending now use (newAIResponse now uid pid promptText st use sel) in
        let '(saved, db') := save now (fresh_response_id w) aiResponse db in
        (created ++
           [EvSaved (fresh_response_id w) saved;
            EvReplied (reply_with CREATED "AI response generation initiated" saved);
            EvDispatched (fresh_response_id w) promptText use
              (with_previousResponseId (pl_previousResponseId pl) st)],
         db')
    end.

Section Selection.

Variable selectPreferredResponseValidation : ObjectId -> string -> bool.

(** The branch [if (model === '')] of [selectPreferredResponse].  Its
    [aiResponse.selectedModel = null] assigns to a name that is no path of
    the schema: the document that is saved and serialised keeps the
    [selectedModel] it was read with. *)
Definition clearSelection (now : Z) (uid id : ObjectId) (db : gmap ObjectId AIResponse)
    : Reply * gmap ObjectId AIResponse :=
  match findOne db id uid with
  | None => (reply NOT_FOUND "AI response not found", db)
  | Some aiResponse =>
      let existingModels :=
        List.filter (fun m => bool_decide (is_Some (field_by_name aiResponse m))) models in
      let restored := match existingModels with [] => models | _ => existingModels end in
      let '(saved, db') :=
        save now id
          (set_enabledModels restored (set_updatedBy uid aiResponse)) db in
      (reply_with OK "Selection cleared successfully" saved, db')
  end.

Definition selectPreferredResponse (now : Z) (uid id : ObjectId) (modelName : string)
    (db : gmap ObjectId AIResponse) : Reply * gmap ObjectId AIResponse :=
  if negb (selectPreferredResponseValidation id modelName) then
    (reply BAD_REQUEST "Validation error", db)
  else if String.eqb modelName EmptyString then clearSelection now uid id db
  else
    match findOne db id uid with
    | None => (reply NOT_FOUND "AI response not found", db)
    | Some aiResponse =>
        if nothingToSelect aiResponse modelName then
          (reply BAD_REQUEST "Selected model response does not exist", db)
        else
          (* AIResponse.collection.findOneAndUpdate({ _id }, { $set, $unset }):
             the native driver, neither middleware nor timestamps *)
          let updatedDoc :=
            set_enabledModels [modelName]
              (set_updatedBy uid
                 (set_overallStatus completed
                    (set_selectedModel (Some modelName)
                       (unsetOthers modelName aiResponse)))) in
          (reply_with OK "Preferred response selected and project settings updated" updatedDoc,
           <[id := updatedDoc]> db)
    end.

End Selection.

End Revised.

(** ** ai-model.controller.js *)
Module SingleModel.

Definition validModel (modelName : string) : bool :=
  existsb (String.eqb modelName) models.

Definition set_edited (text : string) (r : ModelResponse) : ModelResponse :=
  {| model := model r; response := Some (trim text); status := status r;
     errorMessage := errorMessage r; tokens := tokens r; responseTime := responseTime r;
     isEdited := true; createdAt := createdAt r |}.

Definition updateSingleModelResponse (now : Z) (uid responseId : ObjectId)
    (modelName : string) (text : option string) (db : gmap ObjectId AIResponse)
    : Reply * gmap ObjectId AIResponse :=
  if negb (validModel modelName) then (reply BAD_REQUEST "Invalid model specified", db)
  else
    match text with
    | Some t =>
        if negb (truthy text) then (reply BAD_REQUEST "Response content is required", db)
        else
          match findOne db responseId uid with
          | None => (reply NOT_FOUND "AI response not found", db)
          | Some aiResponse =>
              match field_by_name aiResponse modelName with
              | Some r =>
                  let '(saved, db') :=
                    save now responseId
                      (set_updatedBy uid
                         (set_field_by_name modelName (Some (set_edited t r)) aiResponse)) db in
                  (reply_with OK "Model response updated successfully" saved, db')
              | None => (reply NOT_FOUND "Model response not found", db)
              end
          end
    | None => (reply BAD_REQUEST "Response content is required", db)
    end.

Definition deleteSingleModelResponse (now : Z) (uid responseId : ObjectId)
    (modelName : string) (db : gmap ObjectId AIResponse)
    : Reply * gmap ObjectId AIResponse :=
  if negb (validModel modelName) then (reply BAD_REQUEST "Invalid model specified", db)
  else
    match findOne db responseId uid with
    | None => (reply NOT_FOUND "AI response not found", db)
    | Some aiResponse =>
        let '(saved, db') :=
          save now responseId (set_updatedBy uid (set_field_by_name modelName None aiResponse)) db in
        (reply_with OK "Model response deleted successfully" saved, db')
    end.

End SingleModel.

(** ** Observations on a document *)

(** The fields the pre-save middleware owns. *)
Definition statistics (d : AIResponse) : Z * Z * Z * OverallStatus * option Z * Z :=
  (completedModels d, failedModels d, totalTokensUsed d, overallStatus d, endTime d,
   totalDuration d).

(** The condition under which the middleware stamps [endTime], on the counters
    it has just stored. *)
Definition terminalCounts (d : AIResponse) : bool :=
  Z.eqb (completedModels d) (totalModels d)
  || ((Z.ltb 0 (completedModels d) || Z.ltb 0 (failedModels d))
      && Z.eqb (completedModels d + failedModels d) (totalModels d)).

(** Everything but the response paths. *)
Definition aggregate_fields (d : AIResponse) :=
  (prompt d, userId d, projectId d, totalModels d, settings d, selectedModel d,
   updatedBy d, updatedAt d, startTime d, statistics d).

(** The response paths that are set. *)
Definition presentFields (d : AIResponse) : list Model :=
  List.filter (fun m => bool_decide (is_Some (field d m))) modelFields.

(** The response paths whose status is success, and the tokens they report. *)
Definition succeededFields (d : AIResponse) : list Model :=
  List.filter (fun m => has_status success (field d m)) modelFields.

Definition tokensOf (d : AIResponse) (m : Model) : Z :=
  match field d m with
  | Some r => tk_total (tokens r)
  | None => 0
  end.

Definition sumZ (l : list Z) : Z := foldr Z.add 0 l.

(** The sum as the middleware computes it: from 0, one rounded addition for
    each number, in the order of the list. *)
Definition sumDoubles (l : list Z) : Z := foldl js_add 0 l.

(** The response paths whose status is error. *)
Definition failedFields (d : AIResponse) : list Model :=
  List.filter (fun m => has_status error (field d m)) modelFields.

(** ** The decision table of the data model

    Written from the specification's words, to compare the code against:
    completed when every requested provider succeeded; partial when all have
    finished with at least one success and one failure; failed when all have
    finished and none succeeded; processing otherwise. *)
Definition decisionTable (total done failedCount : Z) : OverallStatus :=
  if Z.eqb done total then completed
  else if Z.eqb (done + failedCount) total && Z.ltb 0 done && Z.ltb 0 failedCount then partial
  else if Z.eqb (done + failedCount) total && Z.eqb done 0 then failed
  else processing.

(** The invariant of a provider result. *)
Definition result_ok (r : ModelResponse) : Prop :=
  (status r = error -> response r = Some EmptyString /\ is_Some (errorMessage r))
  /\ (status r = success -> errorMessage r = None).

Definition raw_ok (r : RawResponse) : Prop :=
  (r_status r = error -> r_response r = Some EmptyString /\ is_Some (r_errorMessage r))
  /\ (r_status r = success -> r_errorMessage r = None).

(** ** A concrete deployment, used to run the handlers *)
Module Scenario.

(** Every provider reachable through the gateway key. *)
Definition env_gateway : ProcessEnv :=
  {| OPENROUTER_API_KEY := Some "sk-or-1"; GEMINI_API_KEY := None; DEEPSEEK_API_KEY := None;
     MICROSOFT_API_KEY := None; LLAMA_API_KEY := None; OPENAI_API_KEY := None;
     AI_TEST_MODE := None; NODE_ENV := Some "production" |}.

(** Only the OpenAI key is configured. *)
Definition env_openai_only : ProcessEnv :=
  {| OPENROUTER_API_KEY := None; GEMINI_API_KEY := None; DEEPSEEK_API_KEY := None;
     MICROSOFT_API_KEY := None; LLAMA_API_KEY := None; OPENAI_API_KEY := Some "sk-oa-1";
     AI_TEST_MODE := None; NODE_ENV := Some "production" |}.

Definition service : AIService := newAIService env_gateway.
Definition service_openai_only : AIService := newAIService env_openai_only.

Definition no_draw : MockDraw :=
  {| mock_pick := 0; mock_tokens := 50; mock_prompt := 35; mock_completion := 15;
     mock_time := 500 |}.

(** The gateway answers every request with [text] and [total] tokens. *)
Definition world_answering (text : string) (total : Z) : World :=
  {| axios_post := fun _ =>
       Fulfilled (Some {| choice_content := Some text;
                          usage := Some {| prompt_tokens := Some 12;
                                           completion_tokens := Some (total - 12);
                                           total_tokens := Some total |} |});
     findById := fun _ => Return None;
     started := 1000;
     finished := fun _ => 1900;
     mock := fun _ => no_draw;
     fresh_response_id := 7%N;
     fresh_project_id := 3%N;
     project_updateOne := fun _ _ => Return ();
     validation_errors := [] |}.

Definition timeout : JsError :=
  {| err_name := "AxiosError"; err_message := "timeout of 60000ms exceeded"; err_data := None |}.

(** The gateway answers 429 with its own error message. *)
Definition rate_limited : JsError :=
  {| err_name := "AxiosError";
     err_message := "Request failed with status code 429";
     err_data := Some {| ed_error_message := Some "Rate limit exceeded";
                         ed_message := None;
                         ed_json := "{...}" |} |}.

Definition world_rate_limited : World :=
  {| axios_post := fun _ => Rejected rate_limited;
     findById := fun _ => Return None;
     started := 1000;
     finished := fun _ => 1250;
     mock := fun _ => no_draw;
     fresh_response_id := 7%N;
     fresh_project_id := 3%N;
     project_updateOne := fun _ _ => Return ();
     validation_errors := [] |}.

(** The gateway does not answer in time. *)
Definition world_timing_out : World :=
  {| axios_post := fun _ => Rejected timeout;
     findById := fun _ => Return None;
     started := 1000;
     finished := fun _ => 61000;
     mock := fun _ => no_draw;
     fresh_response_id := 7%N;
     fresh_project_id := 3%N;
     project_updateOne := fun _ _ => Return ();
     validation_errors := [] |}.

Definition plain_settings (l : option (list string)) : Settings :=
  {| temperature := None; maxTokens := None; enabledModels := l; previousResponseId := None |}.

Definition payload (l : list string) : GeneratePayload :=
  {| pl_prompt := Some "What is AI?"; pl_projectId := Some 3%N;
     pl_previousResponseId := None; pl_settings := plain_settings (Some l) |}.

Definition owner : ObjectId := 1%N.

(** [POST /generate] with two providers, at time 1000. *)
Definition submitted : list Event * gmap ObjectId AIResponse :=
  generateAIResponse service (world_answering "AI is ..." 42) 1000 owner
    (payload ["gemini"; "openai"]) ∅.

(** gemini answers (42 tokens), then openai times out. *)
Definition settled : gmap ObjectId AIResponse :=
  generateIndependentResponses service 7%N "What is AI?"
    (plain_settings (Some ["gemini"; "openai"]))
    [ {| c_model := "gemini"; c_world := world_answering "AI is ..." 42; c_now := 1900 |};
      {| c_model := "openai"; c_world := world_timing_out; c_now := 61000 |} ]
    (snd submitted).

(** The same submission with gemini alone. *)
Definition one_submitted : list Event * gmap ObjectId AIResponse :=
  generateAIResponse service (world_answering "AI is ..." 42) 1000 owner (payload ["gemini"]) ∅.

Definition one_settled : gmap ObjectId AIResponse :=
  generateIndependentResponses service 7%N "What is AI?" (plain_settings (Some ["gemini"]))
    [ {| c_model := "gemini"; c_world := world_answering "AI is ..." 42; c_now := 1900 |} ]
    (snd one_submitted).

(** The owner edits the text at 5000, and once more at 9000. *)
Definition edited_once : gmap ObjectId AIResponse :=
  snd (SingleModel.updateSingleModelResponse 5000 owner 7%N "gemini"
         (Some "AI is a field of study.") one_settled).

Definition edited_twice : gmap ObjectId AIResponse :=
  snd (SingleModel.updateSingleModelResponse 9000 owner 7%N "gemini"
         (Some "AI is a broad field of study.") edited_once).

(** The request body names gemini twice. *)
Definition duplicated : list Event * gmap ObjectId AIResponse :=
  generateAIResponse service (world_answering "AI is ..." 42) 1000 owner
    (payload ["gemini"; "gemini"]) ∅.

(** The gateway answers gemini's call with an empty completion. *)
Definition empty_answer : gmap ObjectId AIResponse :=
  generateIndependentResponses service 7%N "What is AI?" (plain_settings (Some ["gemini"]))
    [ {| c_model := "gemini"; c_world := world_answering EmptyString 12; c_now := 1900 |} ]
    (snd one_submitted).

(** A validator for [POST /:id/select] that accepts the five names and the
    empty name of the undo request. *)
Definition accept (id : ObjectId) (modelName : string) : bool :=
  String.eqb modelName EmptyString || bool_decide (is_Some (known_model modelName)).

(** Both calls time out. *)
Definition both_failed : gmap ObjectId AIResponse :=
  generateIndependentResponses service 7%N "What is AI?"
    (plain_settings (Some ["gemini"; "openai"]))
    [ {| c_model := "gemini"; c_world := world_timing_out; c_now := 61000 |};
      {| c_model := "openai"; c_world := world_timing_out; c_now := 61000 |} ]
    (snd submitted).

(** [POST /:id/retry] after the process was restarted with the OpenAI key
    only. *)
Definition retried : Reply * gmap ObjectId AIResponse :=
  retryFailedResponses service_openai_only (world_answering "AI is ..." 42) 70000 owner 7%N
    both_failed.

(** The project collection cannot be written. *)
Definition world_project_down : World :=
  {| axios_post := fun _ => Rejected timeout;
     findById := fun _ => Return None;
     started := 1000;
     finished := fun _ => 61000;
     mock := fun _ => no_draw;
     fresh_response_id := 7%N;
     fresh_project_id := 3%N;
     project_updateOne := fun _ _ => Throw (Error "connection lost");
     validation_errors := [] |}.

Definition selected_project_down : Reply * gmap ObjectId AIResponse :=
  selectPreferredResponse accept world_project_down 70000 owner 7%N "gemini" settled.

(** The lookup of the previous response fails; the gateway answers. *)
Definition world_history_down : World :=
  {| axios_post := axios_post (world_answering "AI is ..." 42);
     findById := fun _ => Throw (Error "connection lost");
     started := 1000;
     finished := fun _ => 1900;
     mock := fun _ => no_draw;
     fresh_response_id := 7%N;
     fresh_project_id := 3%N;
     project_updateOne := fun _ _ => Return ();
     validation_errors := [] |}.

(** Revised controller: submit gemini alone, let it answer, select it,
    delete its response, undo the selection. *)
Definition r_submitted : list Event * gmap ObjectId AIResponse :=
  Revised.generateAIResponse service (world_answering "AI is ..." 42) 1000 owner
    (payload ["gemini"]) ∅.

Definition r_settled : gmap ObjectId AIResponse :=
  generateIndependentResponses service 7%N "What is AI?" (plain_settings (Some ["gemini"]))
    [ {| c_model := "gemini"; c_world := world_answering "AI is ..." 42; c_now := 1900 |} ]
    (snd r_submitted).

Definition r_selected : gmap ObjectId AIResponse :=
  snd (Revised.selectPreferredResponse accept 3000 owner 7%N "gemini" r_settled).

Definition r_deleted : gmap ObjectId AIResponse :=
  snd (SingleModel.deleteSingleModelResponse 4000 owner 7%N "gemini" r_selected).

Definition r_cleared : Reply * gmap ObjectId AIResponse :=
  Revised.selectPreferredResponse accept 5000 owner 7%N EmptyString r_deleted.

(** [PUT /:id/model] marking gemini's result as failed by hand. *)
Definition manual_update : UpdateData :=
  {| u_model := "gemini"; u_response := Some "see the error log"; u_status := error;
     u_errorMessage := None; u_tokens := None; u_responseTime := None |}.

Definition manually_updated : Reply * gmap ObjectId AIResponse :=
  updateModelResponse 70000 owner 7%N manual_update settled.

End Scenario.

(** ** The rest of the model, the service and the controllers *)

(** [aiResponseSchema.methods.getSuccessfulResponses] and
    [getFailedResponses]: the objects they build, keyed by model name. *)
Definition responsesWithStatus (s : Status) (d : AIResponse) : list (string * ModelResponse) :=
  foldl (fun acc m =>
           match field d m with
           | Some r => if bool_decide (status r = s) then js_set (model_name m) r acc else acc
           | None => acc
           end)
        [] modelFields.

Definition getSuccessfulResponses (d : AIResponse) : list (string * ModelResponse) :=
  responsesWithStatus success d.

Definition getFailedResponses (d : AIResponse) : list (string * ModelResponse) :=
  responsesWithStatus error d.

(** [getProviderStatus] *)
Record ProviderStatus := {
  ps_name : string;
  ps_displayName : string;
  ps_enabled : bool;
  ps_configured : bool
}.

Definition getProviderStatus (svc : AIService) : list ProviderStatus :=
  (fun m => {| ps_name := model_name m;
               ps_displayName := name (provider svc m);
               ps_enabled := enabled (provider svc m);
               ps_configured := truthy (apiKey (provider svc m)) |})
    <$> [gemini; deepseek; microsoft; llama; openai].

(** [getAIResponse] *)
Definition getAIResponse (uid id : ObjectId) (db : gmap ObjectId AIResponse) : Reply :=
  match findOne db id uid with
  | None => reply NOT_FOUND "AI response not found"
  | Some aiResponse => reply_with OK "AI response retrieved successfully" aiResponse
  end.

(** [deleteAIResponse]: [AIResponse.findOneAndDelete({ _id: id, userId })]. *)
Definition deleteAIResponse (uid id : ObjectId) (db : gmap ObjectId AIResponse)
    : Reply * gmap ObjectId AIResponse :=
  match findOne db id uid with
  | None => (reply NOT_FOUND "AI response not found", db)
  | Some _ => (reply OK "AI response deleted successfully", delete id db)
  end.

(** An event of the first controller as the revised one produces it: the
    settings handed to the background task are
    [{ ...settings, previousResponseId: previousResponseId || null }]. *)
Definition redispatched (previous : option ObjectId) (e : Event) : Event :=
  match e with
  | EvDispatched id promptText use st =>
      EvDispatched id promptText use (Revised.with_previousResponseId previous st)
  | _ => e
  end.

(** What the completion [c] stores in the response path of its model. *)
Definition landed (svc : AIService) (promptText : string) (st : Settings) (c : Completion)
    : ModelResponse :=
  cast (c_now c)
    (p_value (completionPatch svc (c_world c) (c_now c) (c_model c) promptText st)).

(** A document without its write stamp. *)
Definition unstamped (d : AIResponse) : AIResponse := set_updatedAt 0 d.

(** * Properties *)

(** Case analysis on the tests of the middleware. *)
Ltac case_ifs :=
  repeat match goal with
         | |- context [if ?b then _ else _] => destruct b
         end.

Ltac case_tests :=
  repeat (match goal with
          | |- context [Z.eqb ?a ?b] => destruct (Z.eqb_spec a b)
          | |- context [Z.ltb ?a ?b] => destruct (Z.ltb_spec a b)
          end; simpl in *).

(** ** Names and response paths *)

Lemma known_model_name (m : Model) : known_model (model_name m) = Some m.
Proof. destruct m; reflexivity. Qed.

Lemma known_model_inv (s : string) (m : Model) :
  known_model s = Some m -> s = model_name m.
Proof.
  unfold known_model.
  repeat match goal with
         | |- context [String.eqb s ?k] => destruct (String.eqb_spec s k) as [->|_]
         end; intros H; inversion H; reflexivity.
Qed.

Lemma model_name_inj (m m' : Model) : model_name m = model_name m' -> m = m'.
Proof. destruct m, m'; simpl; intros H; first [reflexivity | discriminate H]. Qed.

Lemma field_by_name_model_name (d : AIResponse) (m : Model) :
  field_by_name d (model_name m) = field d m.
Proof. unfold field_by_name. rewrite known_model_name. reflexivity. Qed.

Lemma field_set_field (m m' : Model) (v : option ModelResponse) (d : AIResponse) :
  field (set_field m v d) m' = if decide (m = m') then v else field d m'.
Proof. destruct d, m, m'; reflexivity. Qed.

Lemma field_set_field_by_name (s : string) (m' : Model) (v : option ModelResponse)
    (d : AIResponse) :
  field (set_field_by_name s v d) m'
  = if decide (known_model s = Some m') then v else field d m'.
Proof.
  unfold set_field_by_name. destruct (known_model s) as [m|] eqn:E.
  - rewrite field_set_field. destruct (decide (m = m')) as [->|N].
    + rewrite decide_True; reflexivity.
    + rewrite decide_False; [reflexivity | congruence].
  - rewrite decide_False; [reflexivity | discriminate].
Qed.

(** The setters of the aggregate fields leave the response paths alone. *)
Lemma field_set_updatedAt t d m : field (set_updatedAt t d) m = field d m.
Proof. destruct d, m; reflexivity. Qed.

Lemma field_if_updatedAt (b : bool) t d m :
  field (if b then set_updatedAt t d else d) m = field d m.
Proof. destruct b; [apply field_set_updatedAt | reflexivity]. Qed.

Lemma field_set_updatedBy u d m : field (set_updatedBy u d) m = field d m.
Proof. destruct d, m; reflexivity. Qed.

Lemma field_set_selectedModel s d m : field (set_selectedModel s d) m = field d m.
Proof. destruct d, m; reflexivity. Qed.

Lemma field_set_enabledModels l d m : field (set_enabledModels l d) m = field d m.
Proof. destruct d, m; reflexivity. Qed.

Lemma field_set_overallStatus s d m : field (set_overallStatus s d) m = field d m.
Proof. destruct d, m; reflexivity. Qed.

Lemma field_set_counters a b c d m : field (set_counters a b c d) m = field d m.
Proof. destruct d, m; reflexivity. Qed.

Lemma field_set_totalModels a d m : field (set_totalModels a d) m = field d m.
Proof. destruct d, m; reflexivity. Qed.

Lemma field_set_ended t d m : field (set_ended t d) m = field d m.
Proof. destruct d, m; reflexivity. Qed.

Lemma field_preSave now d m : field (preSave now d) m = field d m.
Proof.
  unfold preSave. destruct (foldl (tally d) (0, 0, 0) modelFields) as [[c fl] t].
  case_ifs;
    rewrite ?field_set_ended, ?field_set_overallStatus, ?field_set_counters; reflexivity.
Qed.

Lemma field_save now id d db m : field (fst (save now id d db)) m = field d m.
Proof.
  unfold save; simpl. rewrite field_preSave.
  destruct (db !! id) as [loaded|]; [destruct (bool_decide (d <> loaded))|];
    rewrite ?field_set_updatedAt; reflexivity.
Qed.

Lemma save_db now id d db : snd (save now id d db) = <[id := fst (save now id d db)]> db.
Proof. reflexivity. Qed.

(** ** The pre-save middleware *)

(** What the three counters hold after the loop: successes, failures and the
    tokens of the successes among the response paths that are set. *)
Lemma preSave_counters now d :
  (completedModels (preSave now d), failedModels (preSave now d),
   totalTokensUsed (preSave now d))
  = foldl (tally d) (0, 0, 0) modelFields.
Proof.
  unfold preSave. destruct (foldl (tally d) (0, 0, 0) modelFields) as [[c fl] t].
  destruct d; cbn.
  case_ifs; reflexivity.
Qed.

Lemma preSave_totalModels now d : totalModels (preSave now d) = totalModels d.
Proof.
  unfold preSave. destruct (foldl (tally d) (0, 0, 0) modelFields) as [[c fl] t].
  destruct d; cbn.
  case_ifs; reflexivity.
Qed.




(** ** The statistics that a save computes *)

Lemma triple_eq (a a' b b' c c' : Z) :
  a = a' -> b = b' -> c = c' -> (a, b, c) = (a', b', c').
Proof. intros -> -> ->. reflexivity. Qed.

Lemma tally_step (d : AIResponse) (c fl t : Z) (m : Model) :
  tally d (c, fl, t) m
  = (c + (if has_status success (field d m) then 1 else 0),
     fl + (if has_status error (field d m) then 1 else 0),
     if has_status success (field d m) then js_add t (tokensOf d m) else t).
Proof.
  unfold tally, tokensOf, has_status.
  destruct (field d m) as [r|]; [destruct (status r)|]; simpl;
    apply triple_eq; first [reflexivity | lia].
Qed.

Lemma sumZ_cons (x : Z) (l : list Z) : sumZ (x :: l) = x + sumZ l.
Proof. reflexivity. Qed.

Lemma foldl_tally_counts (d : AIResponse) (l : list Model) (acc : Z * Z * Z) :
  foldl (tally d) acc l
  = (acc.1.1 + Z.of_nat (length (List.filter (fun m => has_status success (field d m)) l)),
     acc.1.2 + Z.of_nat (length (List.filter (fun m => has_status error (field d m)) l)),
     foldl js_add acc.2
       (tokensOf d <$> List.filter (fun m => has_status success (field d m)) l)).
Proof.
  revert acc. induction l as [|m l IH]; intros [[c fl] t].
  - simpl. apply triple_eq; first [reflexivity | lia].
  - cbn [foldl List.filter]. rewrite tally_step, IH. cbn [fst snd].
    destruct (has_status success (field d m)), (has_status error (field d m));
      rewrite ?fmap_cons; cbn [length foldl]; apply triple_eq; first [reflexivity | lia].
Qed.

(** Below 2^53 the additions of the middleware are exact. *)
Lemma to_double_exact (z : Z) : Z.abs z < 2 ^ 53 -> to_double z = z.
Proof.
  intros H. unfold to_double. destruct (Z.ltb_spec (Z.abs z) (2 ^ 53)); [reflexivity | lia].
Qed.

Lemma foldl_js_add_exact (l : list Z) (a : Z) :
  0 <= a -> Forall (fun x => 0 <= x) l -> a + sumZ l < 2 ^ 53 ->
  foldl js_add a l = a + sumZ l.
Proof.
  revert a. induction l as [|x l IH]; intros a Ha Hl Hb.
  - simpl. unfold sumZ. simpl. lia.
  - apply Forall_cons in Hl as [Hx Hl]. rewrite sumZ_cons in Hb |- *. cbn [foldl].
    assert (Hs : 0 <= sumZ l).
    { clear -Hl. induction Hl; [unfold sumZ; simpl; lia | rewrite sumZ_cons; lia]. }
    unfold js_add at 2. rewrite to_double_exact by lia.
    rewrite IH by (try assumption; lia). lia.
Qed.



(** ** Provider-completion patches *)

Lemma apply_patch_idempotent (p : Patch) (d : AIResponse) :
  apply_patch p (apply_patch p d) = apply_patch p d.
Proof.
  unfold apply_patch, set_field_by_name.
  destruct (known_model (p_model p)) as [m|]; destruct d; [destruct m|]; reflexivity.
Qed.

Lemma findByIdAndUpdate_lookup (id : ObjectId) (p : Patch) (db : gmap ObjectId AIResponse) :
  findByIdAndUpdate id p db !! id = apply_patch p <$> db !! id.
Proof.
  unfold findByIdAndUpdate. destruct (db !! id) as [d|] eqn:E; simpl.
  - apply lookup_insert_eq.
  - exact E.
Qed.

Lemma findByIdAndUpdate_idempotent (id : ObjectId) (p : Patch) (db : gmap ObjectId AIResponse) :
  findByIdAndUpdate id p (findByIdAndUpdate id p db) = findByIdAndUpdate id p db.
Proof.
  unfold findByIdAndUpdate at 1. rewrite findByIdAndUpdate_lookup.
  destruct (db !! id) as [d|] eqn:E; simpl; [|reflexivity].
  unfold findByIdAndUpdate. rewrite E.
  rewrite insert_insert_eq, apply_patch_idempotent. reflexivity.
Qed.

Lemma findByIdAndUpdate_alter (id : ObjectId) (p : Patch) (db : gmap ObjectId AIResponse) :
  findByIdAndUpdate id p db = alter (apply_patch p) id db.
Proof.
  apply map_eq. intros j. rewrite lookup_alter. case_decide as Hj.
  - subst j. apply findByIdAndUpdate_lookup.
  - unfold findByIdAndUpdate. destruct (db !! id); [apply lookup_insert_ne; exact Hj | reflexivity].
Qed.

(** The result that a completion patch carries always has its [createdAt]. *)
Lemma completionPatch_createdAt svc w now modelName promptText st :
  is_Some (r_createdAt (p_value (completionPatch svc w now modelName promptText st))).
Proof.
  unfold completionPatch.
  destruct (snd (generateSingleModelResponse svc w modelName promptText st));
    simpl; eexists; reflexivity.
Qed.

Lemma apply_patch_redelivered (t : Z) (p : Patch) (d : AIResponse) :
  is_Some (r_createdAt (p_value p)) ->
  apply_patch (redelivered t p) (apply_patch p d) = set_updatedAt t (apply_patch p d).
Proof.
  intros [c Hc]. unfold apply_patch, redelivered, set_field_by_name, cast. simpl.
  rewrite Hc. simpl.
  destruct (known_model (p_model p)) as [m|]; destruct d; [destruct m|]; reflexivity.
Qed.

(** C10.  Applying the same provider-completion patch twice in succession
    leaves the collection, hence the aggregate, in the state one application
    gives; so does a provider completion that lands twice.  When the same
    result is delivered again later, under a new time stamp, nothing but
    [updatedAt] differs from the state after the first delivery. *)
Theorem completion_patch_applied_twice (svc : AIService) (id : ObjectId) (p : Patch)
    (promptText : string) (st : Settings) (c : Completion) (t : Z)
    (db : gmap ObjectId AIResponse) :
  findByIdAndUpdate id p (findByIdAndUpdate id p db) = findByIdAndUpdate id p db
  /\ complete svc id promptText st (complete svc id promptText st db c) c
     = complete svc id promptText st db c
  /\ findByIdAndUpdate id
       (redelivered t (completionPatch svc (c_world c) (c_now c) (c_model c) promptText st))
       (complete svc id promptText st db c)
     = alter (set_updatedAt t) id (complete svc id promptText st db c).
Proof.
  split; [|split].
  - apply findByIdAndUpdate_idempotent.
  - unfold complete. apply findByIdAndUpdate_idempotent.
  - unfold complete. rewrite !findByIdAndUpdate_alter, !alter_alter_eq.
    apply alter_ext. intros d _. simpl.
    apply apply_patch_redelivered, completionPatch_createdAt.
Qed.

(** A patch sets one response path and [updatedAt]; the fields that the
    pre-save middleware owns keep the values they had. *)
Lemma apply_patch_statistics (p : Patch) (d : AIResponse) :
  statistics (apply_patch p d) = statistics d /\ totalModels (apply_patch p d) = totalModels d.
Proof.
  unfold apply_patch, set_field_by_name.
  destruct (known_model (p_model p)) as [m|]; destruct d; [destruct m|]; split; reflexivity.
Qed.

Lemma complete_statistics svc id promptText st db c d :
  db !! id = Some d ->
  exists d', complete svc id promptText st db c !! id = Some d'
             /\ statistics d' = statistics d.
Proof.
  intros E. unfold complete. rewrite findByIdAndUpdate_lookup, E. simpl.
  eexists; split; [reflexivity|]. apply apply_patch_statistics.
Qed.

(** Whatever the order in which the provider calls settle, the background
    task never changes the counters, the status or the end time. *)
Lemma generateIndependentResponses_statistics svc id promptText st schedule db d :
  db !! id = Some d ->
  exists d', generateIndependentResponses svc id promptText st schedule db !! id = Some d'
             /\ statistics d' = statistics d.
Proof.
  unfold generateIndependentResponses.
  revert db d. induction schedule as [|c schedule IH]; intros db d E; simpl.
  - eauto.
  - destruct (complete_statistics svc id promptText st db c d E) as (d1 & E1 & S1).
    destruct (IH _ _ E1) as (d2 & E2 & S2).
    exists d2. split; [exact E2 | congruence].
Qed.

(** C1.  The run of the specification's scenario on the code: two providers
    are requested, gemini answers with 42 tokens and openai fails.  Both
    results are stored, but the patches of the background task have not
    recomputed anything: the counters are still 0 and the status is still
    processing, where the decision table gives partial with one success, one
    failure and 42 tokens. *)
Theorem completion_patches_leave_statistics_stale :
  exists d,
    Scenario.settled !! 7%N = Some d
    /\ has_status success (field d gemini) = true
    /\ (tk_total ∘ tokens <$> field d gemini) = Some 42
    /\ has_status error (field d openai) = true
    /\ totalModels d = 2
    /\ completedModels d = 0
    /\ failedModels d = 0
    /\ totalTokensUsed d = 0
    /\ overallStatus d = processing
    /\ decisionTable 2 1 1 = partial.
Proof.
  eexists. split; [vm_compute; reflexivity|].
  vm_compute. repeat split; reflexivity.
Qed.

(** The same aggregate once any handler saves it: the middleware then finds
    one success, one failure and 42 tokens, and the status of the table. *)
Lemma saved_statistics_follow_the_table :
  exists d,
    Scenario.settled !! 7%N = Some d
    /\ statistics (preSave 70000 d) = (1, 1, 42, partial, Some 70000, 69000).
Proof.
  eexists. split; [vm_compute; reflexivity|]. vm_compute. reflexivity.
Qed.

(** ** End time *)

(** C3 (amended).  Every save stamps [endTime] with the time of that save,
    and [totalDuration] with the time since [startTime], when the counters it
    has just computed are terminal, and leaves both as they were otherwise; a
    provider-completion patch never touches them. *)
Theorem endTime_stamped_by_each_terminal_save (now : Z) (d : AIResponse) (p : Patch) :
  endTime (preSave now d) = (if terminalCounts (preSave now d) then Some now else endTime d)
  /\ totalDuration (preSave now d)
     = (if terminalCounts (preSave now d) then now - startTime d else totalDuration d)
  /\ endTime (apply_patch p d) = endTime d
  /\ totalDuration (apply_patch p d) = totalDuration d.
Proof.
  split; [|split; [|pose proof (apply_patch_statistics p d) as [H _];
                     unfold statistics in H; split; congruence]].
  - unfold preSave, terminalCounts.
    destruct (foldl (tally d) (0, 0, 0) modelFields) as [[c fl] t].
    destruct d; cbn.
    case_tests; first [reflexivity | exfalso; lia].
  - unfold preSave, terminalCounts.
    destruct (foldl (tally d) (0, 0, 0) modelFields) as [[c fl] t].
    destruct d; cbn.
    case_tests; first [reflexivity | exfalso; lia].
Qed.

(** C3 (as stated) fails: the aggregate reaches completed at the first edit,
    saved at 5000, which stamps the end time; the second edit, saved at 9000,
    stamps it again. *)
Lemma endTime_changed_by_a_later_save :
  exists d1 d2,
    Scenario.edited_once !! 7%N = Some d1
    /\ Scenario.edited_twice !! 7%N = Some d2
    /\ overallStatus d1 = completed /\ endTime d1 = Some 5000 /\ totalDuration d1 = 4000
    /\ overallStatus d2 = completed /\ endTime d2 = Some 9000 /\ totalDuration d2 = 8000.
Proof.
  do 2 eexists. split; [vm_compute; reflexivity|]. split; [vm_compute; reflexivity|].
  vm_compute. repeat split; reflexivity.
Qed.

(** ** The provider caller *)

(** What [callOpenRouter] returns is decided by the outcome of its [try]
    block alone. *)
Lemma callOpenRouter_snd svc w modelName apiModelId promptText st :
  snd (callOpenRouter svc w modelName apiModelId promptText st)
  = match snd (callOpenRouter_try svc w modelName apiModelId promptText st) with
    | Return r => Return r
    | Throw e =>
        Return {| r_model := modelName;
                  r_response := Some EmptyString;
                  r_status := error;
                  r_errorMessage := Some (modelName +:+ " Error: " +:+ error_detail e);
                  r_tokens := Some zero_tokens;
                  r_responseTime := Some (finished w modelName - started w);
                  r_createdAt := Some (finished w modelName) |}
    end.
Proof.
  unfold callOpenRouter.
  destruct (callOpenRouter_try svc w modelName apiModelId promptText st) as [log [r|e]];
    reflexivity.
Qed.

(** No exception leaves [callOpenRouter], whatever the provider, the
    configuration and the world. *)
Lemma callOpenRouter_returns svc w modelName apiModelId promptText st :
  exists r, snd (callOpenRouter svc w modelName apiModelId promptText st) = Return r.
Proof.
  rewrite callOpenRouter_snd.
  destruct (snd (callOpenRouter_try svc w modelName apiModelId promptText st)); eauto.
Qed.

Lemma error_detail_prefers_upstream (e : JsError) :
  error_detail e
  = match err_data e with
    | Some data => or_else (ed_error_message data) (or_else (ed_message data) (ed_json data))
    | None => err_message e
    end.
Proof.
  unfold error_detail. destruct (err_data e) as [data|]; [|reflexivity].
  destruct (ed_error_message data) as [[|? ?]|], (ed_message data) as [[|? ?]|]; reflexivity.
Qed.

(** C5.  When the gateway call of an enabled, configured provider fails (the
    POST is rejected: network error, timeout or a status outside 2xx),
    [callOpenRouter] returns normally, with an error result: empty response,
    a message built from the gateway's own detail when the error carries a
    response body and from the transport message otherwise, zero tokens, and
    the time elapsed up to the failure. *)
Theorem callOpenRouter_upstream_failure (svc : AIService) (w : World) (m : Model)
    (apiModelId promptText : string) (st : Settings) (key : string) (e : JsError) :
  enabled (provider svc m) = true ->
  apiKey (provider svc m) = Some key ->
  truthy (Some key) = true ->
  axios_post w (requestData apiModelId (snd (conversationHistory w (model_name m) st))
                  promptText st key) = Rejected e ->
  exists log,
    callOpenRouter svc w (model_name m) apiModelId promptText st
    = (log,
       Return {| r_model := model_name m;
                 r_response := Some EmptyString;
                 r_status := error;
                 r_errorMessage := Some (model_name m +:+ " Error: " +:+ error_detail e);
                 r_tokens := Some zero_tokens;
                 r_responseTime := Some (finished w (model_name m) - started w);
                 r_createdAt := Some (finished w (model_name m)) |})
    /\ error_detail e
       = match err_data e with
         | Some data => or_else (ed_error_message data) (or_else (ed_message data) (ed_json data))
         | None => err_message e
         end
    /\ forall (w' : World) (promptText' : string) (st' : Settings),
         exists r,
           snd (callOpenRouter svc w' (model_name m) apiModelId promptText' st') = Return r.
Proof.
  intros Hen Hkey Htruthy Hpost.
  unfold callOpenRouter at 1, callOpenRouter_try.
  rewrite known_model_name, Hen, Hkey, Htruthy. simpl. rewrite andb_false_r.
  destruct (conversationHistory w (model_name m) st) as [hlog messages].
  simpl in Hpost. rewrite Hpost.
  eexists. split; [reflexivity|]. split; [apply error_detail_prefers_upstream|].
  intros w' promptText' st'. apply callOpenRouter_returns.
Qed.

(** gemini, configured through the gateway key, whose call times out. *)
Lemma callOpenRouter_upstream_failure_witness :
  enabled (provider Scenario.service gemini) = true
  /\ apiKey (provider Scenario.service gemini) = Some "sk-or-1"
  /\ exists log,
       callOpenRouter Scenario.service Scenario.world_timing_out (model_name gemini)
         "google/gemini-2.0-flash-exp:free" "What is AI?" (Scenario.plain_settings None)
       = (log,
          Return {| r_model := "gemini";
                    r_response := Some EmptyString;
                    r_status := error;
                    r_errorMessage :=
                      Some ("gemini" +:+ " Error: " +:+ error_detail Scenario.timeout);
                    r_tokens := Some zero_tokens;
                    r_responseTime := Some (61000 - 1000);
                    r_createdAt := Some 61000 |}).
Proof.
  split; [reflexivity|]. split; [reflexivity|].
  destruct (callOpenRouter_upstream_failure Scenario.service Scenario.world_timing_out gemini
              "google/gemini-2.0-flash-exp:free" "What is AI?" (Scenario.plain_settings None)
              "sk-or-1" Scenario.timeout eq_refl eq_refl eq_refl eq_refl)
    as (log & H & _).
  exists log. exact H.
Defined.

(** The two sources of the message: the transport error of a timeout, the
    gateway's own text for a 429. *)
Example callOpenRouter_error_messages :
  (r_errorMessage <$> snd (callOpenRouter Scenario.service Scenario.world_timing_out "gemini"
                             "google/gemini-2.0-flash-exp:free" "What is AI?"
                             (Scenario.plain_settings None)))
  = Return (Some "gemini Error: timeout of 60000ms exceeded")
  /\ (r_errorMessage <$> snd (callOpenRouter Scenario.service Scenario.world_rate_limited "gemini"
                                "google/gemini-2.0-flash-exp:free" "What is AI?"
                                (Scenario.plain_settings None)))
     = Return (Some "gemini Error: Rate limit exceeded").
Proof. split; reflexivity. Qed.

(** ** The invariant of provider results *)

Lemma cast_ok (now : Z) (r : RawResponse) : raw_ok r -> result_ok (cast now r).
Proof.
  unfold raw_ok, result_ok, cast; simpl. intros [He Hs]. split.
  - intros H. destruct (He H) as [-> [x ->]]. split; [reflexivity | eexists; reflexivity].
  - intros H. rewrite (Hs H). reflexivity.
Qed.

Lemma error_result_ok (modelName msg : string) (t : option Tokens) (rt c : option Z) :
  raw_ok {| r_model := modelName; r_response := Some EmptyString; r_status := error;
            r_errorMessage := Some msg; r_tokens := t; r_responseTime := rt;
            r_createdAt := c |}.
Proof. split; simpl; intros H; [split; [reflexivity | eexists; reflexivity] | discriminate H]. Qed.

Lemma success_result_ok (modelName : string) (text : option string) (t : option Tokens)
    (rt c : option Z) :
  raw_ok {| r_model := modelName; r_response := text; r_status := success;
            r_errorMessage := None; r_tokens := t; r_responseTime := rt; r_createdAt := c |}.
Proof. split; simpl; intros H; [discriminate H | reflexivity]. Qed.

Lemma callOpenRouter_try_ok svc w modelName apiModelId promptText st r :
  snd (callOpenRouter_try svc w modelName apiModelId promptText st) = Return r -> raw_ok r.
Proof.
  unfold callOpenRouter_try.
  destruct (known_model modelName) as [m|];
    [|destruct (inherited_key modelName); discriminate].
  destruct (negb (enabled (provider svc m))); [discriminate|].
  destruct (testMode svc && negb (truthy (apiKey (provider svc m)))).
  - simpl. intros [= <-]. apply success_result_ok.
  - destruct (apiKey (provider svc m)) as [key|]; [|discriminate].
    destruct (negb (truthy (Some key))); [discriminate|].
    destruct (conversationHistory w modelName st) as [hlog messages].
    destruct (axios_post w _) as [[body|]|e]; simpl; try discriminate.
    intros [= <-]. apply success_result_ok.
Qed.

Lemma callOpenRouter_ok svc w modelName apiModelId promptText st :
  exists r, snd (callOpenRouter svc w modelName apiModelId promptText st) = Return r
            /\ raw_ok r.
Proof.
  rewrite callOpenRouter_snd.
  destruct (snd (callOpenRouter_try svc w modelName apiModelId promptText st)) as [r|e] eqn:E.
  - exists r. split; [reflexivity|]. eapply callOpenRouter_try_ok; exact E.
  - eexists. split; [reflexivity|]. apply error_result_ok.
Qed.

Lemma completionPatch_ok svc w now modelName promptText st :
  raw_ok (p_value (completionPatch svc w now modelName promptText st)).
Proof.
  unfold completionPatch, generateSingleModelResponse.
  destruct (known_model modelName) as [m|]; simpl;
    [|destruct (inherited_key modelName); apply error_result_ok].
  destruct (negb (enabled (provider svc m))); simpl; [apply error_result_ok|].
  destruct (callOpenRouter_ok svc w modelName (apiModel (provider svc m)) promptText st)
    as (r & -> & Hr).
  simpl. destruct Hr as [He Hs]. split; simpl; assumption.
Qed.

Lemma modelPromise_ok svc w promptText st modelName :
  raw_ok (modelPromise svc w promptText st modelName).
Proof.
  unfold modelPromise. destruct (known_model modelName) as [m|]; [|apply error_result_ok].
  destruct (callOpenRouter_ok svc w (model_name m) (apiModel (provider svc m)) promptText st)
    as (r & -> & Hr).
  exact Hr.
Qed.

(** C9 (amended).  Every result that the code itself produces keeps the
    invariant once stored: what [callOpenRouter] returns (and it always
    returns), what either patch of the background task stores, and what a
    retry stores. *)
Theorem produced_results_keep_invariant (svc : AIService) (w : World) (now : Z)
    (modelName apiModelId promptText : string) (st : Settings) :
  (exists r, snd (callOpenRouter svc w modelName apiModelId promptText st) = Return r
             /\ raw_ok r /\ result_ok (cast now r))
  /\ result_ok (cast now (p_value (completionPatch svc w now modelName promptText st)))
  /\ result_ok (cast now (modelPromise svc w promptText st modelName)).
Proof.
  split; [|split].
  - destruct (callOpenRouter_ok svc w modelName apiModelId promptText st) as (r & E & Hr).
    exists r. auto using cast_ok.
  - apply cast_ok, completionPatch_ok.
  - apply cast_ok, modelPromise_ok.
Qed.

(** C9 (as stated) fails on the manual update: [PUT /:id/model] with status
    error, a text and no error message is accepted and stored as sent. *)
Lemma manual_update_breaks_invariant :
  exists d r,
    updateModelResponseValidation Scenario.manual_update = true
    /\ Scenario.manually_updated.1 = reply_with OK "Model response updated successfully" d
    /\ Scenario.manually_updated.2 !! 7%N = Some d
    /\ field d gemini = Some r
    /\ status r = error
    /\ response r = Some "see the error log"
    /\ errorMessage r = None.
Proof.
  do 2 eexists. split; [reflexivity|]. split; [vm_compute; reflexivity|].
  split; [vm_compute; reflexivity|]. split; [vm_compute; reflexivity|].
  repeat split; reflexivity.
Qed.

(** ** Secondary effects *)

Lemma callOpenRouter_try_history_failure svc w modelName apiModelId promptText st pid e :
  findById w pid = Throw e ->
  snd (callOpenRouter_try svc w modelName apiModelId promptText
         (Revised.with_previousResponseId (Some pid) st))
  = snd (callOpenRouter_try svc w modelName apiModelId promptText
           (Revised.with_previousResponseId None st)).
Proof.
  intros H. unfold callOpenRouter_try, conversationHistory. simpl. rewrite H.
  destruct (known_model modelName) as [m|]; [|reflexivity].
  destruct (negb (enabled (provider svc m))); [reflexivity|].
  destruct (testMode svc && negb (truthy (apiKey (provider svc m)))); [reflexivity|].
  destruct (apiKey (provider svc m)) as [key|]; [|reflexivity].
  destruct (negb (truthy (Some key))); [reflexivity|].
  unfold requestData. simpl.
  destruct (axios_post w _) as [[body|]|e']; reflexivity.
Qed.

Lemma projectId_selected (m : Model) (now : Z) (uid : ObjectId) (d : AIResponse) :
  projectId
    (set_updatedAt now
       (set_updatedBy uid
          (set_overallStatus completed
             (set_counters 1 0 (totalTokensUsed d)
                (set_totalModels 1
                   (set_enabledModels [model_name m] (unsetOthers (model_name m) d)))))))
  = projectId d.
Proof. destruct d, m; reflexivity. Qed.

(** C7 (amended).  When the lookup of the previous response fails, the
    history block logs the error and pushes no message, and the provider call
    returns exactly what it returns when no previous response is named.  The
    project update of [selectPreferredResponse] comes after the selection has
    been written: what is stored does not depend on how that update goes.
    When the project collection can be written and holds no project of the
    aggregate's [projectId], the update matches nothing: it returns, the
    collection is as it was, and the selection is answered 200. *)
Theorem history_lookup_failure_is_swallowed (svc : AIService) (w w' : World)
    (validate : ObjectId -> string -> bool) (now : Z) (uid id : ObjectId)
    (modelName apiModelId promptText : string) (st : Settings) (pid : ObjectId)
    (e : JsError) (db : gmap ObjectId AIResponse) :
  findById w pid = Throw e ->
  conversationHistory w modelName (Revised.with_previousResponseId (Some pid) st)
  = ([LogHistoryError modelName e], [])
  /\ snd (callOpenRouter svc w modelName apiModelId promptText
            (Revised.with_previousResponseId (Some pid) st))
     = snd (callOpenRouter svc w modelName apiModelId promptText
              (Revised.with_previousResponseId None st))
  /\ snd (selectPreferredResponse validate w now uid id modelName db)
     = snd (selectPreferredResponse validate w' now uid id modelName db)
  /\ (forall (projects : gmap ObjectId (list string)) (d : AIResponse),
        validate id modelName = true ->
        findOne db id uid = Some d ->
        nothingToSelect d modelName = false ->
        (forall p, projectId d = Some p -> projects !! p = None) ->
        (forall p, projectId d = Some p ->
                   Project_updateOne None projects p [modelName] = Return projects)
        /\ exists d1,
             selectPreferredResponse validate (with_projects None projects w) now uid id
               modelName db
             = (reply_with OK "Preferred response selected and project settings updated" d1,
                <[id := d1]> db)).
Proof.
  intros H. split; [|split; [|split]].
  - unfold conversationHistory. simpl. rewrite H. reflexivity.
  - rewrite !callOpenRouter_snd.
    rewrite (callOpenRouter_try_history_failure _ _ _ _ _ _ _ _ H). reflexivity.
  - unfold selectPreferredResponse.
    destruct (negb (validate id modelName)); [reflexivity|].
    destruct (findOne db id uid) as [d|]; [|reflexivity].
    destruct (nothingToSelect d modelName); [reflexivity|].
    destruct (updateProjectSettings w _ modelName), (updateProjectSettings w' _ modelName);
      reflexivity.
  - intros projects d Hvalid Hfind Hsel Hnone.
    assert (Hup : forall p, projectId d = Some p ->
                            Project_updateOne None projects p [modelName] = Return projects).
    { intros p Hp. unfold Project_updateOne. rewrite (Hnone p Hp). reflexivity. }
    split; [exact Hup|].
    unfold selectPreferredResponse. rewrite Hvalid, Hfind, Hsel. cbn [negb].
    assert (Hm : exists m, known_model modelName = Some m).
    { unfold nothingToSelect, field_by_name in Hsel.
      destruct (known_model modelName) as [m|]; [eauto | discriminate Hsel]. }
    destruct Hm as [m Hm]. apply known_model_inv in Hm as ->.
    eexists. unfold updateProjectSettings. rewrite projectId_selected.
    destruct (projectId d) as [p|] eqn:Hp; [|reflexivity].
    cbn [project_updateOne with_projects]. rewrite (Hup p eq_refl). reflexivity.
Qed.

(** The previous response cannot be read; gemini is asked all the same.  The
    project of the aggregate is not in the (empty) project collection; the
    selection goes through. *)
Lemma history_lookup_failure_is_swallowed_witness :
  findById Scenario.world_history_down 5%N = Throw (Error "connection lost")
  /\ conversationHistory Scenario.world_history_down "gemini"
       (Revised.with_previousResponseId (Some 5%N) (Scenario.plain_settings None))
     = ([LogHistoryError "gemini" (Error "connection lost")], [])
  /\ snd (callOpenRouter Scenario.service Scenario.world_history_down "gemini"
            "google/gemini-2.0-flash-exp:free" "And in one sentence?"
            (Revised.with_previousResponseId (Some 5%N) (Scenario.plain_settings None)))
     = snd (callOpenRouter Scenario.service Scenario.world_history_down "gemini"
              "google/gemini-2.0-flash-exp:free" "And in one sentence?"
              (Revised.with_previousResponseId None (Scenario.plain_settings None)))
  /\ snd (selectPreferredResponse Scenario.accept Scenario.world_history_down 70000
            Scenario.owner 7%N "gemini" Scenario.settled)
     = snd (selectPreferredResponse Scenario.accept Scenario.world_project_down 70000
              Scenario.owner 7%N "gemini" Scenario.settled)
  /\ Project_updateOne None ∅ 3%N ["gemini"] = Return ∅
  /\ exists d1,
       selectPreferredResponse Scenario.accept
         (with_projects None ∅ Scenario.world_history_down) 70000 Scenario.owner 7%N "gemini"
         Scenario.settled
       = (reply_with OK "Preferred response selected and project settings updated" d1,
          <[7%N := d1]> Scenario.settled).
Proof.
  split; [reflexivity|].
  destruct (history_lookup_failure_is_swallowed Scenario.service Scenario.world_history_down
              Scenario.world_project_down Scenario.accept 70000 Scenario.owner 7%N "gemini"
              "google/gemini-2.0-flash-exp:free" "And in one sentence?"
              (Scenario.plain_settings None) 5%N (Error "connection lost") Scenario.settled
              eq_refl) as (H1 & H2 & H3 & H4).
  split; [exact H1|]. split; [exact H2|]. split; [exact H3|].
  destruct (H4 ∅ _ eq_refl eq_refl eq_refl (fun p _ => lookup_empty p)) as [H5 H6].
  split; [exact (H5 3%N eq_refl) | exact H6].
Defined.

(** C7 (as stated) fails for the project update: when it throws, the handler
    answers 500, although the selection has been stored. *)
Lemma project_update_failure_fails_selection :
  exists d,
    Scenario.selected_project_down.1
    = reply INTERNAL_SERVER_ERROR "Failed to select preferred response"
    /\ Scenario.selected_project_down.2 !! 7%N = Some d
    /\ overallStatus d = completed
    /\ presentFields d = [gemini]
    /\ enabledModels (settings d) = Some ["gemini"].
Proof.
  eexists. split; [vm_compute; reflexivity|]. split; [vm_compute; reflexivity|].
  vm_compute. repeat split; reflexivity.
Qed.

(** ** Selecting a preferred response *)

Lemma unsetOthers_field (m m' : Model) (d : AIResponse) :
  field (unsetOthers (model_name m) d) m' = if decide (m' = m) then field d m' else None.
Proof. destruct m, m', d; reflexivity. Qed.

Lemma nothingToSelect_false (d : AIResponse) (modelName : string) :
  nothingToSelect d modelName = false ->
  exists m r, known_model modelName = Some m /\ field d m = Some r
              /\ truthy (response r) = true.
Proof.
  unfold nothingToSelect, field_by_name. intros H. apply negb_false_iff in H.
  destruct (known_model modelName) as [m|]; simpl in H; [|discriminate].
  destruct (field d m) as [r|] eqn:E; simpl in H; [|discriminate].
  exists m, r. split; [reflexivity|]. split; [exact E | exact H].
Qed.

(** The guard of the selection lets through exactly the results that are
    present with a non-empty response text. *)
Lemma nothingToSelect_spec (d : AIResponse) (modelName : string) :
  nothingToSelect d modelName = false
  <-> exists m r c s, known_model modelName = Some m /\ field d m = Some r
                      /\ response r = Some (String c s).
Proof.
  split.
  - intros H. destruct (nothingToSelect_false d modelName H) as (m & r & Hm & Hr & Ht).
    destruct (response r) as [[|c s]|] eqn:E; try discriminate Ht.
    exists m, r, c, s. auto.
  - intros (m & r & c & s & Hm & Hr & Hs).
    unfold nothingToSelect, field_by_name. rewrite Hm. simpl. rewrite Hr. simpl.
    rewrite Hs. reflexivity.
Qed.

(** C2 (amended).  For a request that passes validation and names a provider,
    both revisions of [selectPreferredResponse] reject the selection, with
    400 and the collection untouched, exactly when the provider's result is
    absent or has no response text, whatever its status.  Otherwise both
    remove every other provider's result, keep the chosen one as it is, set
    the status to completed and the enabled models to the chosen one;
    ai.controller.js also forces the counters to 1 of 1 with no failure, and
    the revised controller also records the selected model. *)
Theorem selectPreferred_effect (validate : ObjectId -> string -> bool) (w : World)
    (now : Z) (uid id : ObjectId) (modelName : string) (db : gmap ObjectId AIResponse)
    (d : AIResponse) :
  validate id modelName = true ->
  modelName <> EmptyString ->
  findOne db id uid = Some d ->
  let v1 := selectPreferredResponse validate w now uid id modelName db in
  let v2 := Revised.selectPreferredResponse validate now uid id modelName db in
  if nothingToSelect d modelName then
    v1 = (reply BAD_REQUEST "Selected model response does not exist", db)
    /\ v2 = (reply BAD_REQUEST "Selected model response does not exist", db)
  else
    exists m d1 d2,
      known_model modelName = Some m
      /\ v1 = (match updateProjectSettings w d1 modelName with
               | Return _ =>
                   reply_with OK "Preferred response selected and project settings updated" d1
               | Throw e => catch_reply e "Failed to select preferred response"
               end, <[id := d1]> db)
      /\ v2 = (reply_with OK "Preferred response selected and project settings updated" d2,
               <[id := d2]> db)
      /\ (forall m', field d1 m' = if decide (m' = m) then field d m' else None)
      /\ (forall m', field d2 m' = if decide (m' = m) then field d m' else None)
      /\ (overallStatus d1, enabledModels (settings d1), totalModels d1, completedModels d1,
          failedModels d1) = (completed, Some [modelName], 1, 1, 0)
      /\ (overallStatus d2, enabledModels (settings d2), selectedModel d2)
         = (completed, Some [modelName], Some modelName).
Proof.
  intros Hvalid Hname Hfind v1 v2. subst v1 v2.
  unfold selectPreferredResponse, Revised.selectPreferredResponse.
  rewrite Hvalid, Hfind. simpl.
  destruct (String.eqb_spec modelName EmptyString) as [E|_]; [contradiction|].
  destruct (nothingToSelect d modelName) eqn:Hsel.
  - split; reflexivity.
  - destruct (nothingToSelect_false d modelName Hsel) as (m & r & Hm & Hr & Ht).
    apply known_model_inv in Hm as ->.
    exists m,
      (set_updatedAt now
         (set_updatedBy uid
            (set_overallStatus completed
               (set_counters 1 0 (totalTokensUsed d)
                  (set_totalModels 1
                     (set_enabledModels [model_name m] (unsetOthers (model_name m) d))))))),
      (set_enabledModels [model_name m]
         (set_updatedBy uid
            (set_overallStatus completed
               (set_selectedModel (Some (model_name m)) (unsetOthers (model_name m) d))))).
    split; [apply known_model_name|].
    split.
    { destruct (updateProjectSettings w _ (model_name m)); reflexivity. }
    split; [reflexivity|].
    split.
    { intros m'. rewrite field_set_updatedAt, field_set_updatedBy, field_set_overallStatus,
        field_set_counters, field_set_totalModels, field_set_enabledModels.
      apply unsetOthers_field. }
    split.
    { intros m'. rewrite field_set_enabledModels, field_set_updatedBy,
        field_set_overallStatus, field_set_selectedModel.
      apply unsetOthers_field. }
    split; destruct m, d; reflexivity.
Qed.

(** Selecting gemini, whose call answered, on the aggregate of the scenario. *)
Lemma selectPreferred_effect_witness :
  exists d d2,
    findOne Scenario.settled 7%N Scenario.owner = Some d
    /\ Revised.selectPreferredResponse Scenario.accept 70000 Scenario.owner 7%N "gemini"
         Scenario.settled
       = (reply_with OK "Preferred response selected and project settings updated" d2,
          <[7%N := d2]> Scenario.settled)
    /\ (forall m', field d2 m' = if decide (m' = gemini) then field d m' else None)
    /\ selectedModel d2 = Some "gemini".
Proof.
  eexists. 
  pose proof (selectPreferred_effect Scenario.accept (Scenario.world_answering "AI is ..." 42)
                70000 Scenario.owner 7%N "gemini" Scenario.settled _
                eq_refl ltac:(discriminate) eq_refl) as H.
  cbv zeta in H.
  match type of H with
  | if ?b then _ else _ => change b with false in H
  end.
  destruct H as (m & d1 & d2 & Hm & _ & H2 & _ & Hf & _ & Hs).
  injection Hm as <-.
  exists d2. split; [reflexivity|]. split; [exact H2|]. split; [exact Hf|].
  injection Hs as _ _ ->. reflexivity.
Defined.

(** C2 (as stated) fails: the gateway answered gemini's call with an empty
    completion, so its result has status success, and both revisions reject
    its selection. *)
Lemma successful_result_not_selectable :
  exists d,
    Scenario.empty_answer !! 7%N = Some d
    /\ has_status success (field d gemini) = true
    /\ selectPreferredResponse Scenario.accept (Scenario.world_answering "AI is ..." 42)
         70000 Scenario.owner 7%N "gemini" Scenario.empty_answer
       = (reply BAD_REQUEST "Selected model response does not exist", Scenario.empty_answer)
    /\ Revised.selectPreferredResponse Scenario.accept 70000 Scenario.owner 7%N "gemini"
         Scenario.empty_answer
       = (reply BAD_REQUEST "Selected model response does not exist", Scenario.empty_answer).
Proof.
  eexists. split; [vm_compute; reflexivity|]. split; [vm_compute; reflexivity|].
  split.
  - unfold selectPreferredResponse.
    replace (findOne Scenario.empty_answer 7%N Scenario.owner) with
      (Scenario.empty_answer !! 7%N) by (vm_compute; reflexivity).
    vm_compute (Scenario.empty_answer !! 7%N). reflexivity.
  - unfold Revised.selectPreferredResponse.
    replace (findOne Scenario.empty_answer 7%N Scenario.owner) with
      (Scenario.empty_answer !! 7%N) by (vm_compute; reflexivity).
    vm_compute (Scenario.empty_answer !! 7%N). reflexivity.
Qed.

(** ** Undoing a selection *)

Lemma tally_ext (d1 d2 : AIResponse) :
  (forall m, field d1 m = field d2 m) ->
  forall l acc, foldl (tally d1) acc l = foldl (tally d2) acc l.
Proof.
  intros H l. induction l as [|f l IH]; intros acc; simpl; [reflexivity|].
  replace (tally d1 acc f) with (tally d2 acc f); [apply IH|].
  unfold tally. rewrite H. reflexivity.
Qed.

Lemma preSave_keeps now d :
  settings (preSave now d) = settings d
  /\ selectedModel (preSave now d) = selectedModel d
  /\ updatedBy (preSave now d) = updatedBy d
  /\ startTime (preSave now d) = startTime d.
Proof.
  unfold preSave. destruct (foldl (tally d) (0, 0, 0) modelFields) as [[c fl] t].
  destruct d; cbn.
  case_ifs; repeat split; reflexivity.
Qed.

Lemma existingModels_present (d : AIResponse) :
  List.filter (fun m => bool_decide (is_Some (field_by_name d m))) models
  = model_name <$> presentFields d.
Proof.
  unfold presentFields, models, modelFields. cbn.
  destruct d as [? ? ? g o dk ms l ? ? ? ? ? ? ? ? ? ? ? ?]; cbn.
  destruct g, o, dk, ms, l; reflexivity.
Qed.

Lemma userId_preSave (now : Z) (d : AIResponse) : userId (preSave now d) = userId d.
Proof.
  unfold preSave. destruct (foldl (tally d) (0, 0, 0) modelFields) as [[c fl] t].
  destruct d; cbn. case_ifs; reflexivity.
Qed.

(** What a save leaves as the handler set it. *)
Lemma save_keeps (now : Z) (id : ObjectId) (d : AIResponse) (db : gmap ObjectId AIResponse) :
  let d' := (save now id d db).1 in
  settings d' = settings d
  /\ selectedModel d' = selectedModel d
  /\ updatedBy d' = updatedBy d
  /\ startTime d' = startTime d
  /\ userId d' = userId d
  /\ totalModels d' = totalModels d.
Proof.
  unfold save. cbn [fst].
  set (d1 := if match db !! id with
                | Some loaded => bool_decide (d <> loaded)
                | None => true
                end then set_updatedAt now d else d).
  assert (H1 : settings d1 = settings d /\ selectedModel d1 = selectedModel d
               /\ updatedBy d1 = updatedBy d /\ startTime d1 = startTime d
               /\ userId d1 = userId d /\ totalModels d1 = totalModels d).
  { unfold d1. destruct (match db !! id with Some _ => _ | None => _ end);
      destruct d; repeat split; reflexivity. }
  destruct H1 as (H1 & H2 & H3 & H4 & H5 & H6).
  destruct (preSave_keeps now d1) as (K1 & K2 & K3 & K4).
  rewrite K1, K2, K3, K4, userId_preSave, preSave_totalModels.
  repeat split; assumption.
Qed.

(** The counters of the saved document are those the loop finds on the
    results of the handler's document. *)
Lemma save_counters (now : Z) (id : ObjectId) (d : AIResponse)
    (db : gmap ObjectId AIResponse) :
  let d' := (save now id d db).1 in
  (completedModels d', failedModels d', totalTokensUsed d')
  = foldl (tally d) (0, 0, 0) modelFields.
Proof.
  unfold save. cbn [fst]. rewrite preSave_counters. apply tally_ext.
  intros m. destruct (match db !! id with Some _ => _ | None => _ end);
    rewrite ?field_set_updatedAt; reflexivity.
Qed.

(** C8 (amended).  The undo request leaves every response path as it is
    (removed results stay removed), and sets the enabled models to the
    providers whose result is present or, when none is, to the five known
    providers; the save that follows recomputes the counters from the results
    that are left. *)
Theorem clearSelection_effect (validate : ObjectId -> string -> bool) (now : Z)
    (uid id : ObjectId) (db : gmap ObjectId AIResponse) (d : AIResponse) :
  validate id EmptyString = true ->
  findOne db id uid = Some d ->
  exists d',
    Revised.selectPreferredResponse validate now uid id EmptyString db
    = (reply_with OK "Selection cleared successfully" d', <[id := d']> db)
    /\ (forall m, field d' m = field d m)
    /\ enabledModels (settings d')
       = Some (match presentFields d with
               | [] => ["gemini"; "openai"; "deepseek"; "microsoft"; "llama"]
               | present => model_name <$> present
               end)
    /\ (completedModels d', failedModels d', totalTokensUsed d')
       = foldl (tally d) (0, 0, 0) modelFields.
Proof.
  intros Hvalid Hfind.
  unfold Revised.selectPreferredResponse, Revised.clearSelection.
  rewrite Hvalid, Hfind. cbn [negb String.eqb].
  set (d1 := set_enabledModels _ (set_updatedBy uid d)).
  assert (Hf : forall m, field d1 m = field d m).
  { intros m. unfold d1. rewrite field_set_enabledModels, field_set_updatedBy. reflexivity. }
  pose proof (fun m => field_save now id d1 db m) as Hfs.
  destruct (save_keeps now id d1 db) as (Hs & _).
  pose proof (save_counters now id d1 db) as Hc. cbv zeta in Hc.
  pose proof (save_db now id d1 db) as Hdb.
  destruct (save now id d1 db) as [saved db']. cbn [fst snd] in *. subst db'.
  exists saved. split; [reflexivity|]. split; [|split].
  - intros m. rewrite Hfs. apply Hf.
  - rewrite Hs. unfold d1. rewrite existingModels_present.
    destruct (presentFields d); destruct d; reflexivity.
  - rewrite Hc. apply tally_ext. exact Hf.
Qed.

(** Undoing the selection of gemini on the aggregate of the scenario. *)
Lemma clearSelection_effect_witness :
  exists d d',
    findOne Scenario.r_selected 7%N Scenario.owner = Some d
    /\ Revised.selectPreferredResponse Scenario.accept 5000 Scenario.owner 7%N EmptyString
         Scenario.r_selected
       = (reply_with OK "Selection cleared successfully" d', <[7%N := d']> Scenario.r_selected)
    /\ (forall m, field d' m = field d m)
    /\ enabledModels (settings d') = Some ["gemini"].
Proof.
  eexists.
  destruct (clearSelection_effect Scenario.accept 5000 Scenario.owner 7%N Scenario.r_selected _
              eq_refl eq_refl) as (d' & H1 & H2 & H3 & _).
  exists d'. split; [reflexivity|]. split; [exact H1|]. split; [exact H2 | exact H3].
Defined.

(** C8 (as stated) fails when no result is left: the aggregate was created
    for gemini alone, gemini was selected and its response then deleted; the
    undo sets the enabled models to all five providers, not to the provider
    the aggregate was created with. *)
Lemma clearSelection_defaults_to_all_five :
  exists d0 d,
    Scenario.r_submitted.2 !! 7%N = Some d0
    /\ enabledModels (settings d0) = Some ["gemini"]
    /\ Scenario.r_cleared.1 = reply_with OK "Selection cleared successfully" d
    /\ presentFields d = []
    /\ enabledModels (settings d) = Some ["gemini"; "openai"; "deepseek"; "microsoft"; "llama"].
Proof.
  do 2 eexists. split; [vm_compute; reflexivity|]. split; [reflexivity|].
  split; [vm_compute; reflexivity|]. split; reflexivity.
Qed.
(** ** Retrying the failed providers *)

Lemma failedModelsOf_fields (d : AIResponse) :
  failedModelsOf d = model_name <$> failedFields d.
Proof.
  unfold failedModelsOf, failedFields, models, modelFields. cbn.
  destruct d as [? ? ? g o dk ms l ? ? ? ? ? ? ? ? ? ? ? ?]; cbn.
  destruct (has_status error g), (has_status error o), (has_status error dk),
    (has_status error ms), (has_status error l); reflexivity.
Qed.

Lemma provider_enabled_name (svc : AIService) (m : Model) :
  provider_enabled svc (model_name m) = enabled (provider svc m).
Proof. unfold provider_enabled. rewrite known_model_name. reflexivity. Qed.

Lemma filter_enabled_names (svc : AIService) (l : list Model) :
  List.filter (provider_enabled svc) (model_name <$> l)
  = model_name <$> List.filter (fun m => enabled (provider svc m)) l.
Proof.
  induction l as [|m l IH]; [reflexivity|].
  rewrite fmap_cons. cbn [List.filter].
  rewrite provider_enabled_name, IH. destruct (enabled (provider svc m)); reflexivity.
Qed.

Lemma filter_filter_and {A : Type} (p q : A -> bool) (l : list A) :
  List.filter p (List.filter q l) = List.filter (fun x => q x && p x) l.
Proof.
  induction l as [|x l IH]; simpl; [reflexivity|].
  destruct (q x); simpl; [destruct (p x)|]; rewrite IH; reflexivity.
Qed.

Lemma js_set_keys {V : Type} (k : string) (v : V) (o : list (string * V)) (k' : string) :
  k' ∈ (fst <$> js_set k v o) <-> k' = k \/ k' ∈ (fst <$> o).
Proof.
  induction o as [|[k0 v0] o IH]; simpl.
  - rewrite list_elem_of_singleton. split; [auto | intros [H|H]; [exact H | inversion H]].
  - destruct (String.eqb_spec k k0) as [->|Hne]; simpl.
    + rewrite !elem_of_cons. tauto.
    + rewrite !elem_of_cons, IH. tauto.
Qed.

Lemma js_set_entries {V : Type} (P : string * V -> Prop) (k : string) (v : V)
    (o : list (string * V)) :
  Forall P o -> P (k, v) -> Forall P (js_set k v o).
Proof.
  intros Ho Hkv. induction Ho as [|[k0 v0] o H0 Ho IH]; simpl.
  - constructor; [exact Hkv | constructor].
  - destruct (String.eqb k k0); constructor; assumption.
Qed.

(** The [responses] object: one entry per available model, holding what the
    promise of that model gave. *)
Lemma responses_keys {V : Type} (f : string -> V) (l : list string)
    (acc : list (string * V)) (k : string) :
  k ∈ (fst <$> foldl (fun rs m => js_set m (f m) rs) acc l)
  <-> k ∈ (fst <$> acc) \/ k ∈ l.
Proof.
  revert acc. induction l as [|m l IH]; intros acc; simpl.
  - split; [auto | intros [H|H]; [exact H | inversion H]].
  - rewrite IH, js_set_keys, elem_of_cons. tauto.
Qed.

Lemma responses_entries {V : Type} (f : string -> V) (l : list string)
    (acc : list (string * V)) :
  Forall (fun kv => kv.2 = f kv.1) acc ->
  Forall (fun kv => kv.2 = f kv.1) (foldl (fun rs m => js_set m (f m) rs) acc l).
Proof.
  revert acc. induction l as [|m l IH]; intros acc H; simpl; [exact H|].
  apply IH. apply js_set_entries; [exact H | reflexivity].
Qed.

Lemma existsb_eqb_elem_of (k : string) (l : list string) :
  existsb (String.eqb k) l = true <-> k ∈ l.
Proof.
  rewrite existsb_exists. split.
  - intros (x & Hin & Heq). apply String.eqb_eq in Heq as ->.
    apply list_elem_of_In. exact Hin.
  - intros H. exists k. split; [apply list_elem_of_In; exact H | apply String.eqb_refl].
Qed.

Lemma overwriteFailed_field (now : Z) (failedModels : list string)
    (f : string -> RawResponse) (rs : list (string * RawResponse)) (d : AIResponse)
    (m : Model) :
  Forall (fun kv => kv.2 = f kv.1) rs ->
  (forall k, k ∈ (fst <$> rs) -> k ∈ failedModels) ->
  field (overwriteFailed now failedModels rs d) m
  = if bool_decide (model_name m ∈ (fst <$> rs))
    then Some (cast now (f (model_name m)))
    else field d m.
Proof.
  unfold overwriteFailed. revert d.
  induction rs as [|[k v] rs IH]; intros d Hent Hsub; simpl.
  - reflexivity.
  - inversion Hent as [|? ? Hkv Hent']; subst. simpl in Hkv. subst v.
    assert (Hk : existsb (String.eqb k) failedModels = true).
    { apply existsb_eqb_elem_of, Hsub. simpl. apply elem_of_cons. left. reflexivity. }
    rewrite Hk. rewrite IH; [|exact Hent'|].
    2:{ intros k' Hk'. apply Hsub. simpl. apply elem_of_cons. right. exact Hk'. }
    rewrite field_set_field_by_name.
    destruct (decide (model_name m ∈ (fst <$> rs))) as [Hin|Hnin].
    + rewrite !bool_decide_eq_true_2; [reflexivity | | exact Hin].
      apply elem_of_cons. right. exact Hin.
    + rewrite (bool_decide_eq_false_2 _ Hnin).
      destruct (decide (known_model k = Some m)) as [Hkm|Hkm].
      * apply known_model_inv in Hkm as ->.
        rewrite bool_decide_eq_true_2; [reflexivity|]. apply elem_of_cons. left. reflexivity.
      * rewrite bool_decide_eq_false_2; [reflexivity|].
        rewrite elem_of_cons. intros [<-|Hin]; [|contradiction].
        apply Hkm, known_model_name.
Qed.

Lemma elem_of_names (m : Model) (l : list Model) :
  model_name m ∈ (model_name <$> l) <-> m ∈ l.
Proof.
  rewrite list_elem_of_fmap. split.
  - intros (m' & Heq & Hin). apply model_name_inj in Heq as ->. exact Hin.
  - intros H. exists m. split; [reflexivity | exact H].
Qed.

Lemma elem_of_modelFields (m : Model) : m ∈ modelFields.
Proof. unfold modelFields. destruct m; repeat constructor. Qed.

Lemma elem_of_filter_modelFields (p : Model -> bool) (m : Model) :
  m ∈ List.filter p modelFields <-> p m = true.
Proof.
  rewrite list_elem_of_In, filter_In, <- list_elem_of_In.
  pose proof (elem_of_modelFields m). tauto.
Qed.

Lemma failedFields_nil (d : AIResponse) :
  failedFields d = [] <-> forall m, has_status error (field d m) = false.
Proof.
  split.
  - intros H m. destruct (has_status error (field d m)) eqn:E; [|reflexivity].
    apply (elem_of_filter_modelFields (fun m => has_status error (field d m))) in E.
    unfold failedFields in H. rewrite H in E. inversion E.
  - intros H. unfold failedFields, modelFields. cbn [List.filter]. rewrite !H. reflexivity.
Qed.

(** C6 (amended).  [retryFailedResponses] answers 400 "No failed responses to
    retry", and changes nothing, exactly when no provider's result has status
    error.  Otherwise it overwrites the results of the providers that are in
    error and enabled in the registry, each with what its new call gave, and
    leaves every other result (pending, success, or error of a provider that
    is not enabled) as it is; when none of the failed providers is enabled it
    answers 500 and changes nothing. *)
Theorem retryFailedResponses_effect (svc : AIService) (w : World) (now : Z)
    (uid id : ObjectId) (db : gmap ObjectId AIResponse) (d : AIResponse) :
  findOne db id uid = Some d ->
  let out := retryFailedResponses svc w now uid id db in
  let retryable m := has_status error (field d m) && enabled (provider svc m) in
  (failedFields d = [] <-> forall m, has_status error (field d m) = false)
  /\ match failedFields d, List.filter retryable modelFields with
     | [], _ => out = (reply BAD_REQUEST "No failed responses to retry", db)
     | _ :: _, [] => out = (reply INTERNAL_SERVER_ERROR "Failed to retry responses", db)
     | _ :: _, _ :: _ =>
         exists d',
           out = (reply_with OK "Failed responses retried successfully" d', <[id := d']> db)
           /\ forall m,
                field d' m
                = if retryable m
                  then Some (cast now (modelPromise svc w (prompt d)
                                         (with_enabledModels (failedModelsOf d) (settings d))
                                         (model_name m)))
                  else field d m
     end.
Proof.
  intros Hfind out retryable. split; [apply failedFields_nil|].
  subst out. unfold retryFailedResponses. rewrite Hfind.
  assert (Hav : List.filter (provider_enabled svc) (failedModelsOf d)
                = model_name <$> List.filter retryable modelFields).
  { rewrite failedModelsOf_fields, filter_enabled_names. unfold failedFields.
    rewrite filter_filter_and. reflexivity. }
  destruct (failedFields d) as [|m0 l0] eqn:EF.
  - rewrite failedModelsOf_fields, EF. reflexivity.
  - destruct (failedModelsOf d) as [|k0 ks] eqn:Hne.
    { rewrite failedModelsOf_fields, EF in Hne. discriminate Hne. }
    cbv iota. rewrite <- Hne. rewrite <- Hne in Hav.
    set (st := with_enabledModels (failedModelsOf d) (settings d)).
    unfold generateMultiModelResponse.
    change (default models (enabledModels st)) with (failedModelsOf d).
    rewrite Hav.
    destruct (List.filter retryable modelFields) as [|m1 l1] eqn:ER.
    + reflexivity.
    + rewrite fmap_cons. cbv iota. rewrite <- fmap_cons, <- ER.
      unfold save. cbn [fst snd].
      eexists. split; [reflexivity|].
      intros m. rewrite field_preSave, field_if_updatedAt, field_set_updatedBy.
      rewrite (overwriteFailed_field now (failedModelsOf d) (modelPromise svc w (prompt d) st)).
      * destruct (retryable m) eqn:Er.
        -- rewrite bool_decide_eq_true_2; [reflexivity|].
           apply responses_keys. right. apply elem_of_names, elem_of_filter_modelFields.
           exact Er.
        -- rewrite bool_decide_eq_false_2; [reflexivity|].
           rewrite responses_keys, elem_of_names, elem_of_filter_modelFields, Er.
           intros [H|H]; [inversion H | discriminate].
      * apply responses_entries. constructor.
      * intros k Hk. apply responses_keys in Hk as [Hk|Hk]; [inversion Hk|].
        rewrite ER, <- Hav in Hk. apply list_elem_of_In, filter_In in Hk as [Hk _].
        apply list_elem_of_In. exact Hk.
Qed.

(** The retry of the scenario: the process now has the OpenAI key only. *)
Lemma retryFailedResponses_effect_witness :
  exists d d',
    findOne Scenario.both_failed 7%N Scenario.owner = Some d
    /\ Scenario.retried
       = (reply_with OK "Failed responses retried successfully" d',
          <[7%N := d']> Scenario.both_failed)
    /\ field d' gemini = field d gemini
    /\ field d' deepseek = field d deepseek.
Proof.
  eexists.
  destruct (retryFailedResponses_effect Scenario.service_openai_only
              (Scenario.world_answering "AI is ..." 42) 70000 Scenario.owner 7%N
              Scenario.both_failed _ eq_refl) as [_ H].
  destruct H as (d' & H1 & H2).
  exists d'. split; [reflexivity|]. split; [exact H1|].
  split; [exact (H2 gemini) | exact (H2 deepseek)].
Defined.

(** C6 (as stated) fails: both results are in error, but after the restart
    gemini is not enabled; the retry answers 200, replaces openai's result and
    leaves gemini's error result exactly as it was. *)
Lemma retry_skips_provider_not_enabled :
  exists d d',
    Scenario.both_failed !! 7%N = Some d
    /\ failedFields d = [gemini; openai]
    /\ enabled (provider Scenario.service_openai_only gemini) = false
    /\ Scenario.retried.1 = reply_with OK "Failed responses retried successfully" d'
    /\ Scenario.retried.2 !! 7%N = Some d'
    /\ field d' gemini = field d gemini
    /\ has_status success (field d' openai) = true.
Proof.
  do 2 eexists. split; [vm_compute; reflexivity|]. split; [vm_compute; reflexivity|].
  split; [reflexivity|]. split; [vm_compute; reflexivity|].
  split; [vm_compute; reflexivity|]. split; vm_compute; reflexivity.
Qed.
(** ** Submitting a prompt *)

Lemma initPending_field (now : Z) (use : list string) (d : AIResponse) (m : Model) :
  field (initPending now use d) m
  = if bool_decide (model_name m ∈ use)
    then Some (cast now (pending_literal now (model_name m)))
    else field d m.
Proof.
  unfold initPending. revert d. induction use as [|k use IH]; intros d; simpl.
  - reflexivity.
  - rewrite IH, field_set_field_by_name.
    destruct (decide (model_name m ∈ use)) as [Hin|Hnin].
    + rewrite !bool_decide_eq_true_2; [reflexivity | | exact Hin].
      apply elem_of_cons. right. exact Hin.
    + rewrite (bool_decide_eq_false_2 _ Hnin).
      destruct (decide (known_model k = Some m)) as [Hkm|Hkm].
      * apply known_model_inv in Hkm as ->.
        rewrite bool_decide_eq_true_2; [reflexivity|]. apply elem_of_cons. left. reflexivity.
      * rewrite bool_decide_eq_false_2; [reflexivity|].
        rewrite elem_of_cons. intros [<-|Hin]; [|contradiction].
        apply Hkm, known_model_name.
Qed.

Lemma set_field_by_name_aggregate (k : string) (v : option ModelResponse) (d : AIResponse) :
  aggregate_fields (set_field_by_name k v d) = aggregate_fields d.
Proof.
  unfold set_field_by_name. destruct (known_model k) as [m|]; [destruct m, d|]; reflexivity.
Qed.

Lemma initPending_aggregate (now : Z) (use : list string) (d : AIResponse) :
  aggregate_fields (initPending now use d) = aggregate_fields d.
Proof.
  unfold initPending. revert d. induction use as [|k use IH]; intros d; simpl; [reflexivity|].
  rewrite IH. apply set_field_by_name_aggregate.
Qed.

Lemma tally_all_pending (d : AIResponse) :
  (forall m r, field d m = Some r -> status r = pending) ->
  forall l acc, foldl (tally d) acc l = acc.
Proof.
  intros H l. induction l as [|f l IH]; intros acc; simpl; [reflexivity|].
  rewrite IH. destruct acc as [[c fl] t]. unfold tally.
  destruct (field d f) as [r|] eqn:E; [rewrite (H _ _ E)|]; reflexivity.
Qed.

Lemma preSave_all_pending (now : Z) (d : AIResponse) :
  (forall m r, field d m = Some r -> status r = pending) ->
  0 < totalModels d ->
  preSave now d = set_counters 0 0 0 d.
Proof.
  intros H Hpos. unfold preSave. rewrite (tally_all_pending d H).
  destruct (Z.eqb_spec 0 (totalModels d)) as [E|_]; [lia|]. reflexivity.
Qed.

Lemma NoDup_modelFields : NoDup modelFields.
Proof.
  apply NoDup_ListNoDup. unfold modelFields.
  repeat constructor; simpl; intuition discriminate.
Qed.

(** Every name that [modelsToUse] keeps is the key of a provider. *)
Lemma modelsToUse_known (svc : AIService) (st : Settings) (k : string) :
  k ∈ modelsToUse svc st -> exists m, k = model_name m.
Proof.
  unfold modelsToUse. intros H. apply list_elem_of_In, filter_In in H as [_ H].
  apply existsb_eqb_elem_of in H. unfold getEnabledProviders in H.
  apply list_elem_of_fmap in H as (m & -> & _). exists m. reflexivity.
Qed.

(** X24.  A submission that passes validation and names at least one
    available provider: the document is saved, then the 201 reply is sent
    with that document, then the provider calls are dispatched.  Every named
    provider has a pending result, no other provider has one, the counters
    are 0 and the status is processing; the number of results is the number
    of names when no name is repeated. *)
Lemma generateAIResponse_creates_pending (svc : AIService) (w : World) (now : Z)
    (uid : ObjectId) (pl : GeneratePayload) (db : gmap ObjectId AIResponse) :
  generateAIResponseValidation pl = true ->
  modelsToUse svc (pl_settings pl) <> [] ->
  let use := modelsToUse svc (pl_settings pl) in
  exists created d,
    generateAIResponse svc w now uid pl db
    = (created ++
         [EvSaved (fresh_response_id w) d;
          EvReplied (reply_with CREATED "AI response generation initiated" d);
          EvDispatched (fresh_response_id w) (default EmptyString (pl_prompt pl)) use
            (pl_settings pl)],
       <[fresh_response_id w := d]> db)
    /\ Forall (fun e => exists n, e = EvProjectSaved n) created
    /\ (forall m, field d m
                  = if bool_decide (model_name m ∈ use)
                    then Some (cast now (pending_literal now (model_name m)))
                    else None)
    /\ totalModels d = Z.of_nat (length use)
    /\ statistics d = (0, 0, 0, processing, None, 0)
    /\ (NoDup use -> length (presentFields d) = length use).
Proof.
  intros Hvalid Hne use. subst use.
  destruct (modelsToUse svc (pl_settings pl)) as [|k ks] eqn:E; [contradiction|].
  set (use := k :: ks) in *.
  set (promptText := default EmptyString (pl_prompt pl)).
  set (pid := match pl_projectId pl with Some p => p | None => fresh_project_id w end).
  set (a0 := newAIResponse now uid pid promptText (pl_settings pl) use None).
  set (d0 := initPending now use a0).
  assert (Hpend : forall m r, field d0 m = Some r -> status r = pending).
  { intros m r. unfold d0. rewrite initPending_field.
    destruct (bool_decide (model_name m ∈ use)); [|destruct m; discriminate].
    intros [= <-]. reflexivity. }
  pose proof (initPending_aggregate now use a0) as Hagg. fold d0 in Hagg.
  assert (Htot : totalModels d0 = Z.of_nat (length use)).
  { transitivity (totalModels a0); [|reflexivity].
    unfold aggregate_fields in Hagg. congruence. }
  assert (Hsave : preSave now d0 = set_counters 0 0 0 d0).
  { apply preSave_all_pending; [exact Hpend|]. rewrite Htot. simpl. lia. }
  assert (Hsv : save now (fresh_response_id w) d0 db
                = (set_counters 0 0 0 d0, <[fresh_response_id w := set_counters 0 0 0 d0]> db)).
  { assert (Hua : updatedAt d0 = now).
    { transitivity (updatedAt a0); [|reflexivity].
      unfold aggregate_fields in Hagg. congruence. }
    unfold save.
    replace (if match db !! fresh_response_id w with
                | Some loaded => bool_decide (d0 <> loaded)
                | None => true
                end then set_updatedAt now d0 else d0) with d0.
    - rewrite Hsave. reflexivity.
    - destruct (match db !! fresh_response_id w with Some _ => _ | None => _ end);
        [|reflexivity].
      destruct d0; cbn in *. rewrite Hua. reflexivity. }
  exists (match pl_projectId pl with
          | Some _ => []
          | None => [EvProjectSaved (trim (projectName promptText))]
          end), (set_counters 0 0 0 d0).
  split; [|split; [|split; [|split; [|split]]]].
  - unfold generateAIResponse. rewrite Hvalid. cbn [negb]. cbv zeta. rewrite E.
    destruct (pl_projectId pl); cbv beta iota delta [use];
      match goal with
      | |- context [save now ?i ?x db] =>
          replace (save now i x db)
            with (set_counters 0 0 0 d0, <[fresh_response_id w := set_counters 0 0 0 d0]> db)
            by (symmetry; exact Hsv)
      end; reflexivity.
  - destruct (pl_projectId pl); repeat constructor. eexists; reflexivity.
  - intros m. rewrite field_set_counters. unfold d0.
    rewrite initPending_field.
    destruct (bool_decide (model_name m ∈ use)); [reflexivity | destruct m; reflexivity].
  - rewrite <- Htot. destruct d0; reflexivity.
  - assert (Hst : (overallStatus d0, endTime d0, totalDuration d0)
                  = (overallStatus a0, endTime a0, totalDuration a0)).
    { unfold aggregate_fields, statistics in Hagg. congruence. }
    transitivity (0, 0, 0, overallStatus d0, endTime d0, totalDuration d0);
      [destruct d0; reflexivity|].
    injection Hst as -> -> ->. reflexivity.
  - intros Hnd.
    assert (Hf : forall m, is_Some (field (set_counters 0 0 0 d0) m)
                           <-> model_name m ∈ use).
    { intros m. rewrite field_set_counters. unfold d0.
      rewrite initPending_field.
      destruct (decide (model_name m ∈ use)) as [Hin|Hnin].
      - rewrite bool_decide_eq_true_2 by exact Hin. split; [intros _; exact Hin | eauto].
      - rewrite bool_decide_eq_false_2 by exact Hnin.
        replace (field a0 m) with (@None ModelResponse) by (destruct m; reflexivity).
        split; [intros [x Hx]; discriminate Hx | contradiction]. }
    rewrite <- (length_fmap model_name (presentFields _)).
    apply Permutation_length, NoDup_Permutation; [| exact Hnd |].
    + apply NoDup_fmap_2; [apply _|]. unfold presentFields.
      apply NoDup_ListNoDup, List.NoDup_filter, NoDup_ListNoDup, NoDup_modelFields.
    + intros x. split.
      * intros Hx. apply list_elem_of_fmap in Hx as (m & -> & Hm).
        unfold presentFields in Hm. apply elem_of_filter_modelFields in Hm.
        apply bool_decide_eq_true in Hm. apply Hf. exact Hm.
      * intros Hx. assert (Hk : x ∈ modelsToUse svc (pl_settings pl)) by (rewrite E; exact Hx).
        apply modelsToUse_known in Hk as (m & ->).
        apply elem_of_names. unfold presentFields. apply elem_of_filter_modelFields.
        apply bool_decide_eq_true. apply Hf. exact Hx.
Qed.

(** C4.  The request body names gemini twice; it passes validation, the
    filter keeps both entries, and the aggregate that the handler saves and
    returns with 201 counts two models while it holds a single result: it can
    never reach [completedModels = totalModels]. *)
Theorem repeated_provider_miscounts_totalModels :
  generateAIResponseValidation (Scenario.payload ["gemini"; "gemini"]) = true
  /\ exists d,
       Scenario.duplicated.1
       = [EvSaved 7%N d;
          EvReplied (reply_with CREATED "AI response generation initiated" d);
          EvDispatched 7%N "What is AI?" ["gemini"; "gemini"]
            (Scenario.plain_settings (Some ["gemini"; "gemini"]))]
       /\ presentFields d = [gemini]
       /\ has_status pending (field d gemini) = true
       /\ totalModels d = 2
       /\ overallStatus d = processing.
Proof.
  split; [vm_compute; reflexivity|].
  eexists. split; [vm_compute; reflexivity|].
  vm_compute. repeat split; reflexivity.
Qed.

(** * Further properties of the code *)

(** ** The pre-save middleware, continued *)

Lemma observations_ext (d1 d2 : AIResponse) :
  (forall m, field d1 m = field d2 m) ->
  succeededFields d1 = succeededFields d2
  /\ failedFields d1 = failedFields d2
  /\ presentFields d1 = presentFields d2
  /\ (forall m, tokensOf d1 m = tokensOf d2 m).
Proof.
  intros H. unfold succeededFields, failedFields, presentFields, tokensOf.
  repeat split; try (apply List.filter_ext; intros m; rewrite H; reflexivity).
  intros m. rewrite H. reflexivity.
Qed.

Lemma finished_le_present (d : AIResponse) (l : list Model) :
  (length (List.filter (fun m => has_status success (field d m)) l)
   + length (List.filter (fun m => has_status error (field d m)) l)
   <= length (List.filter (fun m => bool_decide (is_Some (field d m))) l))%nat.
Proof.
  induction l as [|m l IH]; [reflexivity|].
  cbn [List.filter]. destruct (field d m) as [r|] eqn:E.
  - cbn [has_status].
    rewrite (bool_decide_eq_true_2 (is_Some (Some r))) by (eexists; reflexivity).
    destruct (status r).
    + rewrite (bool_decide_eq_false_2 (pending = success)) by discriminate.
      rewrite (bool_decide_eq_false_2 (pending = error)) by discriminate.
      cbn [length]. lia.
    + rewrite (bool_decide_eq_true_2 (success = success)) by reflexivity.
      rewrite (bool_decide_eq_false_2 (success = error)) by discriminate.
      cbn [length]. lia.
    + rewrite (bool_decide_eq_false_2 (error = success)) by discriminate.
      rewrite (bool_decide_eq_true_2 (error = error)) by reflexivity.
      cbn [length]. lia.
  - cbn [has_status].
    rewrite (bool_decide_eq_false_2 (is_Some None)) by (intros [x Hx]; discriminate Hx).
    exact IH.
Qed.

Lemma sumZ_bounded (l : list Z) (b : Z) :
  Forall (fun x => 0 <= x <= b) l -> 0 <= sumZ l <= Z.of_nat (length l) * b.
Proof.
  induction 1 as [|x l Hx Hl IH]; [unfold sumZ; simpl; lia|].
  rewrite sumZ_cons. cbn [length]. lia.
Qed.

(** X1.  Whatever document a handler saves, the document it holds after the
    save, which is the one it answers with, has counters that agree with its
    results: [completedModels] is the number of results with status success,
    [failedModels] the number with status error, [totalTokensUsed] the tokens
    of the successful ones added up in the order of the schema, which is
    their sum when each count is between 0 and 2^50; together the two
    counters never exceed the number of results present, which is at most
    five. *)
Theorem saved_counters_agree_with_results (now : Z) (id : ObjectId) (d : AIResponse)
    (db : gmap ObjectId AIResponse) :
  let d' := (save now id d db).1 in
  completedModels d' = Z.of_nat (length (succeededFields d'))
  /\ failedModels d' = Z.of_nat (length (failedFields d'))
  /\ totalTokensUsed d' = sumDoubles (tokensOf d' <$> succeededFields d')
  /\ (Forall (fun m => 0 <= tokensOf d' m <= 2 ^ 50) (succeededFields d') ->
      totalTokensUsed d' = sumZ (tokensOf d' <$> succeededFields d'))
  /\ completedModels d' + failedModels d' <= Z.of_nat (length (presentFields d')) <= 5.
Proof.
  intros d'.
  assert (Hf : forall m, field d' m = field d m) by (intros m; apply field_save).
  destruct (observations_ext d' d Hf) as (Hs & He & Hp & Ht).
  pose proof (save_counters now id d db) as Hc. cbv zeta in Hc. fold d' in Hc.
  rewrite foldl_tally_counts in Hc. cbn [fst snd] in Hc. rewrite !Z.add_0_l in Hc.
  pose proof (f_equal (fun t => t.1.1) Hc) as Hcm.
  pose proof (f_equal (fun t => t.1.2) Hc) as Hfm.
  pose proof (f_equal (fun t => t.2) Hc) as Htu.
  cbn [fst snd] in Hcm, Hfm, Htu. clear Hc.
  rewrite Hs, He, Hp. rewrite (list_fmap_ext (tokensOf d') (tokensOf d) _ (fun _ m _ => Ht m)).
  pose proof (List.filter_length_le (fun m => has_status success (field d m)) modelFields)
    as Hs5.
  change (length modelFields) with 5%nat in Hs5.
  split; [exact Hcm|]. split; [exact Hfm|]. split; [exact Htu|]. split.
  - intros Hb. rewrite Htu. unfold succeededFields in *.
    set (l := tokensOf d <$> List.filter (fun m => has_status success (field d m)) modelFields).
    assert (Hl : Forall (fun x => 0 <= x <= 2 ^ 50) l).
    { unfold l. apply Forall_fmap. eapply Forall_impl; [exact Hb|].
      intros m Hm. simpl. rewrite <- Ht. exact Hm. }
    pose proof (sumZ_bounded l (2 ^ 50) Hl) as Hsum.
    assert (Hlen : (length l <= 5)%nat) by (unfold l; rewrite length_fmap; exact Hs5).
    rewrite (foldl_js_add_exact l 0); [lia | lia | | ].
    + eapply Forall_impl; [exact Hl|]. intros x Hx. simpl in Hx. lia.
    + assert (Z.of_nat (length l) * 2 ^ 50 <= 5 * 2 ^ 50) by nia. lia.
  - pose proof (finished_le_present d modelFields) as Hle.
    pose proof (List.filter_length_le (fun m => bool_decide (is_Some (field d m))) modelFields)
      as H5.
    unfold succeededFields, failedFields, presentFields in *.
    change (length modelFields) with 5%nat in H5. lia.
Qed.

(** X2.  A save never takes an aggregate back to processing: when the stored
    status is completed, partial or failed, it is still one of the three
    after the middleware has run, whatever the results have become. *)
Theorem preSave_keeps_terminal_status (now : Z) (d : AIResponse) :
  overallStatus d <> processing ->
  overallStatus (preSave now d) <> processing.
Proof.
  intros H. unfold preSave.
  destruct (foldl (tally d) (0, 0, 0) modelFields) as [[c fl] t].
  destruct d; cbn in *. case_ifs; cbn; first [exact H | discriminate].
Qed.

(** X3.  Saving a document that has just been saved, at the same instant,
    changes nothing. *)
Theorem preSave_idempotent (now : Z) (d : AIResponse) :
  preSave now (preSave now d) = preSave now d.
Proof.
  unfold preSave at 1.
  rewrite (tally_ext (preSave now d) d (field_preSave now d)).
  rewrite preSave_totalModels.
  unfold preSave.
  destruct (foldl (tally d) (0, 0, 0) modelFields) as [[c fl] t].
  destruct d; cbn. case_ifs; reflexivity.
Qed.

(** ** The background task, continued *)

Lemma field_apply_patch (p : Patch) (d : AIResponse) (m : Model) :
  field (apply_patch p d) m
  = if decide (known_model (p_model p) = Some m)
    then Some (cast (p_updatedAt p) (p_value p))
    else field d m.
Proof.
  unfold apply_patch. rewrite field_set_updatedAt. apply field_set_field_by_name.
Qed.

Lemma generateIndependentResponses_alter svc id promptText st schedule db :
  generateIndependentResponses svc id promptText st schedule db
  = alter (fun d => foldl (fun d c => apply_patch
                             (completionPatch svc (c_world c) (c_now c) (c_model c)
                                promptText st) d)
                      d schedule) id db.
Proof.
  unfold generateIndependentResponses. revert db.
  induction schedule as [|c l IH]; intros db; simpl.
  - apply map_eq. intros j. rewrite lookup_alter. case_decide; [subst j|reflexivity].
    destruct (db !! id); reflexivity.
  - rewrite IH. unfold complete. rewrite findByIdAndUpdate_alter, alter_alter_eq.
    apply alter_ext. reflexivity.
Qed.

Lemma completions_effect svc promptText st (schedule : list Completion) (d : AIResponse) :
  let d' := foldl (fun d c => apply_patch
                     (completionPatch svc (c_world c) (c_now c) (c_model c) promptText st) d)
              d schedule in
  (forall m,
     field d' m
     = match last (List.filter (fun c => String.eqb (c_model c) (model_name m)) schedule) with
       | Some c => Some (landed svc promptText st c)
       | None => field d m
       end)
  /\ statistics d' = statistics d
  /\ totalModels d' = totalModels d.
Proof.
  induction schedule as [|c schedule IH] using rev_ind.
  - simpl. auto.
  - destruct IH as (Hf & Hs & Ht). rewrite foldl_app. cbn [foldl].
    set (d1 := foldl _ d schedule) in *.
    set (p := completionPatch svc (c_world c) (c_now c) (c_model c) promptText st).
    assert (Hpm : p_model p = c_model c).
    { unfold p, completionPatch.
      destruct (snd (generateSingleModelResponse svc (c_world c) (c_model c) promptText st));
        reflexivity. }
    assert (Hpt : p_updatedAt p = c_now c).
    { unfold p, completionPatch.
      destruct (snd (generateSingleModelResponse svc (c_world c) (c_model c) promptText st));
        reflexivity. }
    split; [|split].
    + intros m. rewrite field_apply_patch, List.filter_app. cbn [List.filter].
      rewrite Hpm, Hpt.
      destruct (String.eqb_spec (c_model c) (model_name m)) as [Heq|Hne].
      * rewrite last_snoc. rewrite decide_True by (rewrite Heq; apply known_model_name).
        reflexivity.
      * rewrite app_nil_r.
        rewrite decide_False by (intros Hk; apply known_model_inv in Hk; contradiction).
        apply Hf.
    + rewrite <- Hs. apply apply_patch_statistics.
    + rewrite <- Ht. apply apply_patch_statistics.
Qed.

Lemma alter_present {A : Type} (f : A -> A) (id : ObjectId) (db : gmap ObjectId A) (d : A) :
  db !! id = Some d -> alter f id db = <[id := f d]> db.
Proof.
  intros E. apply map_eq. intros j. rewrite lookup_alter. case_decide as Hj.
  - subst j. rewrite lookup_insert_eq, E. reflexivity.
  - rewrite lookup_insert_ne by exact Hj. reflexivity.
Qed.

(** X4.  What the background task leaves in the collection, whatever the
    number and the order of the completions: each response path of the
    aggregate holds the result of the last completion that named it, and the
    value it had when none did; the counters, the status and the end time
    are the ones of the document as it was; no other document is touched. *)
Theorem generateIndependentResponses_effect (svc : AIService) (id : ObjectId)
    (promptText : string) (st : Settings) (schedule : list Completion)
    (db : gmap ObjectId AIResponse) (d : AIResponse) :
  db !! id = Some d ->
  exists d',
    generateIndependentResponses svc id promptText st schedule db = <[id := d']> db
    /\ (forall m,
          field d' m
          = match last (List.filter (fun c => String.eqb (c_model c) (model_name m)) schedule)
            with
            | Some c => Some (landed svc promptText st c)
            | None => field d m
            end)
    /\ statistics d' = statistics d
    /\ totalModels d' = totalModels d.
Proof.
  intros E. rewrite generateIndependentResponses_alter, (alter_present _ _ _ _ E).
  eexists. split; [reflexivity|]. apply completions_effect.
Qed.

Lemma unstamped_set_updatedAt (t : Z) (d : AIResponse) :
  unstamped (set_updatedAt t d) = unstamped d.
Proof. destruct d; reflexivity. Qed.

Lemma unstamped_apply_patch (p : Patch) (d : AIResponse) :
  unstamped (apply_patch p d)
  = unstamped (set_field_by_name (p_model p) (Some (cast (p_updatedAt p) (p_value p))) d).
Proof. apply unstamped_set_updatedAt. Qed.

Lemma unstamped_apply_patch_ext (p : Patch) (d1 d2 : AIResponse) :
  unstamped d1 = unstamped d2 ->
  unstamped (apply_patch p d1) = unstamped (apply_patch p d2).
Proof.
  rewrite !unstamped_apply_patch. unfold set_field_by_name.
  destruct (known_model (p_model p)) as [m|]; [|exact (fun H => H)].
  destruct d1, d2, m; cbn; intros H; injection H; intros; subst; reflexivity.
Qed.

Lemma unstamped_apply_patch_swap (p q : Patch) (d : AIResponse) :
  p_model p <> p_model q ->
  unstamped (apply_patch p (apply_patch q d)) = unstamped (apply_patch q (apply_patch p d)).
Proof.
  intros Hne. rewrite !unstamped_apply_patch. unfold apply_patch, set_field_by_name.
  destruct (known_model (p_model p)) as [m|] eqn:Ep;
    destruct (known_model (p_model q)) as [m'|] eqn:Eq;
    try (destruct d; try destruct m; try destruct m'; reflexivity).
  apply known_model_inv in Ep, Eq.
  destruct d, m, m'; first [reflexivity | exfalso; apply Hne; congruence].
Qed.

Lemma completionPatch_model svc w now modelName promptText st :
  p_model (completionPatch svc w now modelName promptText st) = modelName.
Proof.
  unfold completionPatch.
  destruct (snd (generateSingleModelResponse svc w modelName promptText st)); reflexivity.
Qed.

Lemma unstamped_completions_ext svc promptText st (schedule : list Completion) d1 d2 :
  unstamped d1 = unstamped d2 ->
  unstamped (foldl (fun d c => apply_patch
                       (completionPatch svc (c_world c) (c_now c) (c_model c) promptText st) d)
               d1 schedule)
  = unstamped (foldl (fun d c => apply_patch
                       (completionPatch svc (c_world c) (c_now c) (c_model c) promptText st) d)
                 d2 schedule).
Proof.
  revert d1 d2. induction schedule as [|c l IH]; intros d1 d2 H; [exact H|].
  simpl. apply IH, unstamped_apply_patch_ext, H.
Qed.

Lemma unstamped_completions_perm svc promptText st (s1 s2 : list Completion) :
  s1 ≡ₚ s2 ->
  forall d,
    NoDup (c_model <$> s1) ->
    unstamped (foldl (fun d c => apply_patch
                         (completionPatch svc (c_world c) (c_now c) (c_model c) promptText st) d)
                 d s1)
    = unstamped (foldl (fun d c => apply_patch
                         (completionPatch svc (c_world c) (c_now c) (c_model c) promptText st) d)
                   d s2).
Proof.
  induction 1 as [|x l l' Hp IH|x y l|l l' l'' Hp1 IH1 Hp2 IH2]; intros d Hnd.
  - reflexivity.
  - simpl. apply IH. rewrite fmap_cons in Hnd. apply NoDup_cons in Hnd. tauto.
  - simpl. apply unstamped_completions_ext, unstamped_apply_patch_swap.
    rewrite !completionPatch_model. rewrite !fmap_cons in Hnd.
    apply NoDup_cons in Hnd as [Hnin _]. intros Heq. apply Hnin. rewrite Heq.
    apply list_elem_of_here.
  - rewrite IH1 by exact Hnd. apply IH2. rewrite <- Hp1. exact Hnd.
Qed.

(** X5.  The order in which the provider calls settle does not matter: when no
    provider is named twice, two schedules with the same completions leave
    the same collection, up to the [updatedAt] stamp of the aggregate (which
    is the time of the completion that landed last). *)
Theorem generateIndependentResponses_any_order (svc : AIService) (id : ObjectId)
    (promptText : string) (st : Settings) (s1 s2 : list Completion)
    (db : gmap ObjectId AIResponse) :
  NoDup (c_model <$> s1) ->
  s1 ≡ₚ s2 ->
  forall j,
    unstamped <$> (generateIndependentResponses svc id promptText st s1 db !! j)
    = unstamped <$> (generateIndependentResponses svc id promptText st s2 db !! j).
Proof.
  intros Hnd Hp j. rewrite !generateIndependentResponses_alter, !lookup_alter.
  case_decide; [|reflexivity]. subst j.
  destruct (db !! id) as [d|]; [|reflexivity]. simpl. f_equal.
  apply unstamped_completions_perm; assumption.
Qed.

(** ** Reading and deleting an aggregate *)

Lemma findOne_Some (db : gmap ObjectId AIResponse) (id uid : ObjectId) (d : AIResponse) :
  findOne db id uid = Some d <-> db !! id = Some d /\ userId d = uid.
Proof.
  unfold findOne. destruct (db !! id) as [d0|]; simpl.
  - destruct (N.eqb_spec (userId d0) uid) as [E|E]; split.
    + intros [= <-]. auto.
    + intros [[= <-] _]. reflexivity.
    + discriminate.
    + intros [[= <-] H]. contradiction.
  - split; [discriminate | intros [H _]; discriminate H].
Qed.

Lemma generateIndependentResponses_absent svc id promptText st schedule db :
  db !! id = None ->
  generateIndependentResponses svc id promptText st schedule db = db.
Proof.
  intros E. rewrite generateIndependentResponses_alter.
  apply map_eq. intros j. rewrite lookup_alter. case_decide; [subst j|reflexivity].
  rewrite E. reflexivity.
Qed.

(** X6.  [DELETE /:id] by the owner removes the aggregate and nothing else.
    Afterwards the same request and a read answer 404, and provider calls of
    the deleted aggregate that settle later change nothing: the update of the
    background task does not create the document again. *)
Theorem deleteAIResponse_effect (uid id : ObjectId) (db : gmap ObjectId AIResponse)
    (d : AIResponse) :
  findOne db id uid = Some d ->
  let db' := (deleteAIResponse uid id db).2 in
  (deleteAIResponse uid id db).1 = reply OK "AI response deleted successfully"
  /\ db' !! id = None
  /\ (forall j, j <> id -> db' !! j = db !! j)
  /\ deleteAIResponse uid id db' = (reply NOT_FOUND "AI response not found", db')
  /\ getAIResponse uid id db' = reply NOT_FOUND "AI response not found"
  /\ (forall svc promptText st schedule,
        generateIndependentResponses svc id promptText st schedule db' = db').
Proof.
  intros H db'. unfold db', deleteAIResponse. rewrite H. cbn [fst snd].
  assert (Hnone : findOne (delete id db) id uid = None).
  { unfold findOne. rewrite lookup_delete_eq. reflexivity. }
  split; [reflexivity|]. split; [apply lookup_delete_eq|].
  split; [intros j Hj; apply lookup_delete_ne; congruence|].
  rewrite Hnone. split; [reflexivity|].
  split; [unfold getAIResponse; rewrite Hnone; reflexivity|].
  intros svc promptText st schedule.
  apply generateIndependentResponses_absent, lookup_delete_eq.
Qed.

(** X7.  No handler of ai.controller.js touches or shows an aggregate to a
    user who does not own it: when [findOne({ _id, userId })] finds nothing,
    because there is no such document or because it belongs to someone else,
    reading, deleting, updating a result and retrying leave the collection as
    it is and answer without a document. *)
Theorem handlers_need_the_owner (svc : AIService) (w : World) (now : Z)
    (uid id : ObjectId) (u : UpdateData) (db : gmap ObjectId AIResponse) :
  findOne db id uid = None ->
  let refused (out : Reply * gmap ObjectId AIResponse) :=
    out.2 = db /\ data out.1 = None /\ statusCode out.1 <> OK in
  data (getAIResponse uid id db) = None
  /\ statusCode (getAIResponse uid id db) = NOT_FOUND
  /\ refused (deleteAIResponse uid id db)
  /\ refused (updateModelResponse now uid id u db)
  /\ refused (retryFailedResponses svc w now uid id db).
Proof.
  intros H refused. unfold refused.
  unfold getAIResponse, deleteAIResponse, updateModelResponse, retryFailedResponses.
  rewrite H.
  repeat split; try reflexivity; try discriminate;
    repeat match goal with
           | |- context [if ?b then _ else _] => destruct b
           end; first [reflexivity | discriminate].
Qed.

(** X25.  Nor do the selection handlers and the handlers of
    ai-model.controller.js: without an aggregate of that id owned by the
    user, selecting or unselecting a result (in either copy of the
    controller), editing one and removing one leave the collection as it is
    and answer without a document. *)
Theorem selection_and_edits_need_the_owner (validation : ObjectId -> string -> bool)
    (w : World) (now : Z) (uid id : ObjectId) (modelName : string) (text : option string)
    (db : gmap ObjectId AIResponse) :
  findOne db id uid = None ->
  let refused (out : Reply * gmap ObjectId AIResponse) :=
    out.2 = db /\ data out.1 = None /\ statusCode out.1 <> OK in
  refused (selectPreferredResponse validation w now uid id modelName db)
  /\ refused (Revised.selectPreferredResponse validation now uid id modelName db)
  /\ refused (SingleModel.updateSingleModelResponse now uid id modelName text db)
  /\ refused (SingleModel.deleteSingleModelResponse now uid id modelName db).
Proof.
  intros H refused. unfold refused.
  unfold selectPreferredResponse, Revised.selectPreferredResponse, Revised.clearSelection,
    SingleModel.updateSingleModelResponse, SingleModel.deleteSingleModelResponse.
  rewrite H.
  repeat split; try reflexivity; try discriminate;
    repeat match goal with
           | |- context [if ?b then _ else _] => destruct b
           | |- context [match ?t with Some _ => _ | None => _ end] => destruct t
           end; first [reflexivity | discriminate].
Qed.

(** ** Which providers a request reaches *)

Lemma includes_enabled (svc : AIService) (k : string) :
  existsb (String.eqb k) (getEnabledProviders svc) = provider_enabled svc k.
Proof.
  apply Bool.eq_iff_eq_true. rewrite existsb_eqb_elem_of.
  unfold getEnabledProviders, provider_enabled.
  destruct (known_model k) as [m|] eqn:E.
  - apply known_model_inv in E as ->. rewrite elem_of_names.
    rewrite list_elem_of_In, filter_In. split; [tauto|]. intros H. split; [|exact H].
    destruct m; simpl; tauto.
  - split; [|discriminate]. intros H. apply list_elem_of_fmap in H as (m & -> & _).
    rewrite known_model_name in E. discriminate E.
Qed.

Lemma modelsToUse_filter (svc : AIService) (st : Settings) :
  modelsToUse svc st = List.filter (provider_enabled svc) (default models (enabledModels st)).
Proof. unfold modelsToUse. apply List.filter_ext. intros k. apply includes_enabled. Qed.

Lemma js_set_NoDup {V : Type} (k : string) (v : V) (o : list (string * V)) :
  NoDup (fst <$> o) -> NoDup (fst <$> js_set k v o).
Proof.
  induction o as [|[k0 v0] o IH]; simpl; intros H.
  - apply NoDup_singleton.
  - apply NoDup_cons in H as [Hnin Hnd].
    destruct (String.eqb_spec k k0) as [->|Hne]; simpl.
    + apply NoDup_cons. auto.
    + apply NoDup_cons. split; [|auto].
      rewrite js_set_keys. intros [Heq|Hin]; [congruence | contradiction].
Qed.

Lemma responses_NoDup {V : Type} (f : string -> V) (l : list string)
    (acc : list (string * V)) :
  NoDup (fst <$> acc) ->
  NoDup (fst <$> foldl (fun rs m => js_set m (f m) rs) acc l).
Proof.
  revert acc. induction l as [|m l IH]; intros acc H; simpl; [exact H|].
  apply IH, js_set_NoDup, H.
Qed.

(** X8.  The submit handler and the multi-model call of the service select
    providers by the same test, [providers[model].enabled] on the names
    requested (all five when none is): the service throws for want of a
    provider exactly when the handler would refuse the request, and otherwise
    returns one entry for each name the handler would dispatch, no name
    twice, each holding what the call of that provider gave. *)
Theorem generateMultiModelResponse_covers_modelsToUse (svc : AIService) (w : World)
    (promptText : string) (st : Settings) :
  modelsToUse svc st = List.filter (provider_enabled svc) (default models (enabledModels st))
  /\ match generateMultiModelResponse svc w promptText st with
     | Throw e =>
         modelsToUse svc st = [] /\ e = Error "No AI models are configured and enabled"
     | Return responses =>
         modelsToUse svc st <> []
         /\ (forall k, k ∈ (fst <$> responses) <-> k ∈ modelsToUse svc st)
         /\ NoDup (fst <$> responses)
         /\ Forall (fun kv => kv.2 = modelPromise svc w promptText st kv.1) responses
     end.
Proof.
  split; [apply modelsToUse_filter|].
  rewrite modelsToUse_filter. unfold generateMultiModelResponse.
  destruct (List.filter (provider_enabled svc) (default models (enabledModels st)))
    as [|k l] eqn:E; [split; reflexivity|].
  split; [discriminate|]. split; [|split].
  - intros k'. rewrite responses_keys. simpl. split; [intros [H|H]; [inversion H | exact H] | auto].
  - apply responses_NoDup. constructor.
  - apply responses_entries. constructor.
Qed.

(** X9.  A provider that the submit handler dispatches never reaches the
    [catch] of the background task: for every name in [modelsToUse], the
    service's single-model call returns, whatever the gateway does, with a
    result that carries that name and is no longer pending; so the patch of
    the task stores the service's result under the path of that name. *)
Theorem dispatched_models_return (svc : AIService) (st : Settings) (modelName : string)
    (w : World) (now : Z) (promptText : string) (st' : Settings) :
  modelName ∈ modelsToUse svc st ->
  exists r,
    snd (generateSingleModelResponse svc w modelName promptText st') = Return r
    /\ r_model r = modelName
    /\ r_status r <> pending
    /\ completionPatch svc w now modelName promptText st'
       = {| p_model := modelName;
            p_value := {| r_model := modelName;
                          r_response := r_response r;
                          r_status := r_status r;
                          r_errorMessage := r_errorMessage r;
                          r_tokens := r_tokens r;
                          r_responseTime := r_responseTime r;
                          r_createdAt := Some (default now (r_createdAt r)) |};
            p_updatedAt := now |}.
Proof.
  intros Hin. rewrite modelsToUse_filter in Hin.
  apply list_elem_of_In, filter_In in Hin as [_ Hen].
  unfold provider_enabled in Hen.
  destruct (known_model modelName) as [m|] eqn:Ek; [|discriminate].
  assert (Hr : exists r,
             snd (generateSingleModelResponse svc w modelName promptText st') = Return r
             /\ r_model r = modelName /\ r_status r <> pending).
  { unfold generateSingleModelResponse. rewrite Ek, Hen. cbn [negb].
    rewrite callOpenRouter_snd. unfold callOpenRouter_try. rewrite Ek, Hen. cbn [negb].
    destruct (testMode svc && negb (truthy (apiKey (provider svc m)))).
    { eexists. split; [reflexivity|]. split; [reflexivity | discriminate]. }
    destruct (apiKey (provider svc m)) as [key|];
      [|eexists; split; [reflexivity|]; split; [reflexivity | discriminate]].
    destruct (negb (truthy (Some key)));
      [eexists; split; [reflexivity|]; split; [reflexivity | discriminate]|].
    destruct (conversationHistory w modelName st') as [hlog messages].
    destruct (axios_post w _) as [[body|]|e];
      eexists; (split; [reflexivity|]); split; first [reflexivity | discriminate]. }
  destruct Hr as (r & Hr & Hm & Hs).
  exists r. split; [exact Hr|]. split; [exact Hm|]. split; [exact Hs|].
  unfold completionPatch. rewrite Hr, Hm. reflexivity.
Qed.

(** ** The constructor of the service *)

(** X10.  With a gateway key in the environment every provider is enabled
    and uses that key, whatever key of its own it has; the five names are
    then all available. *)
Theorem newAIService_gateway_key (env : ProcessEnv) (m : Model) :
  truthy (OPENROUTER_API_KEY env) = true ->
  enabled (provider (newAIService env) m) = true
  /\ apiKey (provider (newAIService env) m) = OPENROUTER_API_KEY env
  /\ getEnabledProviders (newAIService env)
     = ["gemini"; "deepseek"; "microsoft"; "llama"; "openai"].
Proof.
  intros H. unfold getEnabledProviders, newAIService, newProvider, env_or.
  cbn [provider List.filter]. rewrite H. cbn [enabled apiKey]. rewrite H.
  destruct m; cbn [enabled apiKey orb]; repeat split; reflexivity.
Qed.

(** X11.  A provider that the constructor has enabled either has a key, and
    then its call goes to the gateway, or has none in test mode, and then the
    call answers with the mock result without contacting the gateway.  The
    two [API key not configured] errors of [callOpenRouter] cannot occur. *)
Theorem enabled_provider_calls_or_mocks (env : ProcessEnv) (w : World) (m : Model)
    (apiModelId promptText : string) (st : Settings) :
  enabled (provider (newAIService env) m) = true ->
  (exists key,
      apiKey (provider (newAIService env) m) = Some key
      /\ truthy (Some key) = true
      /\ LogCalling (model_name m) apiModelId
           ∈ fst (callOpenRouter_try (newAIService env) w (model_name m) apiModelId promptText st))
  \/ (truthy (apiKey (provider (newAIService env) m)) = false
      /\ testMode (newAIService env) = true
      /\ callOpenRouter (newAIService env) w (model_name m) apiModelId promptText st
         = ([], Return (generateMockResponse (mock w (model_name m)) (model_name m) promptText))).
Proof.
  intros Hen.
  assert (Hcase : truthy (apiKey (provider (newAIService env) m)) = true
                  \/ (truthy (apiKey (provider (newAIService env) m)) = false
                      /\ testMode (newAIService env) = true)).
  { revert Hen. unfold newAIService. cbn [provider testMode].
    destruct m; unfold newProvider; cbn [enabled apiKey];
      match goal with |- context [truthy ?k] => destruct (truthy k) end;
      cbn [orb]; auto. }
  destruct Hcase as [Hk | [Hk Ht]].
  - left. destruct (apiKey (provider (newAIService env) m)) as [key|] eqn:Ekey;
      [|discriminate Hk].
    exists key. split; [reflexivity|]. split; [exact Hk|].
    unfold callOpenRouter_try. rewrite known_model_name, Hen, Ekey, Hk. cbn [negb].
    rewrite andb_false_r.
    destruct (conversationHistory w (model_name m) st) as [hlog messages].
    destruct (axios_post w _) as [[body|]|e]; cbn [fst];
      rewrite ?elem_of_app, list_elem_of_singleton; auto.
  - right. split; [exact Hk|]. split; [exact Ht|].
    unfold callOpenRouter, callOpenRouter_try. rewrite known_model_name, Hen, Hk, Ht.
    reflexivity.
Qed.

(** X12.  The one request that the call of a provider with a key may send
    to the gateway: the model id it was given, the provider's key as bearer,
    the temperature and the token limit of the settings, a zero like a
    missing value replaced by 0.7 and 2000 (so that neither is ever 0), and
    the messages: the current prompt, preceded, when the settings name a
    previous response that can be read, by the prompt of that response and,
    if that response holds a non-empty text of this provider, by that text.
    The call depends on the gateway through its answer to this request
    only. *)
Theorem callOpenRouter_request (svc : AIService) (w : World) (m : Model)
    (apiModelId promptText key : string) (st : Settings) :
  apiKey (provider svc m) = Some key ->
  let history :=
    match previousResponseId st with
    | Some pid =>
        match findById w pid with
        | Return (Some previous) =>
            {| role := "user"; content := prompt previous |}
            :: match field_by_name previous (model_name m) ≫= response with
               | Some (String c s) => [{| role := "assistant"; content := String c s |}]
               | _ => []
               end
        | _ => []
        end
    | None => []
    end in
  let request :=
    {| req_model := apiModelId;
       req_messages := history ++ [{| role := "user"; content := promptText |}];
       req_temperature :=
         match temperature st with
         | Some q => if Qeq_bool q 0 then 7 # 10 else q
         | None => 7 # 10
         end;
       req_max_tokens :=
         match maxTokens st with
         | Some n => if Z.eqb n 0 then 2000 else n
         | None => 2000
         end;
       req_bearer := key |} in
  (forall post : Request -> AxiosResult,
     post request = axios_post w request ->
     callOpenRouter svc (with_axios post w) (model_name m) apiModelId promptText st
     = callOpenRouter svc w (model_name m) apiModelId promptText st)
  /\ ~ (req_temperature request == 0)%Q
  /\ req_max_tokens request <> 0.
Proof.
  intros Hkey history request. split; [|split].
  - intros post Hpost.
    assert (Hh : conversationHistory w (model_name m) st
                 = ((conversationHistory w (model_name m) st).1, history)).
    { unfold conversationHistory, history.
      destruct (previousResponseId st) as [pid|]; [|reflexivity].
      destruct (findById w pid) as [[previous|]|e]; try reflexivity.
      cbn [fst snd]. f_equal. f_equal. unfold mbind, option_bind.
      destruct (field_by_name previous (model_name m)) as [r|]; [|reflexivity].
      destruct (response r) as [[|c s]|]; reflexivity. }
    unfold callOpenRouter, callOpenRouter_try. rewrite known_model_name, Hkey.
    cbn [testMode provider started finished mock].
    destruct (negb (enabled (provider svc m))); [reflexivity|].
    destruct (testMode svc && negb (truthy (Some key))); [reflexivity|].
    destruct (negb (truthy (Some key))); [reflexivity|].
    change (conversationHistory (with_axios post w) (model_name m) st)
      with (conversationHistory w (model_name m) st).
    rewrite Hh. cbn [with_axios axios_post].
    change (requestData apiModelId history promptText st key) with request.
    rewrite Hpost. reflexivity.
  - unfold request. cbn [req_temperature].
    destruct (temperature st) as [q|]; [|intros H; inversion H].
    destruct (Qeq_bool q 0) eqn:E; [intros H; inversion H|].
    apply Qeq_bool_neq. exact E.
  - unfold request. cbn [req_max_tokens].
    destruct (maxTokens st) as [n|]; [|discriminate].
    destruct (Z.eqb_spec n 0); [discriminate | assumption].
Qed.

(** ** The methods of the model and the status report of the service *)

Lemma responsesWithStatus_omap (s : Status) (d : AIResponse) :
  responsesWithStatus s d
  = omap (fun m => match field d m with
                   | Some r => if bool_decide (status r = s) then Some (model_name m, r) else None
                   | None => None
                   end) modelFields.
Proof.
  unfold responsesWithStatus, modelFields.
  destruct d as [? ? ? g o dk ms l ? ? ? ? ? ? ? ? ? ? ? ?]. cbn [foldl field omap list_omap gemini_response openai_response deepseek_response
         microsoft_response llama_response].
  destruct g as [g|], o as [o|], dk as [dk|], ms as [ms|], l as [l|];
    repeat match goal with
           | |- context [bool_decide (status ?r = s)] => destruct (bool_decide (status r = s))
           end; reflexivity.
Qed.

Lemma omap_with_status_keys (s : Status) (d : AIResponse) (l : list Model) :
  fst <$> omap (fun m => match field d m with
                         | Some r => if bool_decide (status r = s)
                                     then Some (model_name m, r) else None
                         | None => None
                         end) l
  = model_name <$> List.filter (fun m => has_status s (field d m)) l.
Proof.
  induction l as [|m l IH]; [reflexivity|].
  cbn [omap list_omap List.filter]. fold (@omap list _).
  destruct (field d m) as [r|]; cbn [has_status]; [|exact IH].
  destruct (bool_decide (status r = s)); [|exact IH].
  rewrite !fmap_cons. cbn [fst]. f_equal. exact IH.
Qed.

(** X13.  [getSuccessfulResponses] and [getFailedResponses] list, in the
    order of the schema, the results whose status is success and error: the
    keys of the second are the names that the retry handler collects, no
    name is in both, and each entry is the stored result of its name. *)
Theorem status_methods_list_the_results (d : AIResponse) :
  fst <$> getSuccessfulResponses d = model_name <$> succeededFields d
  /\ fst <$> getFailedResponses d = failedModelsOf d
  /\ (forall k r, (k, r) ∈ getSuccessfulResponses d ->
        field_by_name d k = Some r /\ status r = success)
  /\ (forall k r, (k, r) ∈ getFailedResponses d ->
        field_by_name d k = Some r /\ status r = error)
  /\ (forall k, k ∈ (fst <$> getSuccessfulResponses d) ->
        k ∈ (fst <$> getFailedResponses d) -> False).
Proof.
  unfold getSuccessfulResponses, getFailedResponses.
  rewrite !responsesWithStatus_omap, failedModelsOf_fields.
  assert (Hin : forall s k r,
             (k, r) ∈ omap (fun m => match field d m with
                                     | Some r => if bool_decide (status r = s)
                                                 then Some (model_name m, r) else None
                                     | None => None
                                     end) modelFields ->
             field_by_name d k = Some r /\ status r = s).
  { intros s k r H. apply list_elem_of_omap in H as (m & _ & Hm).
    destruct (field d m) as [r0|] eqn:E; [|discriminate Hm].
    destruct (bool_decide (status r0 = s)) eqn:Es; [|discriminate Hm].
    injection Hm as <- <-. rewrite field_by_name_model_name.
    split; [exact E | apply bool_decide_eq_true in Es; exact Es]. }
  split; [apply omap_with_status_keys|]. split; [apply omap_with_status_keys|].
  split; [apply Hin|]. split; [apply Hin|].
  intros k H1 H2.
  apply list_elem_of_fmap in H1 as ([k1 r1] & -> & H1).
  apply list_elem_of_fmap in H2 as ([k2 r2] & Hk & H2). simpl in Hk. subst k2.
  apply Hin in H1 as [E1 S1]. apply Hin in H2 as [E2 S2]. congruence.
Qed.

(** X14.  [getProviderStatus] reports the five providers in the key order of
    the registry; the names it reports as enabled are the available names
    that the handlers filter by; and for the registry that the constructor
    builds, a provider is enabled exactly when it is configured or the
    service runs in test mode. *)
Theorem getProviderStatus_agrees_with_getEnabledProviders (svc : AIService)
    (env : ProcessEnv) :
  ps_name <$> getProviderStatus svc = ["gemini"; "deepseek"; "microsoft"; "llama"; "openai"]
  /\ ps_name <$> List.filter ps_enabled (getProviderStatus svc) = getEnabledProviders svc
  /\ Forall (fun ps => ps_enabled ps = ps_configured ps || testMode (newAIService env))
       (getProviderStatus (newAIService env)).
Proof.
  split; [reflexivity|]. split.
  - unfold getProviderStatus, getEnabledProviders. cbn.
    destruct (enabled (provider svc gemini)), (enabled (provider svc deepseek)),
      (enabled (provider svc microsoft)), (enabled (provider svc llama)),
      (enabled (provider svc openai)); reflexivity.
  - unfold getProviderStatus. repeat constructor.
Qed.

(** ** Editing and removing one result *)

Lemma validModel_name (m : Model) : SingleModel.validModel (model_name m) = true.
Proof. destruct m; reflexivity. Qed.

Lemma validModel_known (k : string) :
  SingleModel.validModel k = true -> exists m, k = model_name m.
Proof.
  unfold SingleModel.validModel. rewrite existsb_eqb_elem_of. unfold models.
  intros H. apply list_elem_of_fmap in H as (m & -> & _). exists m. reflexivity.
Qed.

Lemma saved_fields (now : Z) (id uid : ObjectId) (d : AIResponse)
    (db : gmap ObjectId AIResponse) :
  let d' := (save now id (set_updatedBy uid d) db).1 in
  userId d' = userId d
  /\ updatedBy d' = Some uid
  /\ totalModels d' = totalModels d
  /\ settings d' = settings d
  /\ selectedModel d' = selectedModel d.
Proof.
  intros d'. destruct (save_keeps now id (set_updatedBy uid d) db)
    as (Hs & Hm & Hu & _ & Hi & Ht).
  fold d' in Hs, Hm, Hu, Hi, Ht. rewrite Hs, Hm, Hu, Hi, Ht.
  destruct d; repeat split; reflexivity.
Qed.

Lemma updatedAt_preSave (now : Z) (d : AIResponse) : updatedAt (preSave now d) = updatedAt d.
Proof.
  unfold preSave. destruct (foldl (tally d) (0, 0, 0) modelFields) as [[c fl] t].
  destruct d; cbn. case_ifs; reflexivity.
Qed.

(** The [timestamps] hook: a save moves [updatedAt] exactly when the handler
    has changed the document it read. *)
Lemma save_updatedAt (now : Z) (id : ObjectId) (d loaded : AIResponse)
    (db : gmap ObjectId AIResponse) :
  db !! id = Some loaded ->
  updatedAt (save now id d db).1 = if decide (d = loaded) then updatedAt d else now.
Proof.
  intros E. unfold save. cbn [fst]. rewrite updatedAt_preSave, E.
  destruct (decide (d = loaded)) as [Heq|Hne].
  - rewrite bool_decide_eq_false_2 by (intros H; apply H; exact Heq). reflexivity.
  - rewrite bool_decide_eq_true_2 by exact Hne. destruct d; reflexivity.
Qed.

Lemma findOne_insert (db : gmap ObjectId AIResponse) (id uid : ObjectId) (d : AIResponse) :
  userId d = uid -> findOne (<[id := d]> db) id uid = Some d.
Proof.
  intros H. unfold findOne. rewrite lookup_insert_eq. simpl. rewrite H, N.eqb_refl. reflexivity.
Qed.

(** X15.  [PUT /:responseId/:model] of ai-model.controller.js, by the owner, on
    a result that exists and with a non-empty text: the stored result has the
    text, trimmed, and [isEdited]; its model, status, error message, tokens,
    response time and creation time are kept, the other results are
    untouched, and so is [totalModels]; [updatedBy] is the user.  [updatedAt]
    becomes the time of the save, unless the request changes nothing (the
    text is the stored one, the result is already marked as edited and the
    user is the one recorded): then it stays. *)
Theorem updateSingleModelResponse_effect (now : Z) (uid id : ObjectId) (m : Model)
    (text : string) (db : gmap ObjectId AIResponse) (d : AIResponse) (r : ModelResponse) :
  findOne db id uid = Some d ->
  field d m = Some r ->
  text <> EmptyString ->
  exists d',
    SingleModel.updateSingleModelResponse now uid id (model_name m) (Some text) db
    = (reply_with OK "Model response updated successfully" d', <[id := d']> db)
    /\ field d' m
       = Some {| model := model r; response := Some (trim text); status := status r;
                 errorMessage := errorMessage r; tokens := tokens r;
                 responseTime := responseTime r; isEdited := true;
                 createdAt := createdAt r |}
    /\ (forall m', m' <> m -> field d' m' = field d m')
    /\ totalModels d' = totalModels d
    /\ updatedBy d' = Some uid
    /\ updatedAt d'
       = if decide (response r = Some (trim text) /\ isEdited r = true
                    /\ updatedBy d = Some uid)
         then updatedAt d else now.
Proof.
  intros Hd Hr Ht.
  unfold SingleModel.updateSingleModelResponse.
  rewrite validModel_name, Hd, field_by_name_model_name, Hr. cbn [negb].
  replace (truthy (Some text)) with true by (destruct text; [contradiction | reflexivity]).
  cbn [negb].
  set (d1 := set_field_by_name (model_name m) (Some (SingleModel.set_edited text r)) d).
  destruct (saved_fields now id uid d1 db) as (_ & Hub & Htm & _).
  pose proof (fun m' => field_save now id (set_updatedBy uid d1) db m') as Hf.
  assert (Hload : db !! id = Some d) by (apply findOne_Some in Hd; tauto).
  pose proof (save_updatedAt now id (set_updatedBy uid d1) d db Hload) as Hua.
  destruct (save now id (set_updatedBy uid d1) db) as [saved db'] eqn:Es.
  assert (Hdb : db' = <[id := saved]> db).
  { pose proof (save_db now id (set_updatedBy uid d1) db) as H. rewrite Es in H. exact H. }
  cbn [fst] in *. exists saved. subst db'.
  split; [reflexivity|]. split; [|split; [|split; [|split]]].
  - rewrite Hf, field_set_updatedBy. unfold d1.
    rewrite field_set_field_by_name, known_model_name, decide_True by reflexivity.
    reflexivity.
  - intros m' Hne. rewrite Hf, field_set_updatedBy. unfold d1.
    rewrite field_set_field_by_name, known_model_name, decide_False by congruence.
    reflexivity.
  - rewrite Htm. unfold d1, set_field_by_name. rewrite known_model_name.
    destruct d, m; reflexivity.
  - exact Hub.
  - rewrite Hua.
    assert (Hsame : set_updatedBy uid d1 = d
                    <-> response r = Some (trim text) /\ isEdited r = true
                        /\ updatedBy d = Some uid).
    { split.
      - intros Heq.
        assert (H1 : field (set_updatedBy uid d1) m = field d m) by (rewrite Heq; reflexivity).
        assert (H2 : updatedBy (set_updatedBy uid d1) = updatedBy d)
          by (rewrite Heq; reflexivity).
        rewrite field_set_updatedBy in H1. unfold d1 in H1.
        rewrite field_set_field_by_name, known_model_name, decide_True in H1 by reflexivity.
        rewrite Hr in H1. injection H1 as H1.
        split; [rewrite <- H1; reflexivity|]. split; [rewrite <- H1; reflexivity|].
        rewrite <- H2. unfold d1, set_field_by_name. rewrite known_model_name.
        destruct d, m; reflexivity.
      - intros (H1 & H2 & H3). unfold d1, set_field_by_name. rewrite known_model_name.
        assert (He : SingleModel.set_edited text r = r).
        { unfold SingleModel.set_edited. destruct r; cbn in *. rewrite H1, H2. reflexivity. }
        rewrite He. destruct d, m; cbn in *; rewrite <- Hr, H3; reflexivity. }
    destruct (decide (set_updatedBy uid d1 = d)) as [Heq|Hne].
    + rewrite decide_True by (apply Hsame; exact Heq).
      rewrite Heq. reflexivity.
    + rewrite decide_False by (intros H; apply Hne, Hsame; exact H). reflexivity.
Qed.

(** X16.  The requests that [PUT /:responseId/:model] refuses, each with
    nothing written and no document in the answer: a name that is not one of
    the five, 400 [Invalid model specified]; a missing or empty text, 400
    [Response content is required]; an aggregate of the user that has no
    result for the model, 404 [Model response not found]. *)
Theorem updateSingleModelResponse_refused (now : Z) (uid id : ObjectId)
    (modelName : string) (text : option string) (db : gmap ObjectId AIResponse) :
  let out := SingleModel.updateSingleModelResponse now uid id modelName text db in
  (SingleModel.validModel modelName = false ->
   out = (reply BAD_REQUEST "Invalid model specified", db))
  /\ (SingleModel.validModel modelName = true -> truthy text = false ->
      out = (reply BAD_REQUEST "Response content is required", db))
  /\ (SingleModel.validModel modelName = true -> truthy text = true ->
      forall d, findOne db id uid = Some d -> field_by_name d modelName = None ->
                out = (reply NOT_FOUND "Model response not found", db)).
Proof.
  intros out. unfold out, SingleModel.updateSingleModelResponse.
  split; [|split].
  - intros ->. reflexivity.
  - intros -> Ht. cbn [negb]. destruct text as [t|]; [|reflexivity].
    rewrite Ht. reflexivity.
  - intros -> Ht d Hd Hn. cbn [negb]. destruct text as [t|]; [|discriminate Ht].
    rewrite Ht, Hd, Hn. reflexivity.
Qed.

(** X17.  [DELETE /:responseId/:model] by the owner unsets that one response
    path and saves: the others are untouched, and [totalModels] and the
    settings keep counting the removed provider.  An edit of the removed
    result is then answered 404. *)
Theorem deleteSingleModelResponse_effect (now now' : Z) (uid id : ObjectId) (m : Model)
    (text : string) (db : gmap ObjectId AIResponse) (d : AIResponse) :
  findOne db id uid = Some d ->
  text <> EmptyString ->
  exists d',
    SingleModel.deleteSingleModelResponse now uid id (model_name m) db
    = (reply_with OK "Model response deleted successfully" d', <[id := d']> db)
    /\ field d' m = None
    /\ (forall m', m' <> m -> field d' m' = field d m')
    /\ totalModels d' = totalModels d
    /\ settings d' = settings d
    /\ updatedBy d' = Some uid
    /\ SingleModel.updateSingleModelResponse now' uid id (model_name m) (Some text)
         (<[id := d']> db)
       = (reply NOT_FOUND "Model response not found", <[id := d']> db).
Proof.
  intros Hd Ht.
  unfold SingleModel.deleteSingleModelResponse.
  rewrite validModel_name, Hd. cbn [negb].
  set (d1 := set_field_by_name (model_name m) None d).
  destruct (saved_fields now id uid d1 db) as (Hid & Hub & Htm & Hst & _).
  pose proof (fun m' => field_save now id (set_updatedBy uid d1) db m') as Hf.
  destruct (save now id (set_updatedBy uid d1) db) as [saved db'] eqn:Es.
  assert (Hdb : db' = <[id := saved]> db).
  { pose proof (save_db now id (set_updatedBy uid d1) db) as H. rewrite Es in H. exact H. }
  cbn [fst] in *. exists saved. subst db'.
  assert (Hm : field saved m = None).
  { rewrite Hf, field_set_updatedBy. unfold d1.
    rewrite field_set_field_by_name, known_model_name, decide_True by reflexivity.
    reflexivity. }
  assert (Hu : userId d = uid) by (apply findOne_Some in Hd; tauto).
  split; [reflexivity|]. split; [exact Hm|]. split; [|split; [|split; [|split]]].
  - intros m' Hne. rewrite Hf, field_set_updatedBy. unfold d1.
    rewrite field_set_field_by_name, known_model_name, decide_False by congruence.
    reflexivity.
  - rewrite Htm. unfold d1, set_field_by_name. rewrite known_model_name.
    destruct d, m; reflexivity.
  - rewrite Hst. unfold d1, set_field_by_name. rewrite known_model_name.
    destruct d, m; reflexivity.
  - exact Hub.
  - unfold SingleModel.updateSingleModelResponse.
    rewrite validModel_name. cbn [negb].
    replace (truthy (Some text)) with true by (destruct text; [contradiction | reflexivity]).
    cbn [negb]. rewrite findOne_insert.
    + rewrite field_by_name_model_name, Hm. reflexivity.
    + rewrite Hid. unfold d1, set_field_by_name. rewrite known_model_name.
      rewrite <- Hu. destruct d, m; reflexivity.
Qed.

(** X18.  [PUT /:id/model] of ai.controller.js by the owner, with a body
    that passes validation and gives [tokens] and [responseTime].  When the
    named result exists, the five properties of the body replace those of the
    result (the texts trimmed, and unset when the body leaves them out) while
    its model, [isEdited] and creation time are kept, and the other results
    are untouched.  When it does not exist, the save is rejected for want of
    [model] and the request is answered 400 with nothing written. *)
Theorem updateModelResponse_effect (now : Z) (uid id : ObjectId) (u : UpdateData)
    (t : Tokens) (rt : Z) (db : gmap ObjectId AIResponse) (d : AIResponse) :
  updateModelResponseValidation u = true ->
  u_tokens u = Some t ->
  u_responseTime u = Some rt ->
  findOne db id uid = Some d ->
  exists m,
    known_model (u_model u) = Some m
    /\ match field d m with
       | Some r =>
           exists d',
             updateModelResponse now uid id u db
             = (reply_with OK "Model response updated successfully" d', <[id := d']> db)
             /\ field d' m
                = Some {| model := model r;
                          response := trim <$> u_response u;
                          status := u_status u;
                          errorMessage := trim <$> u_errorMessage u;
                          tokens := t;
                          responseTime := rt;
                          isEdited := isEdited r;
                          createdAt := createdAt r |}
             /\ (forall m', m' <> m -> field d' m' = field d m')
             /\ updatedBy d' = Some uid
       | None =>
           updateModelResponse now uid id u db = (reply BAD_REQUEST "Validation error", db)
       end.
Proof.
  intros Hv Htk Hrt Hd.
  assert (Hk : is_Some (known_model (u_model u))).
  { unfold updateModelResponseValidation in Hv.
    apply andb_prop in Hv as [Hv _]. apply andb_prop in Hv as [Hv _].
    apply bool_decide_eq_true in Hv. exact Hv. }
  destruct Hk as [m Hk]. exists m. split; [exact Hk|].
  pose proof (known_model_inv _ _ Hk) as Hname.
  unfold updateModelResponse, updateModelResponse_method. rewrite Hv, Hd. cbn [negb].
  rewrite Hname, field_by_name_model_name, field_set_updatedBy.
  destruct (field d m) as [r|] eqn:Er; [|reflexivity].
  set (d1 := set_field_by_name (model_name m) (Some (assign u r)) (set_updatedBy uid d)).
  pose proof (fun m' => field_save now id d1 db m') as Hf.
  assert (Hub : updatedBy (save now id d1 db).1 = Some uid).
  { destruct (save_keeps now id d1 db) as (_ & _ & Hu & _). rewrite Hu.
    unfold d1, set_field_by_name. rewrite known_model_name.
    destruct d, m; reflexivity. }
  destruct (save now id d1 db) as [saved db'] eqn:Es.
  assert (Hdb : db' = <[id := saved]> db).
  { pose proof (save_db now id d1 db) as H. rewrite Es in H. exact H. }
  cbn [fst] in *. exists saved. subst db'.
  split; [reflexivity|]. split; [|split].
  - rewrite Hf. unfold d1.
    rewrite field_set_field_by_name, known_model_name, decide_True by reflexivity.
    unfold assign. rewrite Htk, Hrt. reflexivity.
  - intros m' Hne. rewrite Hf. unfold d1.
    rewrite field_set_field_by_name, known_model_name, decide_False by congruence.
    apply field_set_updatedBy.
  - exact Hub.
Qed.

(** ** Submitting a prompt, continued *)

(** X19.  A submission that fails validation, or that names no available
    provider, is answered 400: no aggregate is saved and nothing is
    dispatched.  In the first case the message is the first one of yup's
    error, and nothing at all has been written.  In the second case the
    handler has already saved the default project, under its trimmed name,
    when the request named none.  Both copies of the controller behave
    alike. *)
Theorem generateAIResponse_refused (svc : AIService) (w : World) (now : Z) (uid : ObjectId)
    (pl : GeneratePayload) (db : gmap ObjectId AIResponse) :
  generateAIResponseValidation pl = false \/ modelsToUse svc (pl_settings pl) = [] ->
  exists created msg,
    generateAIResponse svc w now uid pl db
    = (created ++ [EvReplied (reply BAD_REQUEST msg)], db)
    /\ Revised.generateAIResponse svc w now uid pl db
       = generateAIResponse svc w now uid pl db
    /\ created
       = (if generateAIResponseValidation pl
          then match pl_projectId pl with
               | Some _ => []
               | None =>
                   [EvProjectSaved (trim (projectName (default EmptyString (pl_prompt pl))))]
               end
          else [])
    /\ msg
       = (if generateAIResponseValidation pl
          then "No AI models are configured and available"
          else or_else (head (validation_errors w)) "Validation error").
Proof.
  intros H. unfold Revised.generateAIResponse, generateAIResponse.
  destruct (generateAIResponseValidation pl); cbn [negb].
  - destruct H as [H|H]; [discriminate H|]. rewrite H.
    destruct (pl_projectId pl); do 2 eexists; repeat split; reflexivity.
  - exists [], (or_else (head (validation_errors w)) "Validation error").
    repeat split; reflexivity.
Qed.

(** X20.  The revised copy of [generateAIResponse] does what the first copy
    does, for every request, but for the settings it hands to the background
    task, where the request's own [previousResponseId] takes the place of the
    one in [settings]: the same project and aggregate saved, the same reply,
    the same providers dispatched. *)
Theorem Revised_generateAIResponse_redispatches (svc : AIService) (w : World) (now : Z)
    (uid : ObjectId) (pl : GeneratePayload) (db : gmap ObjectId AIResponse) :
  Revised.generateAIResponse svc w now uid pl db
  = (redispatched (pl_previousResponseId pl) <$> (generateAIResponse svc w now uid pl db).1,
     (generateAIResponse svc w now uid pl db).2).
Proof.
  unfold Revised.generateAIResponse, generateAIResponse, newAIResponse.
  destruct (negb (generateAIResponseValidation pl)); [reflexivity|].
  cbv zeta.
  destruct (pl_projectId pl) as [pid|]; cbv beta iota;
    (destruct (modelsToUse svc (pl_settings pl)) as [|k l]; [reflexivity|]);
    match goal with
    | |- context [save ?t ?i ?x ?c] => destruct (save t i x c) as [saved db']
    end; reflexivity.
Qed.

(** ** The provider caller, continued *)

(** X21.  When the gateway answers the call of an enabled, configured
    provider with a body, the result is a success with the text of the first
    choice (empty when there is none), the token counts of [usage] (0 for
    each one that is missing), and the elapsed time; when the body is null
    the property access fails and the result is an error like any other
    failure of the call. *)
Theorem callOpenRouter_gateway_answer (svc : AIService) (w : World) (m : Model)
    (apiModelId promptText : string) (st : Settings) (key : string) (body : option Body) :
  enabled (provider svc m) = true ->
  apiKey (provider svc m) = Some key ->
  truthy (Some key) = true ->
  axios_post w (requestData apiModelId (snd (conversationHistory w (model_name m) st))
                  promptText st key) = Fulfilled body ->
  snd (callOpenRouter svc w (model_name m) apiModelId promptText st)
  = Return
      match body with
      | Some b =>
          {| r_model := model_name m;
             r_response := Some (default EmptyString (choice_content b));
             r_status := success;
             r_errorMessage := None;
             r_tokens :=
               Some {| tk_prompt := default 0 (usage b ≫= prompt_tokens);
                       tk_completion := default 0 (usage b ≫= completion_tokens);
                       tk_total := default 0 (usage b ≫= total_tokens) |};
             r_responseTime := Some (finished w (model_name m) - started w);
             r_createdAt := Some (finished w (model_name m)) |}
      | None =>
          {| r_model := model_name m;
             r_response := Some EmptyString;
             r_status := error;
             r_errorMessage :=
               Some (model_name m
                     +:+ " Error: Cannot read properties of null (reading 'choices')");
             r_tokens := Some zero_tokens;
             r_responseTime := Some (finished w (model_name m) - started w);
             r_createdAt := Some (finished w (model_name m)) |}
      end.
Proof.
  intros Hen Hkey Htruthy Hpost.
  unfold callOpenRouter, callOpenRouter_try.
  rewrite known_model_name, Hen, Hkey, Htruthy. cbn [negb]. rewrite andb_false_r.
  destruct (conversationHistory w (model_name m) st) as [hlog messages].
  cbn [snd] in Hpost. rewrite Hpost.
  destruct body as [b|]; cbn [snd]; [|reflexivity].
  f_equal. f_equal.
  - f_equal. destruct (choice_content b) as [[|c s]|]; reflexivity.
  - f_equal. destruct (usage b) as [us|]; [|reflexivity]. cbn.
    assert (Hz : forall x, z_or x 0 = default 0 x).
    { intros [z|]; [|reflexivity]. unfold z_or. destruct (Z.eqb_spec z 0); simpl; congruence. }
    rewrite !Hz. reflexivity.
Qed.

(** ** From the submission to the first save after the last completion *)





(** ** The default project *)

Lemma js_length_append (a b : string) :
  js_length (a +:+ b) = (js_length a + js_length b)%nat.
Proof. induction a as [|c a IH]; simpl; [reflexivity | rewrite IH; lia]. Qed.

Lemma units_continuation (x : N) :
  (128 <= x < 192)%N -> units (ascii_of_N x) = 0%nat.
Proof.
  intros H. unfold units, continuation, byte.
  rewrite N_ascii_embedding by lia.
  destruct (N.leb_spec 128 x); [|lia]. destruct (N.ltb_spec x 192); [reflexivity | lia].
Qed.

Lemma js_length_high_surrogate (b0 b1 b2 : ascii) :
  js_length (high_surrogate b0 b1 b2) = 1%nat.
Proof.
  unfold high_surrogate. cbv zeta.
  generalize (byte b0 mod 8 * 256 + byte b1 mod 64 * 4 + byte b2 mod 64 / 16 - 64)%N.
  intros hi. cbn [js_length].
  change (units (ascii_of_N 237)) with 1%nat.
  pose proof (N.mod_lt hi 64 ltac:(discriminate)) as Hlow.
  pose proof (N.mod_lt (hi / 64) 16 ltac:(discriminate)) as Hhigh.
  set (low := (hi mod 64)%N) in *. set (high := (hi / 64 mod 16)%N) in *.
  clearbody low high.
  rewrite !units_continuation by lia. reflexivity.
Qed.

Lemma js_length_prefix (n : nat) (s : string) : (js_length (js_prefix n s) <= n)%nat.
Proof.
  revert n. induction s as [|c s IH]; intros n; [simpl; lia|].
  cbn [js_prefix]. destruct (continuation c) eqn:Ec.
  - cbn [js_length]. unfold units. rewrite Ec. apply IH.
  - destruct n as [|n]; [simpl; lia|].
    destruct (N.leb 240 (byte c)) eqn:E4.
    + destruct n as [|n].
      * destruct s as [|b1 [|b2 s]]; try (simpl; lia).
        rewrite js_length_high_surrogate. lia.
      * cbn [js_length]. unfold units. rewrite Ec, E4. pose proof (IH n). lia.
    + cbn [js_length]. unfold units. rewrite Ec, E4. pose proof (IH n). lia.
Qed.

Lemma js_length_after_space (s rest : string) :
  after_space s = Some rest -> (js_length rest <= js_length s)%nat.
Proof.
  unfold after_space. destruct s as [|a [|b [|c s3]]]; try discriminate;
    repeat match goal with
           | |- context [if ?t then _ else _] => destruct t
           end;
    intros H; inversion H; subst; cbn [js_length]; lia.
Qed.

Lemma js_length_drop_spaces (fuel : nat) (s : string) :
  (js_length (drop_spaces fuel s) <= js_length s)%nat.
Proof.
  revert s. induction fuel as [|fuel IH]; intros s; [simpl; lia|].
  cbn [drop_spaces]. destruct (after_space s) as [rest|] eqn:E; [|lia].
  pose proof (js_length_after_space s rest E). pose proof (IH rest). lia.
Qed.

Lemma js_length_trim_end (s : string) : (js_length (trim_end s) <= js_length s)%nat.
Proof.
  induction s as [|c s IH]; [simpl; lia|].
  cbn [trim_end]. destruct (blank (String c s)); cbn [js_length]; lia.
Qed.

Lemma js_length_trim (s : string) : (js_length (trim s) <= js_length s)%nat.
Proof.
  unfold trim, trim_start.
  pose proof (js_length_trim_end (drop_spaces (String.length s) s)).
  pose proof (js_length_drop_spaces (String.length s) s). lia.
Qed.

(** X23.  The name under which the submit handler saves the default project
    of a request that names none: the prompt, trimmed, when the prompt has at
    most 50 UTF-16 code units, and otherwise its first 50 code units followed
    by three dots, trimmed; never more than 53 code units. *)
Theorem projectName_length (promptText : string) :
  let saved := trim (projectName promptText) in
  (js_length saved <= 53)%nat
  /\ ((js_length promptText <= 50)%nat -> saved = trim promptText)
  /\ ((50 < js_length promptText)%nat ->
      saved = trim (js_prefix 50 promptText +:+ "...")).
Proof.
  intros saved. unfold saved, projectName.
  pose proof (js_length_trim promptText) as Ht.
  pose proof (js_length_trim (js_prefix 50 promptText +:+ "...")) as Hc.
  rewrite js_length_append in Hc. pose proof (js_length_prefix 50 promptText) as Hp.
  change (js_length "...") with 3%nat in Hc.
  destruct (Nat.ltb_spec 50 (js_length promptText)) as [H|H].
  - split; [lia|]. split; [lia | reflexivity].
  - split; [lia|]. split; [reflexivity | lia].
Qed.

(** ** The properties above on the deployment of the scenario *)

(** The aggregate of the scenario is completed after the edit; removing its
    only result and saving leaves it so. *)
Lemma preSave_keeps_terminal_status_witness :
  exists d,
    Scenario.edited_once !! 7%N = Some d
    /\ overallStatus (set_field gemini None d) <> processing
    /\ overallStatus (preSave 9000 (set_field gemini None d)) <> processing.
Proof.
  eexists. split; [vm_compute; reflexivity|].
  split; [discriminate|].
  apply preSave_keeps_terminal_status. discriminate.
Defined.

Lemma generateIndependentResponses_effect_witness :
  exists d d',
    Scenario.submitted.2 !! 7%N = Some d
    /\ Scenario.settled = <[7%N := d']> Scenario.submitted.2
    /\ field d' deepseek = field d deepseek
    /\ statistics d' = statistics d.
Proof.
  eexists.
  destruct (generateIndependentResponses_effect Scenario.service 7%N "What is AI?"
              (Scenario.plain_settings (Some ["gemini"; "openai"]))
              [ {| c_model := "gemini"; c_world := Scenario.world_answering "AI is ..." 42;
                   c_now := 1900 |};
                {| c_model := "openai"; c_world := Scenario.world_timing_out;
                   c_now := 61000 |} ]
              Scenario.submitted.2 _ eq_refl) as (d' & H1 & H2 & H3 & _).
  exists d'. split; [reflexivity|]. split; [exact H1|].
  split; [exact (H2 deepseek) | exact H3].
Defined.

(** openai times out before gemini answers, or after. *)
Lemma generateIndependentResponses_any_order_witness :
  let g := {| c_model := "gemini"; c_world := Scenario.world_answering "AI is ..." 42;
              c_now := 1900 |} in
  let o := {| c_model := "openai"; c_world := Scenario.world_timing_out; c_now := 61000 |} in
  let run s :=
    generateIndependentResponses Scenario.service 7%N "What is AI?"
      (Scenario.plain_settings (Some ["gemini"; "openai"])) s Scenario.submitted.2 in
  NoDup (c_model <$> [g; o])
  /\ [g; o] ≡ₚ [o; g]
  /\ unstamped <$> (run [g; o] !! 7%N) = unstamped <$> (run [o; g] !! 7%N).
Proof.
  intros g o run.
  assert (Hnd : NoDup (c_model <$> [g; o])).
  { apply NoDup_ListNoDup. repeat constructor; simpl; intuition discriminate. }
  assert (Hp : [g; o] ≡ₚ [o; g]) by apply perm_swap.
  split; [exact Hnd|]. split; [exact Hp|].
  exact (generateIndependentResponses_any_order Scenario.service 7%N "What is AI?"
           (Scenario.plain_settings (Some ["gemini"; "openai"])) [g; o] [o; g]
           Scenario.submitted.2 Hnd Hp 7%N).
Defined.

Lemma deleteAIResponse_effect_witness :
  exists d,
    findOne Scenario.settled 7%N Scenario.owner = Some d
    /\ (deleteAIResponse Scenario.owner 7%N Scenario.settled).1
       = reply OK "AI response deleted successfully"
    /\ (deleteAIResponse Scenario.owner 7%N Scenario.settled).2 !! 7%N = None
    /\ getAIResponse Scenario.owner 7%N (deleteAIResponse Scenario.owner 7%N Scenario.settled).2
       = reply NOT_FOUND "AI response not found".
Proof.
  eexists.
  destruct (deleteAIResponse_effect Scenario.owner 7%N Scenario.settled _ eq_refl)
    as (H1 & H2 & _ & _ & H5 & _).
  split; [reflexivity|]. split; [exact H1|]. split; [exact H2 | exact H5].
Defined.

(** User 2 is not the owner of the aggregate of the scenario. *)
Lemma handlers_need_the_owner_witness :
  findOne Scenario.settled 7%N 2%N = None
  /\ (updateModelResponse 70000 2%N 7%N Scenario.manual_update Scenario.settled).2
     = Scenario.settled
  /\ (deleteAIResponse 2%N 7%N Scenario.settled).2 = Scenario.settled.
Proof.
  destruct (handlers_need_the_owner Scenario.service
              (Scenario.world_answering "AI is ..." 42) 70000 2%N 7%N Scenario.manual_update
              Scenario.settled eq_refl)
    as (_ & _ & (H1 & _) & (H2 & _) & _).
  split; [reflexivity|]. split; [exact H2 | exact H1].
Defined.

Lemma selection_and_edits_need_the_owner_witness :
  findOne Scenario.settled 7%N 2%N = None
  /\ (selectPreferredResponse Scenario.accept (Scenario.world_answering "AI is ..." 42)
        70000 2%N 7%N "gemini" Scenario.settled).2 = Scenario.settled
  /\ (SingleModel.deleteSingleModelResponse 70000 2%N 7%N "gemini" Scenario.settled).2
     = Scenario.settled.
Proof.
  destruct (selection_and_edits_need_the_owner Scenario.accept
              (Scenario.world_answering "AI is ..." 42) 70000 2%N 7%N "gemini" (Some "mine")
              Scenario.settled eq_refl)
    as ((H1 & _) & _ & _ & (H2 & _)).
  split; [reflexivity|]. split; [exact H1 | exact H2].
Defined.

Lemma dispatched_models_return_witness :
  "gemini" ∈ modelsToUse Scenario.service (Scenario.plain_settings (Some ["gemini"; "openai"]))
  /\ exists r,
       snd (generateSingleModelResponse Scenario.service Scenario.world_timing_out "gemini"
              "What is AI?" (Scenario.plain_settings None)) = Return r
       /\ r_model r = "gemini"
       /\ r_status r <> pending.
Proof.
  assert (Hin : "gemini" ∈ modelsToUse Scenario.service
                             (Scenario.plain_settings (Some ["gemini"; "openai"])))
    by (apply list_elem_of_In; simpl; auto).
  split; [exact Hin|].
  destruct (dispatched_models_return Scenario.service
              (Scenario.plain_settings (Some ["gemini"; "openai"])) "gemini"
              Scenario.world_timing_out 61000 "What is AI?" (Scenario.plain_settings None) Hin)
    as (r & H1 & H2 & H3 & _).
  exists r. split; [exact H1|]. split; [exact H2 | exact H3].
Defined.

Lemma newAIService_gateway_key_witness :
  truthy (OPENROUTER_API_KEY Scenario.env_gateway) = true
  /\ enabled (provider (newAIService Scenario.env_gateway) llama) = true
  /\ apiKey (provider (newAIService Scenario.env_gateway) llama) = Some "sk-or-1".
Proof.
  destruct (newAIService_gateway_key Scenario.env_gateway llama eq_refl) as (H1 & H2 & _).
  split; [reflexivity|]. split; [exact H1 | exact H2].
Defined.

(** With the OpenAI key only, and no test mode, the call of openai goes to
    the gateway. *)
Lemma enabled_provider_calls_or_mocks_witness :
  enabled (provider (newAIService Scenario.env_openai_only) openai) = true
  /\ ((exists key,
          apiKey (provider (newAIService Scenario.env_openai_only) openai) = Some key
          /\ truthy (Some key) = true
          /\ LogCalling "openai" "openai/gpt-oss-20b:free"
               ∈ fst (callOpenRouter_try (newAIService Scenario.env_openai_only)
                        Scenario.world_timing_out "openai" "openai/gpt-oss-20b:free"
                        "What is AI?" (Scenario.plain_settings None)))
      \/ (truthy (apiKey (provider (newAIService Scenario.env_openai_only) openai)) = false
          /\ testMode (newAIService Scenario.env_openai_only) = true
          /\ callOpenRouter (newAIService Scenario.env_openai_only) Scenario.world_timing_out
               "openai" "openai/gpt-oss-20b:free" "What is AI?" (Scenario.plain_settings None)
             = ([], Return (generateMockResponse (mock Scenario.world_timing_out "openai")
                              "openai" "What is AI?")))).
Proof.
  split; [reflexivity|].
  exact (enabled_provider_calls_or_mocks Scenario.env_openai_only Scenario.world_timing_out
           openai "openai/gpt-oss-20b:free" "What is AI?" (Scenario.plain_settings None)
           eq_refl).
Defined.

(** A gateway that answers the bearer of the gateway key only answers
    gemini's call as the gateway of the scenario does. *)
Lemma callOpenRouter_request_witness :
  let w := Scenario.world_answering "AI is ..." 42 in
  let post (r : Request) :=
    if String.eqb (req_bearer r) "sk-or-1" then axios_post w r
    else Rejected Scenario.timeout in
  apiKey (provider Scenario.service gemini) = Some "sk-or-1"
  /\ callOpenRouter Scenario.service (with_axios post w) (model_name gemini)
       "google/gemini-2.0-flash-exp:free" "What is AI?" (Scenario.plain_settings None)
     = callOpenRouter Scenario.service w (model_name gemini)
         "google/gemini-2.0-flash-exp:free" "What is AI?" (Scenario.plain_settings None).
Proof.
  intros w post. split; [reflexivity|].
  destruct (callOpenRouter_request Scenario.service w gemini
              "google/gemini-2.0-flash-exp:free" "What is AI?" "sk-or-1"
              (Scenario.plain_settings None) eq_refl) as [H _].
  apply (H post). reflexivity.
Defined.

Lemma updateSingleModelResponse_effect_witness :
  exists d r d',
    findOne Scenario.one_settled 7%N Scenario.owner = Some d
    /\ field d gemini = Some r
    /\ Scenario.edited_once = <[7%N := d']> Scenario.one_settled
    /\ (response <$> field d' gemini) = Some (Some "AI is a field of study.")
    /\ (isEdited <$> field d' gemini) = Some true.
Proof.
  do 2 eexists.
  destruct (updateSingleModelResponse_effect 5000 Scenario.owner 7%N gemini
              "AI is a field of study." Scenario.one_settled _ _ eq_refl eq_refl
              ltac:(discriminate)) as (d' & H1 & H2 & _).
  exists d'. split; [reflexivity|]. split; [reflexivity|].
  split; [exact (f_equal snd H1)|].
  rewrite H2. split; reflexivity.
Defined.

Lemma deleteSingleModelResponse_effect_witness :
  exists d d',
    findOne Scenario.r_selected 7%N Scenario.owner = Some d
    /\ Scenario.r_deleted = <[7%N := d']> Scenario.r_selected
    /\ field d' gemini = None
    /\ totalModels d' = totalModels d.
Proof.
  eexists.
  destruct (deleteSingleModelResponse_effect 4000 5000 Scenario.owner 7%N gemini "again"
              Scenario.r_selected _ eq_refl ltac:(discriminate))
    as (d' & H1 & H2 & _ & H4 & _).
  exists d'. split; [reflexivity|]. split; [exact (f_equal snd H1)|].
  split; [exact H2 | exact H4].
Defined.

(** The owner records by hand that gemini's call gave 40 tokens in 800 ms. *)
Lemma updateModelResponse_effect_witness :
  let u := {| u_model := "gemini"; u_response := Some " AI is a field. ";
              u_status := success; u_errorMessage := None;
              u_tokens := Some {| tk_prompt := 10; tk_completion := 30; tk_total := 40 |};
              u_responseTime := Some 800 |} in
  exists d d',
    updateModelResponseValidation u = true
    /\ findOne Scenario.settled 7%N Scenario.owner = Some d
    /\ updateModelResponse 70000 Scenario.owner 7%N u Scenario.settled
       = (reply_with OK "Model response updated successfully" d', <[7%N := d']> Scenario.settled)
    /\ (response <$> field d' gemini) = Some (Some "AI is a field.")
    /\ (tk_total ∘ tokens <$> field d' gemini) = Some 40
    /\ field d' openai = field d openai.
Proof.
  intros u. eexists.
  destruct (updateModelResponse_effect 70000 Scenario.owner 7%N u
              {| tk_prompt := 10; tk_completion := 30; tk_total := 40 |} 800
              Scenario.settled _ eq_refl eq_refl eq_refl eq_refl) as (m & Hm & H).
  injection Hm as <-. cbv beta iota in H.
  match type of H with
  | match ?f with Some _ => _ | None => _ end =>
      let v := eval vm_compute in f in change f with v in H
  end.
  cbv beta iota in H. destruct H as (d' & H1 & H2 & H3 & _).
  exists d'. split; [reflexivity|]. split; [reflexivity|]. split; [exact H1|].
  rewrite H2. split; [reflexivity|]. split; [reflexivity|]. apply H3. discriminate.
Defined.

(** With the OpenAI key only, a request for gemini alone is refused. *)
Lemma generateAIResponse_refused_witness :
  modelsToUse Scenario.service_openai_only (pl_settings (Scenario.payload ["gemini"])) = []
  /\ generateAIResponse Scenario.service_openai_only (Scenario.world_answering "AI is ..." 42)
       1000 Scenario.owner (Scenario.payload ["gemini"]) ∅
     = ([EvReplied (reply BAD_REQUEST "No AI models are configured and available")], ∅).
Proof.
  split; [reflexivity|].
  destruct (generateAIResponse_refused Scenario.service_openai_only
              (Scenario.world_answering "AI is ..." 42) 1000 Scenario.owner
              (Scenario.payload ["gemini"]) ∅ (or_intror eq_refl))
    as (created & msg & H & _ & Hc & Hm).
  rewrite H, Hc, Hm. reflexivity.
Defined.

Lemma callOpenRouter_gateway_answer_witness :
  enabled (provider Scenario.service gemini) = true
  /\ apiKey (provider Scenario.service gemini) = Some "sk-or-1"
  /\ (r_response <$> snd (callOpenRouter Scenario.service (Scenario.world_answering "AI is ..." 42)
                            (model_name gemini) "google/gemini-2.0-flash-exp:free" "What is AI?"
                            (Scenario.plain_settings None)))
     = Return (Some "AI is ...").
Proof.
  split; [reflexivity|]. split; [reflexivity|].
  rewrite (callOpenRouter_gateway_answer Scenario.service
             (Scenario.world_answering "AI is ..." 42) gemini
             "google/gemini-2.0-flash-exp:free" "What is AI?" (Scenario.plain_settings None)
             "sk-or-1" _ eq_refl eq_refl eq_refl eq_refl).
  reflexivity.
Defined.


Lemma generateAIResponse_creates_pending_witness :
  generateAIResponseValidation (Scenario.payload ["gemini"; "openai"]) = true
  /\ modelsToUse Scenario.service (pl_settings (Scenario.payload ["gemini"; "openai"]))
     = ["gemini"; "openai"]
  /\ exists d,
       Scenario.submitted.2 = <[7%N := d]> ∅
       /\ totalModels d = 2
       /\ statistics d = (0, 0, 0, processing, None, 0).
Proof.
  split; [reflexivity|]. split; [reflexivity|].
  destruct (generateAIResponse_creates_pending Scenario.service
              (Scenario.world_answering "AI is ..." 42) 1000 Scenario.owner
              (Scenario.payload ["gemini"; "openai"]) ∅ eq_refl ltac:(discriminate))
    as (created & d & H1 & _ & _ & H4 & H5 & _).
  exists d. split; [exact (f_equal snd H1)|]. split; [exact H4 | exact H5].
Defined.
